(** * gmst_py1812: receiver-point generation, configuration store, GeoJSON
      assembly and the batch orchestrator, embedded from the Python sources

    Source files embedded here:
    - [src/mst_gis/propagation/point_generator.py]  ([generate_phyllotaxis])
    - [src/mst_gis/utils/validation.py]             ([validate_config])
    - [src/mst_gis/pipeline/config.py]              ([ConfigManager])
    - [src/mst_gis/gis/geojson_builder.py]          (the four feature builders)
    - [src/mst_gis/propagation/batch_processor.py]  ([main])
    - [scripts/generate_receiver_points.py]         ([generate_geojson])
    - [src/mst_gis/utils/logging.py]                (the progress tracker, the
      timers, the logger and the formatters)

    Part I holds the embedding, Part II the vocabulary in which the
    properties are stated, Part III the properties and their proofs. *)

From Stdlib Require Import ZArith QArith Qcanon Lia List Ascii String.
From Stdlib Require Import DecimalString Qpower.
From Stdlib Require Lqa.
From stdpp Require Import base option list strings gmap fin_maps.

(* ===================================================================== *)
(** * Part I: the embedding                                               *)
(* ===================================================================== *)

(** ** Python floats by their exact value

    A finite double denotes a rational, next to the two infinities and
    NaN.  (The two zeros are not told apart.)  This module only
    compares, moves and prints such values; arithmetic on them, with its
    rounding, is in [Binary64] and [PyNum]. *)
Module PyFloat.

Inductive pyfloat :=
  | FFin (q : Q)
  | FInf (neg : bool)
  | FNaN.

(** [a < b] *)
Definition flt (a b : pyfloat) : bool :=
  match a, b with
  | FNaN, _ | _, FNaN => false
  | FFin x, FFin y => negb (Qle_bool y x)
  | FFin _, FInf neg => negb neg
  | FInf neg, FFin _ => neg
  | FInf na, FInf nb => na && negb nb
  end.

(** [a <= b] *)
Definition fle (a b : pyfloat) : bool :=
  match a, b with
  | FNaN, _ | _, FNaN => false
  | FFin x, FFin y => Qle_bool x y
  | FFin _, FInf neg => negb neg
  | FInf neg, FFin _ => neg
  | FInf na, FInf nb => na || negb nb
  end.

(** [a == b] *)
Definition feq (a b : pyfloat) : bool :=
  match a, b with
  | FFin x, FFin y => Qeq_bool x y
  | FInf na, FInf nb => Bool.eqb na nb
  | _, _ => false
  end.

(** The builtin [max(a, b)]: the first argument unless the second is
    greater. *)
Definition pymax (a b : pyfloat) : pyfloat := if flt a b then b else a.

(** Decimal digits of a natural number, as [str(int)] prints them. *)
Definition str_of_N (n : N) : string := NilZero.string_of_uint (N.to_uint n).

Definition str_of_Z (z : Z) : string :=
  match z with
  | Zneg p => ("-" ++ str_of_N (Npos p))%string
  | _ => str_of_N (Z.to_N z)
  end.

(** Nearest integer to [n/d] ([0 <= n], [0 < d]), ties to even. *)
Definition round_half_even (n : Z) (d : positive) : Z :=
  let k := (n / Zpos d)%Z in
  let r := (n mod Zpos d)%Z in
  match (2 * r ?= Zpos d)%Z with
  | Lt => k
  | Gt => (k + 1)%Z
  | Eq => if Z.even k then k else (k + 1)%Z
  end.

(** [f"{x:.1f}"]: correctly rounded to one decimal place. *)
Definition format_1f (x : pyfloat) : string :=
  match x with
  | FNaN => "nan"
  | FInf false => "inf"
  | FInf true => "-inf"
  | FFin q =>
      let t := round_half_even (10 * Z.abs (Qnum q)) (Qden q) in
      ((if (Qnum q <? 0)%Z then "-" else "")
         ++ str_of_Z (t / 10) ++ "." ++ str_of_Z (t mod 10))%string
  end.

(** [s.replace(old, new)] for one-character [old] and [new]. *)
Fixpoint str_replace (old new : ascii) (s : string) : string :=
  match s with
  | EmptyString => EmptyString
  | String c rest =>
      String (if Ascii.eqb c old then new else c) (str_replace old new rest)
  end.

End PyFloat.

(** ** Python values

    Scalars are immediate; a dict is an object in the store and a value
    holds a reference to it, so that two values can name the same dict. *)
Definition loc := positive.

Inductive pykey :=
  | KStr (s : string)
  | KInt (z : Z).

Inductive scalar :=
  | SNone
  | SBool (b : bool)
  | SInt (z : Z)
  | SFloat (f : PyFloat.pyfloat)
  | SStr (s : string).

Inductive pyval :=
  | VSc (s : scalar)
  | VRef (l : loc).
Coercion VSc : scalar >-> pyval.

#[global] Instance pykey_eq_dec : EqDecision pykey.
Proof. solve_decision. Defined.

#[global] Instance pykey_countable : Countable pykey.
Proof.
  refine (inj_countable'
            (fun k => match k with KStr s => inl s | KInt z => inr z end)
            (fun x => match x with inl s => KStr s | inr z => KInt z end) _).
  intros []; reflexivity.
Defined.

Abbreviation pydict := (gmap pykey pyval).
Abbreviation heap := (gmap loc (gmap pykey pyval)).

(** ** Python exceptions and the state-and-exception monad *)

(** An f-string is kept as the sequence of its literal and interpolated
    parts; [str()] of a float is not re-implemented. *)
Inductive fpart :=
  | FLit (s : string)
  | FVal (v : pyval)
  | FList (l : list string).

Module Py.

Inductive exn :=
  | ValidationError (msg : list fpart)
  | ConfigError (msg : list fpart)
  | TypeError
  | KeyError
  | IndexError
  | ValueError
  | ZeroDivisionError
  | ImportError.

(** Outcome of a call: a value, or a raised exception. *)
Inductive res (A : Type) :=
  | Ok (a : A)
  | Raise (e : exn).
Arguments Ok {A} a.
Arguments Raise {A} e.

Definition rbind {A B} (r : res A) (k : A -> res B) : res B :=
  match r with
  | Ok a => k a
  | Raise e => Raise e
  end.

(** Calls that read and write a store [S]; the store survives a raise, as
    Python objects mutated before an exception stay mutated. *)
Definition M (S A : Type) : Type := S -> res A * S.

Definition ret {S A} (a : A) : M S A := fun s => (Ok a, s).
Definition raise {S A} (e : exn) : M S A := fun s => (Raise e, s).
Definition bind {S A B} (m : M S A) (k : A -> M S B) : M S B :=
  fun s => match m s with
           | (Ok a, s') => k a s'
           | (Raise e, s') => (Raise e, s')
           end.
Definition lift {S A} (r : res A) : M S A := fun s => (r, s).
(** An operation that reads the store and may raise. *)
Definition reads {S A} (f : S -> res A) : M S A := fun s => (f s, s).

End Py.

Declare Scope py_scope.
Delimit Scope py_scope with py.
Notation "x <- c1 ;; c2" := (Py.bind c1 (fun x => c2))
  (at level 100, c1 at next level, right associativity) : py_scope.
Notation "c1 ;;; c2" := (Py.bind c1 (fun _ => c2))
  (at level 100, right associativity) : py_scope.
Notation "x <-r c1 ;; c2" := (Py.rbind c1 (fun x => c2))
  (at level 100, c1 at next level, right associativity) : py_scope.

(** ** Python operators on values

    Only what [validation.py] and [config.py] apply to values. *)
Module PyOps.
Import Py PyFloat.

(** [k in s] for two strings: [k] occurs in [s]. *)
Fixpoint str_contains (k s : string) : bool :=
  String.prefix k s ||
  match s with
  | EmptyString => false
  | String _ rest => str_contains k rest
  end.

(** [key in container] *)
Definition py_contains (h : heap) (container : pyval) (key : pykey)
  : res bool :=
  match container with
  | VRef l =>
      match h !! l with
      | Some d => Ok (bool_decide (is_Some (d !! key)))
      | None => Raise TypeError
      end
  | VSc (SStr s) =>
      match key with
      | KStr k => Ok (str_contains k s)
      | KInt _ => Raise TypeError
      end
  | _ => Raise TypeError
  end.

(** [container[key]] *)
Definition py_getitem (h : heap) (container : pyval) (key : pykey)
  : res pyval :=
  match container with
  | VRef l =>
      match h !! l with
      | Some d =>
          match d !! key with
          | Some v => Ok v
          | None => Raise KeyError
          end
      | None => Raise TypeError
      end
  | VSc (SStr s) =>
      match key with
      | KInt z =>
          let n := Z.of_nat (String.length s) in
          let i := if (z <? 0)%Z then (z + n)%Z else z in
          if ((0 <=? i) && (i <? n))%Z
          then Ok (VSc (SStr (String.substring (Z.to_nat i) 1 s)))
          else Raise IndexError
      | KStr _ => Raise TypeError
      end
  | _ => Raise TypeError
  end.

(** [container[key] = v] *)
Definition py_setitem (container : pyval) (key : pykey) (v : pyval)
  : M heap unit :=
  fun h =>
    match container with
    | VRef l =>
        match h !! l with
        | Some d => (Ok tt, <[l := <[key := v]> d]> h)
        | None => (Raise TypeError, h)
        end
    | _ => (Raise TypeError, h)
    end.

(** A new dict object holding [d]. *)
Definition py_alloc (d : pydict) : M heap loc :=
  fun h => let l := fresh (dom h) in (Ok l, <[l := d]> h).

(** [d.copy()]: a new dict with the same keys and the same values, so a
    nested dict is shared between the copy and the original. *)
Definition dict_copy (l : loc) : M heap loc :=
  fun h =>
    match h !! l with
    | Some d => py_alloc d h
    | None => (Raise TypeError, h)
    end.

(** The number a scalar stands for in a comparison, if it is one
    ([bool] is a subclass of [int]). *)
Definition num_of (s : scalar) : option pyfloat :=
  match s with
  | SBool b => Some (FFin (if b then 1 else 0))
  | SInt z => Some (FFin (inject_Z z))
  | SFloat f => Some f
  | _ => None
  end.

(** [a <= b] *)
Definition py_le (a b : pyval) : res bool :=
  match a, b with
  | VSc (SStr x), VSc (SStr y) => Ok (String.leb x y)
  | VSc x, VSc y =>
      match num_of x, num_of y with
      | Some p, Some q => Ok (fle p q)
      | _, _ => Raise TypeError
      end
  | _, _ => Raise TypeError
  end.

(** [v == z] for an [int] literal [z]; never raises. *)
Definition py_eq_int (v : pyval) (z : Z) : bool :=
  match v with
  | VSc s =>
      match num_of s with
      | Some p => feq p (FFin (inject_Z z))
      | None => false
      end
  | VRef _ => false
  end.

(** [lo <= v <= hi]: the second comparison runs only if the first holds. *)
Definition py_between (lo v hi : pyval) : res bool :=
  (b1 <-r py_le lo v ;;
   if b1 : bool then py_le v hi else Ok false)%py.

End PyOps.

(** ** utils/validation.py: [validate_config] *)
Module Validation.
Import Py PyFloat PyOps.

(** The double written [0.03]. *)
Definition float_0_03 : pyfloat := FFin (1080863910568919 # 36028797018963968).

Definition required_sections : list string :=
  ["TRANSMITTER"; "P1812"; "RECEIVER_GENERATION"; "LCM10_TO_CT"; "CT_TO_R"]%string.
Definition required_tx_keys : list string :=
  ["latitude"; "longitude"; "antenna_height_tx"; "antenna_height_rx"]%string.
Definition required_p1812 : list string :=
  ["frequency_ghz"; "time_percentage"; "polarization"]%string.

(** [[key for key in required if key not in container]] *)
Fixpoint missing_from (h : heap) (required : list string) (container : pyval)
  : res (list string) :=
  match required with
  | [] => Ok []
  | key :: rest =>
      (b <-r py_contains h container (KStr key) ;;
       more <-r missing_from h rest container ;;
       Ok (if b : bool then more else key :: more))%py
  end.

Definition is_empty {A} (l : list A) : bool :=
  match l with [] => true | _ => false end.

Definition validate_config (h : heap) (config : pyval) : res unit :=
  (missing <-r missing_from h required_sections config ;;
   if negb (is_empty missing)
   then Raise (ValidationError [FLit "Missing CONFIG sections: "; FList missing])
   else
   tx <-r py_getitem h config (KStr "TRANSMITTER") ;;
   missing_tx <-r missing_from h required_tx_keys tx ;;
   if negb (is_empty missing_tx)
   then Raise (ValidationError [FLit "Missing TRANSMITTER keys: "; FList missing_tx])
   else
   p1812 <-r py_getitem h config (KStr "P1812") ;;
   missing_p1812 <-r missing_from h required_p1812 p1812 ;;
   if negb (is_empty missing_p1812)
   then Raise (ValidationError [FLit "Missing P1812 keys: "; FList missing_p1812])
   else
   f <-r py_getitem h p1812 (KStr "frequency_ghz") ;;
   f_ok <-r py_between (SFloat float_0_03) f (SInt 6) ;;
   if negb f_ok
   then Raise (ValidationError
                 [FLit "Frequency "; FVal f; FLit " outside valid range [0.03, 6]"])
   else
   p <-r py_getitem h p1812 (KStr "time_percentage") ;;
   p_ok <-r py_between (SInt 1) p (SInt 50) ;;
   if negb p_ok
   then Raise (ValidationError
                 [FLit "Time percentage "; FVal p; FLit " outside valid range [1, 50]"])
   else
   pol <-r py_getitem h p1812 (KStr "polarization") ;;
   if negb (py_eq_int pol 1 || py_eq_int pol 2)
   then Raise (ValidationError
                 [FLit "Polarization "; FVal pol; FLit " must be 1 (H) or 2 (V)"])
   else Ok tt)%py.

End Validation.

(** ** pipeline/config.py *)
Module Config.
Import Py PyFloat PyOps.
Local Open Scope py_scope.

(** The module-level [DEFAULT_CONFIG] and its six section dicts. *)
Definition DEFAULT_CONFIG : loc := 1%positive.
Definition TRANSMITTER_loc : loc := 2%positive.
Definition P1812_loc : loc := 3%positive.
Definition RECEIVER_GENERATION_loc : loc := 4%positive.
Definition SENTINEL_HUB_loc : loc := 5%positive.
Definition LCM10_TO_CT_loc : loc := 6%positive.
Definition CT_TO_R_loc : loc := 7%positive.

Definition dict_of (l : list (pykey * pyval)) : pydict := list_to_map l.

Definition default_transmitter : pydict :=
  dict_of
    [(KStr "tx_id", VSc (SStr "TX_0001"));
     (KStr "longitude", VSc (SFloat (FFin (-7547436248522325 # 562949953421312))));
     (KStr "latitude", VSc (SFloat (FFin (5260767314722161 # 562949953421312))));
     (KStr "antenna_height_tx", VSc (SInt 57));
     (KStr "antenna_height_rx", VSc (SInt 10))].

Definition default_p1812 : pydict :=
  dict_of
    [(KStr "frequency_ghz", VSc (SFloat (FFin (8106479329266893 # 9007199254740992))));
     (KStr "time_percentage", VSc (SInt 50));
     (KStr "polarization", VSc (SInt 1))].

Definition default_receiver_generation : pydict :=
  dict_of
    [(KStr "max_distance_km", VSc (SInt 11));
     (KStr "azimuth_step", VSc (SInt 10));
     (KStr "distance_step", VSc (SFloat Validation.float_0_03));
     (KStr "sampling_resolution", VSc (SInt 30))].

Definition default_sentinel_hub : pydict :=
  dict_of
    [(KStr "buffer_m", VSc (SInt 11000));
     (KStr "chip_px", VSc (SInt 734));
     (KStr "year", VSc (SInt 2020))].

Definition default_lcm10_to_ct : pydict :=
  dict_of
    (map (fun kv : Z * Z => (KInt (fst kv), VSc (SInt (snd kv))))
       [(100, 1); (80, 2); (30, 2); (40, 2); (70, 2); (110, 2); (254, 2);
        (20, 3); (50, 3); (10, 4); (60, 4); (90, 4)]%Z).

Definition default_ct_to_r : pydict :=
  dict_of
    (map (fun kv : Z * Z => (KInt (fst kv), VSc (SInt (snd kv))))
       [(1, 0); (2, 0); (3, 10); (4, 15); (5, 20)]%Z).

Definition default_config : pydict :=
  dict_of
    [(KStr "TRANSMITTER", VRef TRANSMITTER_loc);
     (KStr "P1812", VRef P1812_loc);
     (KStr "RECEIVER_GENERATION", VRef RECEIVER_GENERATION_loc);
     (KStr "SENTINEL_HUB", VRef SENTINEL_HUB_loc);
     (KStr "LCM10_TO_CT", VRef LCM10_TO_CT_loc);
     (KStr "CT_TO_R", VRef CT_TO_R_loc)].

(** The store once the module is imported. *)
Definition module_heap : heap :=
  list_to_map
    [(DEFAULT_CONFIG, default_config);
     (TRANSMITTER_loc, default_transmitter);
     (P1812_loc, default_p1812);
     (RECEIVER_GENERATION_loc, default_receiver_generation);
     (SENTINEL_HUB_loc, default_sentinel_hub);
     (LCM10_TO_CT_loc, default_lcm10_to_ct);
     (CT_TO_R_loc, default_ct_to_r)].

(** A dict a caller passes in (an override, a parsed file): scalars and
    nested dicts, entries in iteration order.  It becomes an object of
    the store where the code stores it. *)
#[warnings="-register-all"]
Inductive pylit :=
  | LVal (s : scalar)
  | LDict (entries : list (pykey * pylit)).

Fixpoint alloc_lit (x : pylit) : M heap pyval :=
  match x with
  | LVal s => ret (VSc s)
  | LDict entries =>
      d <- (fix fill (es : list (pykey * pylit)) (d : pydict) : M heap pydict :=
              match es with
              | [] => ret d
              | (k, v) :: rest => pv <- alloc_lit v ;; fill rest (<[k := pv]> d)
              end) entries ∅ ;;
      l <- py_alloc d ;;
      ret (VRef l)
  end.

(** An instance: its one attribute, [self.config], names a dict. *)
Record ConfigManager := { config : loc }.

(** [_deep_update(target, source)], lines 71-77.  Every caller passes a
    dict as [source]; a scalar there has no [items]. *)
Fixpoint _deep_update (target : pyval) (source : pylit) : M heap unit :=
  match source with
  | LVal _ => raise TypeError
  | LDict entries =>
      (fix items (es : list (pykey * pylit)) : M heap unit :=
         match es with
         | [] => ret tt
         | (key, value) :: rest =>
             match value with
             | LDict _ =>
                 b <- reads (fun h => py_contains h target key) ;;
                 if b : bool
                 then t <- reads (fun h => py_getitem h target key) ;;
                      _deep_update t value
                 else v <- alloc_lit value ;; py_setitem target key v
             | LVal s => py_setitem target key (VSc s)
             end ;;;
             items rest
         end) entries
  end.

(** [validate], lines 79-84: a ValidationError becomes a ConfigError,
    anything else passes through. *)
Definition validate (self : ConfigManager) : M heap unit :=
  fun h =>
    match Validation.validate_config h (VRef (config self)) with
    | Ok _ => (Ok tt, h)
    | Raise (ValidationError e) =>
        (Raise (ConfigError (FLit "Invalid configuration: " :: e)), h)
    | Raise e => (Raise e, h)
    end.

(** [__init__], lines 64-69; [override] is [None] or a dict, and an empty
    dict is falsy. *)
Definition init (override : option (list (pykey * pylit)))
  : M heap ConfigManager :=
  c <- dict_copy DEFAULT_CONFIG ;;
  let self := {| config := c |} in
  match override with
  | Some ((_ :: _) as entries) => _deep_update (VRef c) (LDict entries)
  | _ => ret tt
  end ;;;
  validate self ;;;
  ret self.

(** [d.get(key, default)] *)
Definition dict_get (d : pydict) (key : pykey) (dflt : pyval) : pyval :=
  match d !! key with
  | Some v => v
  | None => dflt
  end.

(** [get], lines 86-94; it only reads the store.  An absent section
    reads as the empty dict [{}], in which no key is found. *)
Definition get (self : ConfigManager) (section : pykey) (key : option pykey)
    (dflt : pyval) (h : heap) : pyval :=
  match h !! config self with
  | None => dflt
  | Some d =>
      match key with
      | None => dict_get d section dflt
      | Some k =>
          match d !! section with
          | None => dflt
          | Some (VRef l) =>
              match h !! l with
              | Some section_data => dict_get section_data k dflt
              | None => dflt
              end
          | Some (VSc _) => dflt
          end
      end
  end.

(** [set], lines 96-101. *)
Definition set (self : ConfigManager) (section key : pykey) (value : pyval)
  : M heap unit :=
  b <- reads (fun h => py_contains h (VRef (config self)) section) ;;
  (if b : bool then ret tt
   else l <- py_alloc ∅ ;; py_setitem (VRef (config self)) section (VRef l)) ;;;
  sd <- reads (fun h => py_getitem h (VRef (config self)) section) ;;
  py_setitem sd key value ;;;
  validate self.

(** [from_defaults], lines 140-143. *)
Definition from_defaults : M heap ConfigManager := init None.

End Config.

(** ** gis/geojson_builder.py

    [V] is the type of the numbers the builders move around (frequency,
    heights, polarization, coordinates, Lb, Ep), taken by value: positions
    are compared with [!=], which is decidable equality on [V].  NaN is
    therefore no value of [V]: it is the one number that [==] does not
    find equal to itself, and whether two positions that hold it compare
    equal depends on the identity of the float objects, which a value
    does not have.  [X] stands for the entries of the parameter tuple
    this code never reads (offsets 1 and 3 to 6).

    The geometries are those of the [geojson] package (setup.py asks for
    [geojson>=2.5.0]): [geojson.Point], [geojson.LineString] and
    [geojson.Polygon] do not keep the coordinates they are given, they
    keep [round(coord, 6)] of each, 6 being the package's default
    precision.  The properties of a feature are kept as given. *)

(** [round(coord, 6)] on the numbers of [V]. *)
Class Precision6 (V : Type) := round6 : V -> V.

Module GeoJSON.
Import Py PyFloat.

Section Builder.
Context {V X : Type} `{EqDecision V} `{Precision6 V}.

(** The tuple [process_loss_parameters] returns, by the offsets used. *)
Record LossParameterSet := {
  frequency : V;               (* parameters[0] *)
  distances : list pyfloat;    (* parameters[2] *)
  passed_on : X;               (* parameters[1], parameters[3..6] *)
  htg : V;                     (* parameters[7] *)
  hrg : V;                     (* parameters[8] *)
  polarization : V;            (* parameters[9] *)
  tx_lat : V;                  (* parameters[10] *)
  rx_lat : V;                  (* parameters[11] *)
  tx_lon : V;                  (* parameters[12] *)
  rx_lon : V                   (* parameters[13] *)
}.

Inductive geometry :=
  | Point (lon lat : V)
  | LineString (coordinates : list (V * V))
  | Polygon (rings : list (list (V * V))).

Inductive prop :=
  | PStr (s : string)
  | PNum (v : V)
  | PInt (z : Z)
  | PFloat (f : pyfloat).

Record Feature := {
  geom : geometry;
  properties : list (string * prop)
}.

Record FeatureCollection := { features : list Feature }.

(** What a geometry keeps of a position: [clean_coordinates] of the
    [geojson] package rounds both coordinates. *)
Definition clean_position (position : V * V) : V * V :=
  (round6 (fst position), round6 (snd position)).

(** [geojson.Point((lon, lat))] *)
Definition geojson_Point (lon lat : V) : geometry :=
  Point (round6 lon) (round6 lat).

(** [geojson.LineString(coordinates)] *)
Definition geojson_LineString (coordinates : list (V * V)) : geometry :=
  LineString (map clean_position coordinates).

(** [geojson.Polygon(rings)] *)
Definition geojson_Polygon (rings : list (list (V * V))) : geometry :=
  Polygon (map (map clean_position) rings).

(** [xs[-1]] *)
Definition last_item {A} (xs : list A) : res A :=
  match xs with
  | [] => Raise IndexError
  | x :: rest => Ok (List.last rest x)
  end.

Definition generate_geojson_point_transmitter (parameters : LossParameterSet)
  : Feature :=
  let tx_lon := tx_lon parameters in
  let tx_lat := tx_lat parameters in
  {| geom := geojson_Point tx_lon tx_lat;
     properties :=
       [("name", PStr "Transmitter");
        ("frequency", PNum (frequency parameters));
        ("htg", PNum (htg parameters));
        ("polarization", PNum (polarization parameters));
        ("lon", PNum tx_lon);
        ("lat", PNum tx_lat)]%string |}.

Definition generate_geojson_point_receiver (parameters : LossParameterSet)
    (number : Z) (Lb Ep : V) : res Feature :=
  (let rx_lon := rx_lon parameters in
   let rx_lat := rx_lat parameters in
   d <-r last_item (distances parameters) ;;
   Ok {| geom := geojson_Point rx_lon rx_lat;
         properties :=
           [("name", PStr ("Receiver_" ++ str_of_Z number));
            ("Lb", PNum Lb);
            ("Ep", PNum Ep);
            ("hrg", PNum (hrg parameters));
            ("distance", PFloat d);
            ("lon", PNum rx_lon);
            ("lat", PNum rx_lat)]%string |})%py.

Definition generate_geojson_line (parameters : LossParameterSet)
    (index : Z) (Lb Ep : V) : res Feature :=
  (let tx_lon := tx_lon parameters in
   let tx_lat := tx_lat parameters in
   let rx_lon := rx_lon parameters in
   let rx_lat := rx_lat parameters in
   d <-r last_item (distances parameters) ;;
   Ok {| geom := geojson_LineString [(tx_lon, tx_lat); (rx_lon, rx_lat)];
         properties :=
           [("name", PStr ("Link_" ++ str_of_Z (index + 1)));
            ("rx_id", PInt (index + 1));
            ("tx_lon", PNum tx_lon);
            ("tx_lat", PNum tx_lat);
            ("rx_lon", PNum rx_lon);
            ("rx_lat", PNum rx_lat);
            ("distance_km", PFloat d);
            ("Lb", PNum Lb);
            ("Ep", PNum Ep)]%string |})%py.

(** [generate_geojson_polygon], lines 102-126.  The argument is a list
    object and [append] changes it in place: the first component of the
    result is the caller's list after the call, the second the value
    returned. *)
Definition generate_geojson_polygon (polygon_coords : list (V * V))
  : list (V * V) * FeatureCollection :=
  let polygon_coords :=
    match polygon_coords with
    | first :: rest =>
        if decide (first <> List.last rest first)
        then polygon_coords ++ [first]
        else polygon_coords
    | [] => polygon_coords
    end in
  (polygon_coords,
   {| features :=
        [{| geom :=
              match polygon_coords with
              | _ :: _ => geojson_Polygon [polygon_coords]
              | [] => geojson_Polygon [[]]
              end;
            properties := [("name", PStr "Coverage area")]%string |}] |}).

End Builder.
Arguments LossParameterSet V X : clear implicits.
Arguments geometry V : clear implicits.
Arguments prop V : clear implicits.
Arguments Feature V : clear implicits.
Arguments FeatureCollection V : clear implicits.

End GeoJSON.

(** [round(n, 6)] of an [int] is the [int] itself. *)
#[global] Instance int_precision6 : Precision6 Z := fun n => n.

(** ** propagation/batch_processor.py

    The collaborators ([Py1812.P1812.bt_loss], [load_profiles],
    [process_loss_parameters], the clock) are not part of this
    repository's sources; they read and may change an outside world
    [World].  The three files are returned, each as its path and its
    content, instead of being written.  Console output, the creation of
    the output directory and the timing around [bt_loss] are left out:
    nothing reads them back. *)
Module BatchProcessor.
Import Py PyFloat GeoJSON.
Local Open Scope py_scope.

(** What [time.localtime()] gives [time.strftime]. *)
Record struct_time := {
  tm_year : Z; tm_mon : Z; tm_mday : Z;
  tm_hour : Z; tm_min : Z; tm_sec : Z
}.

(** Zero-padding to two digits ([%m], [%d], [%H], [%M], [%S]). *)
Definition pad2 (n : Z) : string :=
  if (n <? 10)%Z then ("0" ++ str_of_Z n)%string else str_of_Z n.

(** [time.strftime("%Y%m%d_%H%M%S")] *)
Definition strftime_Ymd_HMS (t : struct_time) : string :=
  (str_of_Z (tm_year t) ++ pad2 (tm_mon t) ++ pad2 (tm_mday t) ++ "_"
     ++ pad2 (tm_hour t) ++ pad2 (tm_min t) ++ pad2 (tm_sec t))%string.

Section Batch.
Context {V X Profile World : Type} `{EqDecision V} `{Precision6 V}.

(** [None] when [import Py1812.P1812] fails. *)
Variable bt_loss : option (LossParameterSet V X -> World -> (V * V) * World).
Variable load_profiles : string -> World -> list Profile * World.
Variable process_loss_parameters : Profile -> World -> LossParameterSet V X * World.
Variable localtime : World -> struct_time * World.
(** [Path(__file__).parent.parent.parent.parent] *)
Variable project_root : string.

Definition call {A} (f : World -> A * World) : M World A :=
  fun w => let (a, w') := f w in (Ok a, w').

(** The three lists the loop of [main] appends to. *)
Record Collected := {
  points : list (Feature V);
  lines : list (Feature V);
  polygon_coords : list (V * V)
}.

(** One turn of the loop over [enumerate(profiles)], lines 53-75. *)
Definition process_profile
    (loss : LossParameterSet V X -> World -> (V * V) * World)
    (index : Z) (profile : Profile) (acc : Collected) : M World Collected :=
  parameters <- call (process_loss_parameters profile) ;;
  LbEp <- call (loss parameters) ;;
  let Lb := fst LbEp in
  let Ep := snd LbEp in
  let points :=
    if (index =? 0)%Z
    then points acc ++ [generate_geojson_point_transmitter parameters]
    else points acc in
  let rx_number := (index + 1)%Z in
  receiver <- lift (generate_geojson_point_receiver parameters rx_number Lb Ep) ;;
  let points := points ++ [receiver] in
  line <- lift (generate_geojson_line parameters index Lb Ep) ;;
  let lines := lines acc ++ [line] in
  let rx_lon := rx_lon parameters in
  let rx_lat := rx_lat parameters in
  ret {| points := points; lines := lines;
         polygon_coords := polygon_coords acc ++ [(rx_lon, rx_lat)] |}.

Fixpoint process_profiles
    (loss : LossParameterSet V X -> World -> (V * V) * World)
    (index : Z) (profiles : list Profile) (acc : Collected)
  : M World Collected :=
  match profiles with
  | [] => ret acc
  | profile :: rest =>
      acc' <- process_profile loss index profile acc ;;
      process_profiles loss (index + 1) rest acc'
  end.

(** The second loop, lines 84-88: every profile's parameters are derived
    again and the last distance is folded into [max_d_km]. *)
Fixpoint max_distance (profiles : list Profile) (max_d_km : pyfloat)
  : M World pyfloat :=
  match profiles with
  | [] => ret max_d_km
  | profile :: rest =>
      p <- call (process_loss_parameters profile) ;;
      d <- lift (last_item (distances p)) ;;
      max_distance rest (pymax max_d_km d)
  end.

(** [f"{max_d_km:.1f}".replace(".", "p") + "km"] *)
Definition d_tag (max_d_km : pyfloat) : string :=
  (str_replace "." "p" (format_1f max_d_km) ++ "km")%string.

(** [output_dir / name], for a directory as [pathlib] prints it: not
    empty and without a slash at its end. *)
Definition path_join (dir name : string) : string := (dir ++ "/" ++ name)%string.

(** The three files a run writes, each a path and its content. *)
Record Written := {
  points_file : string * FeatureCollection V;
  lines_file : string * FeatureCollection V;
  polygon_file : string * FeatureCollection V
}.

Definition main (profiles_dir output_dir : option string) : M World Written :=
  loss <- match bt_loss with
          | Some f => ret f
          | None => raise ImportError
          end ;;
  let profiles_dir :=
    match profiles_dir with
    | None => (project_root ++ "/data/input/profiles")%string
    | Some d => d
    end in
  let output_dir :=
    match output_dir with
    | None => (project_root ++ "/data/output/geojson")%string
    | Some d => d
    end in
  profiles <- call (load_profiles profiles_dir) ;;
  acc <- process_profiles loss 0 profiles
           {| points := []; lines := []; polygon_coords := [] |} ;;
  let polygon_fc := snd (generate_geojson_polygon (polygon_coords acc)) in
  t <- call localtime ;;
  let ts := strftime_Ymd_HMS t in
  max_d_km <- max_distance profiles (FFin 0) ;;
  let d_tag := d_tag max_d_km in
  let points_path :=
    path_join output_dir ("points_" ++ d_tag ++ "_" ++ ts ++ ".geojson") in
  let lines_path :=
    path_join output_dir ("lines_" ++ d_tag ++ "_" ++ ts ++ ".geojson") in
  let polygon_path :=
    path_join output_dir ("polygon_" ++ d_tag ++ "_" ++ ts ++ ".geojson") in
  ret {| points_file := (points_path, {| features := points acc |});
         lines_file := (lines_path, {| features := lines acc |});
         polygon_file := (polygon_path, polygon_fc) |}.

End Batch.

End BatchProcessor.

(** ** pipeline/config.py: exporting and reading a configuration *)
Module ConfigAccess.
Import Py PyFloat PyOps Config.
Local Open Scope py_scope.

(** [container[key]], read in the current store. *)
Definition getitem (container : pyval) (key : pykey) : M heap pyval :=
  reads (fun h => py_getitem h container key).

(** [to_dict], lines 103-105: [self.config.copy()]. *)
Definition to_dict (self : ConfigManager) : M heap loc :=
  dict_copy (config self).

(** [get_transmitter_info], lines 151-160.  The values of the dict
    display are evaluated in the order written; the result is a new
    dict. *)
Definition get_transmitter_info (config : pyval) : M heap loc :=
  tx <- getitem config (KStr "TRANSMITTER") ;;
  tx_id <- getitem tx (KStr "tx_id") ;;
  latitude <- getitem tx (KStr "latitude") ;;
  longitude <- getitem tx (KStr "longitude") ;;
  antenna_height_tx <- getitem tx (KStr "antenna_height_tx") ;;
  antenna_height_rx <- getitem tx (KStr "antenna_height_rx") ;;
  py_alloc (dict_of
              [(KStr "tx_id", tx_id);
               (KStr "latitude", latitude);
               (KStr "longitude", longitude);
               (KStr "antenna_height_tx", antenna_height_tx);
               (KStr "antenna_height_rx", antenna_height_rx)]).

(** [get_p1812_params], lines 163-170. *)
Definition get_p1812_params (config : pyval) : M heap loc :=
  p1812 <- getitem config (KStr "P1812") ;;
  frequency_ghz <- getitem p1812 (KStr "frequency_ghz") ;;
  time_percentage <- getitem p1812 (KStr "time_percentage") ;;
  polarization <- getitem p1812 (KStr "polarization") ;;
  py_alloc (dict_of
              [(KStr "frequency_ghz", frequency_ghz);
               (KStr "time_percentage", time_percentage);
               (KStr "polarization", polarization)]).

(** [get_receiver_generation_params], lines 173-181. *)
Definition get_receiver_generation_params (config : pyval) : M heap loc :=
  rg <- getitem config (KStr "RECEIVER_GENERATION") ;;
  max_distance_km <- getitem rg (KStr "max_distance_km") ;;
  azimuth_step <- getitem rg (KStr "azimuth_step") ;;
  distance_step <- getitem rg (KStr "distance_step") ;;
  sampling_resolution <- getitem rg (KStr "sampling_resolution") ;;
  py_alloc (dict_of
              [(KStr "max_distance_km", max_distance_km);
               (KStr "azimuth_step", azimuth_step);
               (KStr "distance_step", distance_step);
               (KStr "sampling_resolution", sampling_resolution)]).

(** [get_land_cover_mappings], lines 184-188: the two values themselves,
    as a pair. *)
Definition get_land_cover_mappings (config : pyval) : M heap (pyval * pyval) :=
  lcm10_to_ct <- getitem config (KStr "LCM10_TO_CT") ;;
  ct_to_r <- getitem config (KStr "CT_TO_R") ;;
  ret (lcm10_to_ct, ct_to_r).

End ConfigAccess.

(** ** Float arithmetic: rounding to binary64

    Where the code adds, subtracts, multiplies or divides floats, or
    takes a square root, the result is the double nearest to the exact
    one, ties going to the even significand (IEEE 754
    round-to-nearest-even), an infinity beyond the largest double.  The
    two zeros are not told apart. *)
Module Binary64.
Import PyFloat.
Local Open Scope Q_scope.

(** [floor(log2(n/d))] *)
Definition ilog2 (n d : positive) : Z :=
  let e := (Z.log2 (Zpos n) - Z.log2 (Zpos d))%Z in
  if Qle_bool (2 ^ e) (Zpos n # d) then e else (e - 1)%Z.

(** The integer nearest to [q >= 0], ties to even. *)
Definition nearest (q : Q) : Z := round_half_even (Qnum q) (Qden q).

(** Nearest multiple of the unit in the last place of [n/d]: 53
    significant bits, and multiples of [2^-1074] below [2^-1022]. *)
Definition round_pos (n d : positive) : Q :=
  let e := Z.max (ilog2 n d) (-1022) in
  inject_Z (nearest ((Zpos n # d) * 2 ^ (52 - e))) * 2 ^ (e - 52).

Definition round (q : Q) : pyfloat :=
  match Qnum q with
  | Z0 => FFin 0
  | Zpos n =>
      let r := round_pos n (Qden q) in
      if Qle_bool (2 ^ 1024) r then FInf false else FFin (Qred r)
  | Zneg n =>
      let r := round_pos n (Qden q) in
      if Qle_bool (2 ^ 1024) r then FInf true else FFin (Qred (- r))
  end.

(** The double nearest to [sqrt(n/d)].  The square root of the scaled
    argument is taken in the integers: [m = floor(sqrt(q) * 2^(52-e))]
    is the integer square root of [floor(q * 4^(52-e))], and the next
    integer is nearer exactly when [(2m + 1)^2 < 4 q 4^(52-e)]. *)
Definition sqrt_pos (n d : positive) : Q :=
  let e := Z.max (ilog2 n d / 2) (-1022) in
  let scaled := (Zpos n # d) * 4 ^ (52 - e) in
  let m := Z.sqrt (Qnum scaled / Zpos (Qden scaled)) in
  let m' :=
    match (inject_Z ((2 * m + 1) ^ 2) ?= 4 * scaled) with
    | Lt => (m + 1)%Z
    | Gt => m
    | Eq => if Z.even m then m else (m + 1)%Z
    end in
  inject_Z m' * 2 ^ (e - 52).

(** [sqrt(q)] for [0 <= q], rounded. *)
Definition sqrt (q : Q) : pyfloat :=
  match Qnum q with
  | Zpos n => FFin (Qred (sqrt_pos n (Qden q)))
  | _ => FFin 0
  end.

(** [round(x, ndigits)] for a float [x] and [0 <= ndigits]: the double
    nearest to the decimal number of [ndigits] decimals that is nearest
    to [x], ties to the even last digit. *)
Definition round_ndigits (ndigits : nat) (x : pyfloat) : pyfloat :=
  match x with
  | FFin q =>
      let scale := (10 ^ Z.of_nat ndigits)%Z in
      let t := round_half_even (scale * Z.abs (Qnum q)) (Qden q) in
      round ((if (Qnum q <? 0)%Z then (- t)%Z else t) # Z.to_pos scale)
  | _ => x
  end.

End Binary64.

(** A float coordinate is rounded by [round(coord, 6)]; a finite float is
    kept by its value, a canonical rational. *)
#[global] Instance float_precision6 : Precision6 Qc :=
  fun x =>
    match Binary64.round_ndigits 6 (PyFloat.FFin (this x)) with
    | PyFloat.FFin r => Q2Qc r
    | _ => x
    end.

(** ** Python numbers: [int] and [float] in arithmetic

    What the operators of [utils/logging.py] and of
    [propagation/point_generator.py] do on ints and floats, and what they
    raise. *)
Module PyNum.
Import PyFloat Binary64.

Inductive exn :=
  | ZeroDivisionError
  | OverflowError
  | TypeError
  | ValueError.

Inductive res (A : Type) :=
  | Ok (a : A)
  | Raise (e : exn).
Arguments Ok {A} a.
Arguments Raise {A} e.

Definition rbind {A B} (r : res A) (k : A -> res B) : res B :=
  match r with
  | Ok a => k a
  | Raise e => Raise e
  end.

(** Calls on a state [S]; the state survives a raise. *)
Definition M (S A : Type) : Type := S -> res A * S.

Definition ret {S A} (a : A) : M S A := fun s => (Ok a, s).
Definition bind {S A B} (m : M S A) (k : A -> M S B) : M S B :=
  fun s => match m s with
           | (Ok a, s') => k a s'
           | (Raise e, s') => (Raise e, s')
           end.
Definition lift {S A} (r : res A) : M S A := fun s => (r, s).

Inductive pynum :=
  | NInt (z : Z)
  | NFloat (f : pyfloat).

(** The value of a number; comparisons between an int and a float are
    exact. *)
Definition exact (x : pynum) : pyfloat :=
  match x with
  | NInt z => FFin (inject_Z z)
  | NFloat f => f
  end.

(** [a < b] *)
Definition num_lt (a b : pynum) : bool := flt (exact a) (exact b).
(** [a >= b] *)
Definition num_ge (a b : pynum) : bool := fle (exact b) (exact a).

(** [float(z)]: the nearest double, OverflowError beyond the largest. *)
Definition float_of_int (z : Z) : res pyfloat :=
  match round (inject_Z z) with
  | FInf _ => Raise OverflowError
  | f => Ok f
  end.

(** The float operand a number becomes in float arithmetic. *)
Definition to_float (x : pynum) : res pyfloat :=
  match x with
  | NInt z => float_of_int z
  | NFloat f => Ok f
  end.

Definition is_zero (f : pyfloat) : bool :=
  match f with
  | FFin q => Qeq_bool q 0
  | _ => false
  end.

Definition is_negative (q : Q) : bool := (Qnum q <? 0)%Z.

(** [a - b] on floats *)
Definition float_sub (a b : pyfloat) : pyfloat :=
  match a, b with
  | FNaN, _ | _, FNaN => FNaN
  | FFin x, FFin y => round (x - y)
  | FInf n, FFin _ => FInf n
  | FFin _, FInf n => FInf (negb n)
  | FInf na, FInf nb => if Bool.eqb na nb then FNaN else FInf na
  end.

(** [a * b] on floats *)
Definition float_mul (a b : pyfloat) : pyfloat :=
  match a, b with
  | FNaN, _ | _, FNaN => FNaN
  | FFin x, FFin y => round (x * y)
  | FInf n, FFin x | FFin x, FInf n =>
      if Qeq_bool x 0 then FNaN else FInf (xorb n (is_negative x))
  | FInf na, FInf nb => FInf (xorb na nb)
  end.

(** [a / b] on floats: a zero divisor raises, whatever the dividend. *)
Definition float_div (a b : pyfloat) : res pyfloat :=
  if is_zero b then Raise ZeroDivisionError
  else Ok match a, b with
          | FNaN, _ | _, FNaN => FNaN
          | FFin x, FFin y => round (x / y)
          | FInf n, FFin y => FInf (xorb n (is_negative y))
          | FFin _, FInf _ => FFin 0
          | FInf _, FInf _ => FNaN
          end.

(** True division [a / b].  Two ints give the double nearest to the
    exact quotient; otherwise an int operand is converted first. *)
Definition truediv (a b : pynum) : res pyfloat :=
  match a, b with
  | NInt x, NInt y =>
      if (y =? 0)%Z then Raise ZeroDivisionError
      else match round (inject_Z x / inject_Z y) with
           | FInf _ => Raise OverflowError
           | f => Ok f
           end
  | _, _ =>
      rbind (to_float a) (fun fa =>
      rbind (to_float b) (fun fb =>
      float_div fa fb))
  end.

(** [int(f)]: truncation towards zero. *)
Definition int_of_float (f : pyfloat) : res Z :=
  match f with
  | FNaN => Raise ValueError
  | FInf _ => Raise OverflowError
  | FFin q => Ok (Z.quot (Qnum q) (Zpos (Qden q)))
  end.

(** [s * n] on a string: empty for [n <= 0]. *)
Definition str_repeat (s : string) (n : Z) : string :=
  String.concat "" (repeat s (Z.to_nat n)).

(** [s.zfill(p)] for a string of digits. *)
Definition zfill (p : nat) (s : string) : string :=
  (String.concat "" (repeat "0" (p - String.length s)) ++ s)%string.

(** [f"{x:.pf}"] for a float: correctly rounded to [p] decimal places. *)
Definition format_f (p : nat) (x : pyfloat) : string :=
  match x with
  | FNaN => "nan"
  | FInf false => "inf"
  | FInf true => "-inf"
  | FFin q =>
      let scale := (10 ^ Z.of_nat p)%Z in
      let t := round_half_even (scale * Z.abs (Qnum q)) (Qden q) in
      ((if (Qnum q <? 0)%Z then "-" else "")
         ++ str_of_Z (t / scale)
         ++ match p with
            | O => ""
            | _ => "." ++ zfill p (str_of_Z (t mod scale))
            end)%string
  end.

(** [f"{x:.1f}"] for an int or a float: an int is converted first. *)
Definition format_num_1f (x : pynum) : res string :=
  rbind (to_float x) (fun f => Ok (format_1f f)).

(** [a + b] on floats *)
Definition float_add (a b : pyfloat) : pyfloat :=
  match a, b with
  | FNaN, _ | _, FNaN => FNaN
  | FFin x, FFin y => round (x + y)
  | FInf n, FFin _ | FFin _, FInf n => FInf n
  | FInf na, FInf nb => if Bool.eqb na nb then FInf na else FNaN
  end.

(** [a + b], [a - b] and [a * b] where one operand at least is a float:
    an int operand is converted first. *)
Definition add (a b : pynum) : res pyfloat :=
  rbind (to_float a) (fun fa => rbind (to_float b) (fun fb => Ok (float_add fa fb))).
Definition sub (a b : pynum) : res pyfloat :=
  rbind (to_float a) (fun fa => rbind (to_float b) (fun fb => Ok (float_sub fa fb))).
Definition mul (a b : pynum) : res pyfloat :=
  rbind (to_float a) (fun fa => rbind (to_float b) (fun fb => Ok (float_mul fa fb))).

End PyNum.

Declare Scope num_scope.
Delimit Scope num_scope with num.
Notation "x <- c1 ;; c2" := (PyNum.bind c1 (fun x => c2))
  (at level 100, c1 at next level, right associativity) : num_scope.
Notation "c1 ;;; c2" := (PyNum.bind c1 (fun _ => c2))
  (at level 100, right associativity) : num_scope.
Notation "x <-r c1 ;; c2" := (PyNum.rbind c1 (fun x => c2))
  (at level 100, c1 at next level, right associativity) : num_scope.

(** ** propagation/point_generator.py

    The arithmetic is that of Python floats: every [+], [-], [*], [/]
    and [math.sqrt] gives the double nearest to the exact result, and an
    [int] operand is converted first.  [math.cos] and [math.sin] are the
    functions of the platform's C library; only what every such library
    does is fixed here: a finite argument gives a finite result (ISO C,
    Annex F), which [libm_cos] and [libm_sin] stand for, and Python
    raises ValueError at an infinity and returns NaN at NaN. *)
Module PointGenerator.
Import PyFloat Binary64 PyNum.
Local Open Scope num_scope.

Section Libm.
Variable libm_cos libm_sin : Q -> Q.

(** [math.pi], the double [0x1.921fb54442d18p+1]. *)
Definition math_pi : pyfloat := FFin (884279719003555 # 281474976710656).

(** [math.sqrt(x)] *)
Definition math_sqrt (x : pynum) : res pyfloat :=
  a <-r to_float x ;;
  match a with
  | FNaN => Ok FNaN
  | FInf false => Ok (FInf false)
  | FInf true => Raise ValueError
  | FFin q => if (Qnum q <? 0)%Z then Raise ValueError else Ok (sqrt q)
  end.

(** [math.cos(x)] *)
Definition math_cos (a : pyfloat) : res pyfloat :=
  match a with
  | FNaN => Ok FNaN
  | FInf _ => Raise ValueError
  | FFin x => Ok (FFin (libm_cos x))
  end.

(** [math.sin(x)] *)
Definition math_sin (a : pyfloat) : res pyfloat :=
  match a with
  | FNaN => Ok FNaN
  | FInf _ => Raise ValueError
  | FFin x => Ok (FFin (libm_sin x))
  end.

(** [math.radians(x)] is [x * (pi / 180.0)], the factor a constant of
    the interpreter. *)
Definition deg_to_rad : pyfloat :=
  match math_pi with
  | FFin p => round (p / 180)
  | _ => FNaN
  end.

Definition math_radians (a : pyfloat) : pyfloat := float_mul a deg_to_rad.

(** [range(n)]: empty for [n <= 0]. *)
Definition range (n : Z) : list Z := map Z.of_nat (seq 0 (Z.to_nat n)).

(** [for x in xs: st = body(x, st)], stopping at the first raise. *)
Fixpoint for_each {A St} (xs : list A) (body : A -> St -> res St) (st : St)
  : res St :=
  match xs with
  | [] => Ok st
  | x :: rest => st' <-r body x st ;; for_each rest body st'
  end.

(** [golden_angle = 2 * math.pi * (1 - 1 / math.sqrt(5))], line 25. *)
Definition golden_angle : res pyfloat :=
  two_pi <-r mul (NInt 2) (NFloat math_pi) ;;
  s5 <-r math_sqrt (NInt 5) ;;
  q <-r truediv (NInt 1) (NFloat s5) ;;
  d <-r sub (NInt 1) (NFloat q) ;;
  Ok (float_mul two_pi d).

(** The body of the loop of [generate_phyllotaxis], lines 29-43. *)
Definition phyllotaxis_step (lat0 lon0 : pyfloat) (num_points : Z)
    (scale golden_angle : pyfloat) (i : Z) (points : list (pyfloat * pyfloat))
  : res (list (pyfloat * pyfloat)) :=
  angle <-r mul (NInt i) (NFloat golden_angle) ;;
  t <-r add (NInt i) (NFloat (FFin (1 # 2))) ;;
  t <-r truediv (NFloat t) (NInt num_points) ;;
  sq <-r math_sqrt (NFloat t) ;;
  let radius := float_mul scale sq in
  c <-r math_cos angle ;;
  let x := float_mul radius c in
  s <-r math_sin angle ;;
  let y := float_mul radius s in
  delta_lat <-r truediv (NFloat y) (NInt 111320) ;;
  cl <-r math_cos (math_radians lat0) ;;
  metres <-r mul (NInt 111320) (NFloat cl) ;;
  delta_lon <-r truediv (NFloat x) (NFloat metres) ;;
  let lat := float_add lat0 delta_lat in
  let lon := float_add lon0 delta_lon in
  Ok (points ++ [(lat, lon)]).

Definition generate_phyllotaxis (lat0 lon0 : pyfloat) (num_points : Z)
    (scale : pyfloat) : res (list (pyfloat * pyfloat)) :=
  golden_angle <-r golden_angle ;;
  for_each (range num_points)
    (phyllotaxis_step lat0 lon0 num_points scale golden_angle) [].

End Libm.
End PointGenerator.

(** ** scripts/generate_receiver_points.py

    [generate_geojson] builds plain dicts of the GeoJSON shape (not the
    objects of the [geojson] package, so nothing is rounded); they are
    kept in the records of [GeoJSON], a point's [coordinates] list
    [[lon, lat]] being the two fields of [Point].  Parsing the command
    line and writing the result out are left out. *)
Module GenerateReceiverPoints.
Import PyFloat PyNum PointGenerator GeoJSON.
Local Open Scope num_scope.

(** [generate_geojson(points)], lines 15-43. *)
Definition generate_geojson (points : list (pyfloat * pyfloat))
  : FeatureCollection pyfloat :=
  let features :=
    fold_left
      (fun features (point : pyfloat * pyfloat) =>
         let (lat, lon) := point in
         let feature := {| geom := Point lon lat; properties := [] |} in
         features ++ [feature])
      points [] in
  {| features := features |}.

(** Lines 60-63: the points are generated and, under [--geojson], turned
    into a collection. *)
Definition points_as_geojson (libm_cos libm_sin : Q -> Q)
    (lat lon : pyfloat) (num_points : Z) (scale : pyfloat)
  : res (FeatureCollection pyfloat) :=
  points <-r generate_phyllotaxis libm_cos libm_sin lat lon num_points scale ;;
  let geojson_data := generate_geojson points in
  Ok geojson_data.

End GenerateReceiverPoints.

(** ** utils/logging.py

    The outside world of this module is the clock and the standard
    output: [time.time()] and [datetime.now().isoformat()] return the
    next reading of a given sequence, and what is written is kept, one
    entry per call of [write] or [print]. *)
Module Logging.
Import PyFloat PyNum.
Local Open Scope num_scope.

Record World := {
  time_time : nat -> pyfloat;
  datetime_now_isoformat : nat -> string;
  clock_reads : nat;
  stdout : list string
}.

(** [time.time()] *)
Definition time {S} (world : S -> World) (put : World -> S -> S) : M S pyfloat :=
  fun s =>
    let w := world s in
    (Ok (time_time w (clock_reads w)),
     put {| time_time := time_time w;
            datetime_now_isoformat := datetime_now_isoformat w;
            clock_reads := Datatypes.S (clock_reads w);
            stdout := stdout w |} s).

(** [datetime.now().isoformat()] *)
Definition now_isoformat {S} (world : S -> World) (put : World -> S -> S)
  : M S string :=
  fun s =>
    let w := world s in
    (Ok (datetime_now_isoformat w (clock_reads w)),
     put {| time_time := time_time w;
            datetime_now_isoformat := datetime_now_isoformat w;
            clock_reads := Datatypes.S (clock_reads w);
            stdout := stdout w |} s).

(** [sys.stdout.write(text)] *)
Definition write {S} (world : S -> World) (put : World -> S -> S) (text : string)
  : M S unit :=
  fun s =>
    let w := world s in
    (Ok tt,
     put {| time_time := time_time w;
            datetime_now_isoformat := datetime_now_isoformat w;
            clock_reads := clock_reads w;
            stdout := stdout w ++ [text] |} s).

Definition NL : string := String (ascii_of_nat 10) "".
Definition CR : string := String (ascii_of_nat 13) "".

(** [print(text)] *)
Definition print {S} (world : S -> World) (put : World -> S -> S) (text : string)
  : M S unit :=
  write world put (text ++ NL).

(** The world alone as the state. *)
Definition here (w : World) : World := w.
Definition put_here (w : World) (_ : World) : World := w.

(** [print_header], lines 110-114. *)
Definition print_header (text : string) (width : Z) : M World unit :=
  print here put_here (NL ++ str_repeat "=" width) ;;;
  print here put_here text ;;;
  print here put_here (str_repeat "=" width ++ NL).

(** [print_section], lines 117-119. *)
Definition print_section (text : string) : M World unit :=
  print here put_here (NL ++ "## " ++ text ++ NL).

(** The marks of the four message printers and of [debug], as the
    source file spells them. *)
Definition mark_success : string := "âœ“".
Definition mark_warning : string := "âš ".
Definition mark_error : string := "âœ—".
Definition mark_info : string := "â„¹".
Definition mark_debug : string := "ðŸ”§".
Definition cell_full : string := "â–ˆ".
Definition cell_empty : string := "â–‘".

(** [print_success], [print_warning], [print_error], [print_info],
    lines 122-139. *)
Definition print_success {S} (world : S -> World) (put : World -> S -> S)
    (text : string) : M S unit :=
  print world put (mark_success ++ " " ++ text).
Definition print_warning {S} (world : S -> World) (put : World -> S -> S)
    (text : string) : M S unit :=
  print world put (mark_warning ++ " " ++ text).
Definition print_error {S} (world : S -> World) (put : World -> S -> S)
    (text : string) : M S unit :=
  print world put (mark_error ++ " " ++ text).
Definition print_info {S} (world : S -> World) (put : World -> S -> S)
    (text : string) : M S unit :=
  print world put (mark_info ++ " " ++ text).

(** [format_bytes], lines 201-207: the loop over the four units. *)
Fixpoint format_bytes_loop (units : list string) (size_bytes : pynum)
  : res string :=
  match units with
  | [] => s <-r format_num_1f size_bytes ;; Ok (s ++ " TB")%string
  | unit :: rest =>
      if num_lt size_bytes (NFloat (FFin 1024))
      then s <-r format_num_1f size_bytes ;; Ok (s ++ " " ++ unit)%string
      else size_bytes <-r truediv size_bytes (NFloat (FFin 1024)) ;;
           format_bytes_loop rest (NFloat size_bytes)
  end.

Definition format_bytes (size_bytes : pynum) : res string :=
  format_bytes_loop ["B"; "KB"; "MB"; "GB"]%string size_bytes.

(** [format_duration], lines 210-219. *)
Definition format_duration (seconds : pynum) : res string :=
  if num_lt seconds (NInt 60)
  then s <-r format_num_1f seconds ;; Ok (s ++ "s")%string
  else if num_lt seconds (NInt 3600)
  then minutes <-r truediv seconds (NInt 60) ;;
       Ok (format_1f minutes ++ "m")%string
  else hours <-r truediv seconds (NInt 3600) ;;
       Ok (format_1f hours ++ "h")%string.

(** *** class ProgressTracker, lines 19-79 *)
Module ProgressTracker.

Record t := {
  total : Z;
  name : string;
  current : Z;
  start_time : option pyfloat;
  last_update : pynum
}.

(** A call runs on the object and the world. *)
Definition state : Type := t * World.
Definition world (s : state) : World := snd s.
Definition put (w : World) (s : state) : state := (fst s, w).
Definition self : M state t := fun s => (Ok (fst s), s).
Definition assign (f : t -> t) : M state unit := fun s => (Ok tt, (f (fst s), snd s)).

(** [__init__], lines 22-27. *)
Definition init (total : Z) (name : string) : t :=
  {| total := total; name := name; current := 0;
     start_time := None; last_update := NInt 0 |}.

(** [time.time() - self.start_time]; [None] is no operand of [-]. *)
Definition since_start : M state pyfloat :=
  now <- time world put ;;
  o <- self ;;
  match start_time o with
  | None => lift (Raise TypeError)
  | Some t0 => ret (float_sub now t0)
  end.

(** [start], lines 29-33. *)
Definition start : M state unit :=
  now <- time world put ;;
  assign (fun o => {| total := total o; name := name o; current := 0;
                      start_time := Some now; last_update := NInt 0 |}).

(** [_print_progress], lines 52-79. *)
Definition _print_progress (final : bool) : M state unit :=
  o <- self ;;
  if (total o =? 0)%Z then ret tt
  else
  ratio <- lift (truediv (NInt (current o)) (NInt (total o))) ;;
  hundred <- lift (float_of_int 100) ;;
  let percent := float_mul ratio hundred in
  let bar_length := 40%Z in
  q <- lift (truediv (NInt (bar_length * current o)) (NInt (total o))) ;;
  filled <- lift (int_of_float q) ;;
  let bar := (str_repeat cell_full filled
              ++ str_repeat cell_empty (bar_length - filled))%string in
  elapsed <- since_start ;;
  time_str <-
    (if (0 <? current o)%Z && flt percent (FFin 100)
     then rate <- lift (truediv (NInt (current o)) (NFloat elapsed)) ;;
          remaining <- lift (truediv (NInt (total o - current o)) (NFloat rate)) ;;
          ret ("ETA " ++ format_f 0 remaining ++ "s")%string
     else ret (format_1f elapsed ++ "s")%string) ;;
  let status :=
    (CR ++ name o ++ ": [" ++ bar ++ "] " ++ format_1f percent ++ "% ("
        ++ str_of_Z (current o) ++ "/" ++ str_of_Z (total o) ++ ") "
        ++ time_str)%string in
  if final
  then write world put (status ++ " - DONE" ++ NL)
  else write world put status.

(** [update], lines 35-43. *)
Definition update (count : Z) (force : bool) : M state unit :=
  assign (fun o => {| total := total o; name := name o;
                      current := Z.min (current o + count) (total o);
                      start_time := start_time o;
                      last_update := last_update o |}) ;;;
  elapsed <- since_start ;;
  o <- self ;;
  due <- (if force then ret true
          else last <- lift (to_float (last_update o)) ;;
               ret (fle (FFin (1 # 2)) (float_sub elapsed last))) ;;
  if due : bool
  then _print_progress false ;;;
       assign (fun o => {| total := total o; name := name o;
                           current := current o;
                           start_time := start_time o;
                           last_update := NFloat elapsed |})
  else ret tt.

(** [finish], lines 45-50. *)
Definition finish : M state pyfloat :=
  assign (fun o => {| total := total o; name := name o;
                      current := total o;
                      start_time := start_time o;
                      last_update := last_update o |}) ;;;
  _print_progress true ;;;
  elapsed <- since_start ;;
  ret elapsed.

End ProgressTracker.

(** *** class Timer, lines 82-96 *)
Module Timer.

Record t := {
  name : string;
  start_time : option pyfloat;
  elapsed : option pyfloat
}.

Definition state : Type := t * World.
Definition world (s : state) : World := snd s.
Definition put (w : World) (s : state) : state := (fst s, w).
Definition self : M state t := fun s => (Ok (fst s), s).
Definition assign (f : t -> t) : M state unit := fun s => (Ok tt, (f (fst s), snd s)).

Definition init (name : string) : t :=
  {| name := name; start_time := None; elapsed := None |}.

(** [__enter__] *)
Definition enter : M state unit :=
  now <- time world put ;;
  assign (fun o => {| name := name o; start_time := Some now;
                      elapsed := elapsed o |}).

(** [__exit__]: it returns [None], so an exception of the block goes on. *)
Definition exit : M state unit :=
  now <- time world put ;;
  o <- self ;;
  match start_time o with
  | None => lift (Raise TypeError)
  | Some t0 =>
      let e := float_sub now t0 in
      assign (fun o => {| name := name o; start_time := start_time o;
                          elapsed := Some e |}) ;;;
      print world put ("  " ++ mark_success ++ " " ++ name o ++ ": "
                         ++ format_f 2 e ++ "s")
  end.

End Timer.

(** [timer_context], lines 99-107: [body] is the block under [with]; the
    [finally] clause runs whether the block returns or raises, and the
    outcome of the block is the outcome of the whole. *)
Definition timer_context {A} (name : string) (body : M World A) : M World A :=
  fun w =>
    match time here put_here w with
    | (Ok start, w1) =>
        let (outcome, w2) := body w1 in
        match (now <- time here put_here ;;
               let elapsed := float_sub now start in
               print here put_here ("  " ++ mark_success ++ " " ++ name ++ ": "
                                      ++ format_f 2 elapsed ++ "s")) w2 with
        | (Ok _, w3) => (outcome, w3)
        | (Raise e, w3) => (Raise e, w3)
        end
    | (Raise e, w1) => (Raise e, w1)
    end.

(** *** class Logger, lines 142-191 *)
Module Logger.
Section Kwargs.
(** The keyword arguments of a call, kept as given. *)
Context {Kwargs : Type}.

(** One entry of [self.messages]: a dict of four keys. *)
Record entry := {
  timestamp : string;
  level : string;
  message : string;
  context : Kwargs
}.

Record t := {
  name : string;
  level_ : string;
  messages : list entry
}.

Definition state : Type := t * World.
Definition world (s : state) : World := snd s.
Definition put (w : World) (s : state) : state := (fst s, w).
Definition self : M state t := fun s => (Ok (fst s), s).
Definition assign (f : t -> t) : M state unit := fun s => (Ok tt, (f (fst s), snd s)).

(** [__init__], lines 145-148. *)
Definition init (name level : string) : t :=
  {| name := name; level_ := level; messages := [] |}.

(** [_log], lines 176-183. *)
Definition _log (level msg : string) (context : Kwargs) : M state unit :=
  now <- now_isoformat world put ;;
  assign (fun o => {| name := name o; level_ := level_ o;
                      messages := messages o
                                    ++ [{| timestamp := now; level := level;
                                           message := msg; context := context |}] |}).

(** [info], [warning], [error], [success], lines 150-168. *)
Definition info (msg : string) (kwargs : Kwargs) : M state unit :=
  _log "INFO" msg kwargs ;;; print_info world put msg.
Definition warning (msg : string) (kwargs : Kwargs) : M state unit :=
  _log "WARNING" msg kwargs ;;; print_warning world put msg.
Definition error (msg : string) (kwargs : Kwargs) : M state unit :=
  _log "ERROR" msg kwargs ;;; print_error world put msg.
Definition success (msg : string) (kwargs : Kwargs) : M state unit :=
  _log "SUCCESS" msg kwargs ;;; print_success world put msg.

(** [x in xs] for a list of strings. *)
Definition str_in (x : string) (xs : list string) : bool :=
  existsb (String.eqb x) xs.

(** [debug], lines 170-174. *)
Definition debug (msg : string) (kwargs : Kwargs) : M state unit :=
  o <- self ;;
  if str_in (level_ o) ["DEBUG"; "VERBOSE"]%string
  then _log "DEBUG" msg kwargs ;;; print world put (mark_debug ++ " " ++ msg)
  else ret tt.

(** [levels.get(level, 0)] and [levels[level] = n] on a dict kept in
    insertion order. *)
Fixpoint dict_get (levels : list (string * Z)) (key : string) (dflt : Z) : Z :=
  match levels with
  | [] => dflt
  | (k, v) :: rest => if String.eqb k key then v else dict_get rest key dflt
  end.

Fixpoint dict_set (levels : list (string * Z)) (key : string) (v : Z)
  : list (string * Z) :=
  match levels with
  | [] => [(key, v)]
  | (k, v0) :: rest =>
      if String.eqb k key then (k, v) :: rest else (k, v0) :: dict_set rest key v
  end.

(** [get_summary], lines 185-191. *)
Definition get_summary (o : t) : list (string * Z) :=
  fold_left
    (fun levels (msg : entry) =>
       let level := level msg in
       dict_set levels level (dict_get levels level 0 + 1))
    (messages o) [].

End Kwargs.
Arguments entry Kwargs : clear implicits.
Arguments t Kwargs : clear implicits.
Arguments state Kwargs : clear implicits.
End Logger.

End Logging.

(* ===================================================================== *)
(** * Part II: vocabulary of the properties                               *)
(* ===================================================================== *)

(** ** Features and floats *)

(** The rings of the polygons of a collection. *)
Definition geom_rings {V} (fc : GeoJSON.FeatureCollection V) : list (list (V * V)) :=
  flat_map (fun f => match GeoJSON.geom f with
                     | GeoJSON.Polygon rings => rings
                     | _ => []
                     end) (GeoJSON.features fc).

(** [properties[key]], if the key is there. *)
Fixpoint property {V} (key : string) (ps : list (string * GeoJSON.prop V))
  : option (GeoJSON.prop V) :=
  match ps with
  | [] => None
  | (k, v) :: rest => if String.eqb k key then Some v else property key rest
  end.

(** The value of the ["name"] property of a feature. *)
Definition feature_name {V} (f : GeoJSON.Feature V) : option string :=
  match property "name" (GeoJSON.properties f) with
  | Some (GeoJSON.PStr s) => Some s
  | _ => None
  end.

(** The value of the ["distance"] property of a feature that has one:
    the receivers have, the transmitter has not. *)
Definition recorded_distance {V} (f : GeoJSON.Feature V) : option PyFloat.pyfloat :=
  match property "distance" (GeoJSON.properties f) with
  | Some (GeoJSON.PFloat d) => Some d
  | _ => None
  end.

(** The distances the features of a collection record, in order. *)
Definition recorded_distances {V} (fs : list (GeoJSON.Feature V))
  : list PyFloat.pyfloat :=
  omap recorded_distance fs.

Section FloatVocabulary.
Import PyFloat.

Definition is_nan (a : pyfloat) : bool :=
  match a with FNaN => true | _ => false end.

(** [m] is the maximum of [l]: it equals an element of [l], and no
    element of [l] is greater. *)
Definition maximum_of (l : list pyfloat) (m : pyfloat) : Prop :=
  (exists y, In y l /\ feq m y = true)
  /\ (forall x, In x l -> flt m x = false).

End FloatVocabulary.

(** ** The run timestamp *)
Section TimestampVocabulary.
Import PyFloat BatchProcessor.

Definition is_digit (c : ascii) : bool :=
  (48 <=? nat_of_ascii c)%nat && (nat_of_ascii c <=? 57)%nat.

(** [s] is [n] decimal digits. *)
Definition digits (n : nat) (s : string) : bool :=
  (String.length s =? n)%nat && forallb is_digit (list_ascii_of_string s).



End TimestampVocabulary.

(** ** The batch orchestrator *)
Section BatchVocabulary.
Import Py PyFloat GeoJSON BatchProcessor.
Context {V X Profile World : Type}.
Variable loss : LossParameterSet V X -> World -> (V * V) * World.
Variable process_loss_parameters : Profile -> World -> LossParameterSet V X * World.
Variable project_root : string.

(** The parameter sets and loss results the first loop derives, in
    processing order, and the world it leaves. *)
Fixpoint derived (profiles : list Profile) (w : World)
  : list (LossParameterSet V X * (V * V)) * World :=
  match profiles with
  | [] => ([], w)
  | profile :: rest =>
      let (p, w1) := process_loss_parameters profile w in
      let (r, w2) := loss p w1 in
      let (more, w3) := derived rest w2 in
      ((p, r) :: more, w3)
  end.

(** The parameter sets the second loop derives, and the world it leaves. *)
Fixpoint rederived (profiles : list Profile) (w : World)
  : list (LossParameterSet V X) * World :=
  match profiles with
  | [] => ([], w)
  | profile :: rest =>
      let (p, w1) := process_loss_parameters profile w in
      let (more, w2) := rederived rest w1 in
      (p :: more, w2)
  end.

(** The last element of a distance sequence known to be non-empty. *)
Definition last_distance (p : LossParameterSet V X) : pyfloat :=
  List.last (distances p) (FFin 0).

(** Names [prefix_(k+1)], ..., [prefix_(k+n)]. *)
Definition numbered (prefix : string) (k : Z) (n : nat) : list (option string) :=
  map (fun i => Some (prefix ++ str_of_Z (k + Z.of_nat i + 1))%string) (seq 0 n).

Definition rx_position (p : LossParameterSet V X) : V * V := (rx_lon p, rx_lat p).

(** [profiles_dir] and [output_dir] as [main] resolves them. *)
Definition resolved_profiles_dir (profiles_dir : option string) : string :=
  match profiles_dir with
  | None => (project_root ++ "/data/input/profiles")%string
  | Some d => d
  end.

Definition resolved_output_dir (output_dir : option string) : string :=
  match output_dir with
  | None => (project_root ++ "/data/output/geojson")%string
  | Some d => d
  end.

End BatchVocabulary.

(** ** A concrete run: three profiles whose distance sequences end at
       2.0, 5.0 and 3.0 km *)
Module Demo.
Import Py PyFloat GeoJSON BatchProcessor.

(** A profile here is a receiver position and a non-empty distance
    sequence; the world counts the calls of [bt_loss]. *)
Definition profile : Type := (Z * Z) * (pyfloat * list pyfloat).

Definition demo_parameters (pr : profile) : LossParameterSet Z unit :=
  {| frequency := 1; distances := fst (snd pr) :: snd (snd pr);
     passed_on := tt; htg := 57; hrg := 10; polarization := 1;
     tx_lat := 9; rx_lat := snd (fst pr);
     tx_lon := -13; rx_lon := fst (fst pr) |}%Z.

Definition demo_process (pr : profile) (w : nat) : LossParameterSet Z unit * nat :=
  (demo_parameters pr, w).

Definition demo_loss (p : LossParameterSet Z unit) (w : nat) : (Z * Z) * nat :=
  ((120, 30)%Z, S w).

Definition demo_clock (w : nat) : struct_time * nat :=
  ({| tm_year := 2026; tm_mon := 1; tm_mday := 2;
      tm_hour := 3; tm_min := 4; tm_sec := 5 |}, w).

Definition three_profiles : list profile :=
  [((1, 1)%Z, (FFin 0, [FFin 1; FFin 2]));
   ((2, 1)%Z, (FFin 0, [FFin (5 # 2); FFin 5]));
   ((2, 2)%Z, (FFin 0, [FFin 3]))].

Definition one_profile : list profile := [((4, 7)%Z, (FFin 0, [FFin 1]))].

(** Last distances below zero. *)
Definition negative_profiles : list profile :=
  [((1, 1)%Z, (FFin (-2), [])); ((2, 1)%Z, (FFin (-3), []))].

Definition demo_load (profiles : list profile) (dir : string) (w : nat)
  : list profile * nat := (profiles, w).

Definition demo_main (profiles : list profile) : res (Written (V:=Z)) * nat :=
  main (Some demo_loss) (demo_load profiles) demo_process demo_clock
    "root" None (Some "out"%string) 0%nat.

Definition file_names (r : res (Written (V:=Z)) * nat) : list string :=
  match fst r with
  | Ok written =>
      [fst (points_file written); fst (lines_file written);
       fst (polygon_file written)]
  | Raise _ => []
  end.

End Demo.

(** ** Configuration validation and the configuration store *)
Section ConfigVocabulary.
Import Py PyFloat PyOps Validation Config.

(** The dict a section of the tree [d] names, if it names one. *)
Definition section_dict (h : heap) (d : pydict) (section : string)
  : option pydict :=
  match d !! KStr section with
  | Some (VRef l) => h !! l
  | _ => None
  end.

(** A value that takes part in a numeric comparison. *)
Definition is_number (v : pyval) : Prop :=
  exists s n, v = VSc s /\ num_of s = Some n.

(** The trees on which every condition of the validator has a meaning:
    the TRANSMITTER and P1812 sections, when present, are dicts, and
    frequency_ghz and time_percentage, when present, are numbers. *)
Definition well_typed (h : heap) (d : pydict) : Prop :=
  (forall v, d !! KStr "TRANSMITTER" = Some v ->
             exists sd, section_dict h d "TRANSMITTER" = Some sd)
  /\ (forall v, d !! KStr "P1812" = Some v ->
                exists sd, section_dict h d "P1812" = Some sd
                  /\ (forall v', sd !! KStr "frequency_ghz" = Some v' -> is_number v')
                  /\ (forall v', sd !! KStr "time_percentage" = Some v' -> is_number v')).

(** [v] is a number outside [[lo, hi]]. *)
Definition outside (lo hi : pyfloat) (v : pyval) : Prop :=
  exists s n, v = VSc s /\ num_of s = Some n /\ fle lo n && fle n hi = false.

Definition section_absent (d : pydict) : Prop :=
  exists s, In s required_sections /\ d !! KStr s = None.

Definition key_absent (h : heap) (d : pydict) (section : string)
    (keys : list string) : Prop :=
  exists sd k, section_dict h d section = Some sd /\ In k keys /\ sd !! KStr k = None.

Definition frequency_outside (h : heap) (d : pydict) : Prop :=
  exists sd v, section_dict h d "P1812" = Some sd
    /\ sd !! KStr "frequency_ghz" = Some v /\ outside float_0_03 (FFin 6) v.

Definition time_percentage_outside (h : heap) (d : pydict) : Prop :=
  exists sd v, section_dict h d "P1812" = Some sd
    /\ sd !! KStr "time_percentage" = Some v /\ outside (FFin 1) (FFin 50) v.

Definition polarization_invalid (h : heap) (d : pydict) : Prop :=
  exists sd v, section_dict h d "P1812" = Some sd
    /\ sd !! KStr "polarization" = Some v
    /\ py_eq_int v 1 = false /\ py_eq_int v 2 = false.

(** The conditions under which the claim says validation fails. *)
Definition invalid (h : heap) (d : pydict) : Prop :=
  section_absent d
  \/ key_absent h d "TRANSMITTER" required_tx_keys
  \/ key_absent h d "P1812" required_p1812
  \/ frequency_outside h d
  \/ time_percentage_outside h d
  \/ polarization_invalid h d.

(** The keys of [keys] that [sd] lacks, in the order of [keys]. *)
Definition lacking (sd : pydict) (keys : list string) : list string :=
  List.filter (fun k => negb (bool_decide (is_Some (sd !! KStr k)))) keys.

(** What the message of a failed validation says. *)
Definition names_failure (h : heap) (d : pydict) (msg : list fpart) : Prop :=
  (msg = [FLit "Missing CONFIG sections: "; FList (lacking d required_sections)]
   /\ lacking d required_sections <> [])
  \/ (exists sd, section_dict h d "TRANSMITTER" = Some sd
        /\ msg = [FLit "Missing TRANSMITTER keys: "; FList (lacking sd required_tx_keys)]
        /\ lacking sd required_tx_keys <> [])
  \/ (exists sd, section_dict h d "P1812" = Some sd
        /\ msg = [FLit "Missing P1812 keys: "; FList (lacking sd required_p1812)]
        /\ lacking sd required_p1812 <> [])
  \/ (exists sd v, section_dict h d "P1812" = Some sd
        /\ sd !! KStr "frequency_ghz" = Some v
        /\ outside float_0_03 (FFin 6) v
        /\ msg = [FLit "Frequency "; FVal v; FLit " outside valid range [0.03, 6]"])
  \/ (exists sd v, section_dict h d "P1812" = Some sd
        /\ sd !! KStr "time_percentage" = Some v
        /\ outside (FFin 1) (FFin 50) v
        /\ msg = [FLit "Time percentage "; FVal v; FLit " outside valid range [1, 50]"])
  \/ (exists sd v, section_dict h d "P1812" = Some sd
        /\ sd !! KStr "polarization" = Some v
        /\ py_eq_int v 1 = false /\ py_eq_int v 2 = false
        /\ msg = [FLit "Polarization "; FVal v; FLit " must be 1 (H) or 2 (V)"]).

(** [DEFAULT_CONFIG[section][key]] as the store holds it. *)
Definition default_value (h : heap) (section key : pykey) : option pyval :=
  match h !! DEFAULT_CONFIG with
  | Some d =>
      match d !! section with
      | Some (VRef l) =>
          match h !! l with
          | Some sd => sd !! key
          | None => None
          end
      | _ => None
      end
  | None => None
  end.

End ConfigVocabulary.

(** ** Concrete stores *)
Module ConfigDemo.
Import Py PyFloat PyOps Config.

(** [ConfigManager()] right after the module is imported. *)
Definition fresh_manager : ConfigManager := {| config := 8%positive |}.
Definition heap_after_init : heap := <[8%positive := default_config]> module_heap.

(** [{'P1812': {'frequency_ghz': '0.9', 'polarization': 3}}]: the
    frequency is a string. *)
Definition bad_override : list (pykey * pylit) :=
  [(KStr "P1812",
    LDict [(KStr "frequency_ghz", LVal (SStr "0.9"));
           (KStr "polarization", LVal (SInt 3))])].

Definition bad_heap : heap := snd (init (Some bad_override) module_heap).

End ConfigDemo.

(** ** The phyllotaxis generator *)
Section PhyllotaxisVocabulary.
Import PyFloat Binary64 PyNum PointGenerator.
Local Open Scope Q_scope.
Variable libm_cos libm_sin : Q -> Q.

(** The value of an operation that did not raise. *)
Definition value (r : res pyfloat) : pyfloat :=
  match r with Ok v => v | Raise _ => FNaN end.

(** [float(z)], [a / b], [sqrt(a)], [cos(a)] and [sin(a)] where they do
    not raise. *)
Definition fl (z : Z) : pyfloat := round (inject_Z z).
Definition quot (a b : pyfloat) : pyfloat := value (float_div a b).
Definition fsqrt (a : pyfloat) : pyfloat := value (math_sqrt (NFloat a)).
Definition fcos (a : pyfloat) : pyfloat := value (math_cos libm_cos a).
Definition fsin (a : pyfloat) : pyfloat := value (math_sin libm_sin a).

(** [2 pi (1 - 1 / sqrt 5)], in float arithmetic. *)
Definition phi : pyfloat :=
  float_mul (float_mul (fl 2) math_pi)
            (float_sub (fl 1) (quot (fl 1) (fsqrt (fl 5)))).

(** The [i]-th point of the claim, every operation a float operation. *)
Definition point_at (lat0 lon0 : pyfloat) (n : Z) (scale : pyfloat) (i : Z)
  : pyfloat * pyfloat :=
  let r := float_mul scale (fsqrt (quot (float_add (fl i) (FFin (1 # 2))) (fl n))) in
  let x := float_mul r (fcos (float_mul (fl i) phi)) in
  let y := float_mul r (fsin (float_mul (fl i) phi)) in
  (float_add lat0 (quot y (fl 111320)),
   float_add lon0 (quot x (float_mul (fl 111320) (fcos (math_radians lat0))))).

(** [111320 * cos(radians(lat0))], the metres per degree of longitude. *)
Definition metres_per_degree (lat0 : pyfloat) : pyfloat :=
  float_mul (fl 111320) (fcos (math_radians lat0)).

(** The latitudes at which the loop body does not raise: NaN, and those
    whose radians are finite and whose metres per degree of longitude are
    not zero. *)
Definition latitude_ok (lat0 : pyfloat) : Prop :=
  match math_radians lat0 with
  | FFin _ => is_zero (metres_per_degree lat0) = false
  | FNaN => True
  | FInf _ => False
  end.

(** A float that is not below zero: no NaN, no negative number, no minus
    infinity. *)
Definition nonneg_float (f : pyfloat) : Prop :=
  match f with
  | FFin q => 0 <= q
  | FInf neg => neg = false
  | FNaN => False
  end.

End PhyllotaxisVocabulary.

(** Values of [cos] and [sin] as glibc returns them, at the arguments
    the examples need; elsewhere the stand-in is the value at 0. *)
Module LibmDemo.
Local Open Scope Q_scope.

Definition lookup (table : list (Q * Q)) (default x : Q) : Q :=
  match find (fun entry => Qeq_bool (fst entry) x) table with
  | Some entry => snd entry
  | None => default
  end.

Definition golden : Q := 1955271225761131 # 562949953421312.

Definition demo_cos : Q -> Q :=
  lookup
    [(0, 1);
     (884279719003555 # 562949953421312,                      (* radians(90.0) *)
      4967757600021511 # 81129638414606681695789005144064);   (* 6.123233995736766e-17 *)
     (884279719003555 # 1125899906842624,                     (* radians(45.0) *)
      6369051672525773 # 9007199254740992);
     (golden, -4258157624063897 # 4503599627370496);
     (2 * golden, 7097168674572579 # 9007199254740992)]
    1.

Definition demo_sin : Q -> Q :=
  lookup
    [(0, 0);
     (golden, -2932918854846263 # 9007199254740992);
     (2 * golden, 2773077497081193 # 4503599627370496)]
    0.

End LibmDemo.

(** ** The distance tag *)
Section TagVocabulary.
Import PyFloat.

(** [s] holds the character [c]. *)
Definition has_char (c : ascii) (s : string) : bool :=
  existsb (Ascii.eqb c) (list_ascii_of_string s).

(** One or more decimal digits. *)
Definition all_digits (s : string) : bool :=
  negb (String.length s =? 0)%nat && forallb is_digit (list_ascii_of_string s).

(** The shape [<digits>p<digit>km], with a minus sign before it or not. *)
Definition tag_form (s : string) : Prop :=
  exists sign whole tenth,
    s = (sign ++ whole ++ "p" ++ tenth ++ "km")%string
    /\ (sign = ""%string \/ sign = "-"%string)
    /\ all_digits whole = true /\ digits 1 tenth = true.

End TagVocabulary.

(** ** A run over profiles that may have no distance at all *)
Module DemoEmpty.
Import Py PyFloat GeoJSON BatchProcessor.

(** A profile here is a receiver position and a distance sequence. *)
Definition sparse_profile : Type := (Z * Z) * list pyfloat.

Definition sparse_parameters (pr : sparse_profile) : LossParameterSet Z unit :=
  {| frequency := 1; distances := snd pr;
     passed_on := tt; htg := 57; hrg := 10; polarization := 1;
     tx_lat := 9; rx_lat := snd (fst pr);
     tx_lon := -13; rx_lon := fst (fst pr) |}%Z.

Definition sparse_process (pr : sparse_profile) (w : nat) : LossParameterSet Z unit * nat :=
  (sparse_parameters pr, w).

(** The second profile has an empty distance sequence. *)
Definition broken_profiles : list sparse_profile :=
  [((1, 1)%Z, [FFin 0; FFin 2]); ((2, 1)%Z, []); ((2, 2)%Z, [FFin 3])].

Definition sparse_load (profiles : list sparse_profile) (dir : string) (w : nat)
  : list sparse_profile * nat := (profiles, w).

End DemoEmpty.

(** A run over one profile whose receiver is at longitude [1 + 2**-20],
    a float of more than six decimals; the numbers are floats. *)
Module DemoRounded.
Import Py PyFloat GeoJSON BatchProcessor.

Definition fine_parameters : LossParameterSet Qc unit :=
  {| frequency := Q2Qc 1; distances := [FFin 0; FFin 1];
     passed_on := tt; htg := Q2Qc 57; hrg := Q2Qc 10; polarization := Q2Qc 1;
     tx_lat := Q2Qc 9; rx_lat := Q2Qc 0;
     tx_lon := Q2Qc (-13); rx_lon := Q2Qc (1048577 # 1048576) |}.

Definition fine_process (pr : unit) (w : nat) : LossParameterSet Qc unit * nat :=
  (fine_parameters, w).

Definition fine_loss (p : LossParameterSet Qc unit) (w : nat) : (Qc * Qc) * nat :=
  ((Q2Qc 120, Q2Qc 30), S w).

Definition fine_load (dir : string) (w : nat) : list unit * nat := ([tt], w).

Definition fine_main : res (Written (V:=Qc)) * nat :=
  main (Some fine_loss) fine_load fine_process Demo.demo_clock
    "root" None (Some "out"%string) 0%nat.

(** The rings of the polygon file of a run, each coordinate by its
    value. *)
Definition ring_values (r : res (Written (V:=Qc)) * nat) : list (list (Q * Q)) :=
  match fst r with
  | Ok written =>
      map (map (fun position : Qc * Qc =>
                  (this (fst position), this (snd position))))
        (geom_rings (snd (polygon_file written)))
  | Raise _ => []
  end.

End DemoRounded.

Section ConfigAccessVocabulary.
Import Py PyFloat PyOps Validation Config.

(** [v] is a number within [[lo, hi]]. *)
Definition within (lo hi : pyfloat) (v : pyval) : Prop :=
  exists s n, v = VSc s /\ num_of s = Some n /\ fle lo n = true /\ fle n hi = true.

(** The dict a value names in the store, if it names one. *)
Definition dict_at (h : heap) (v : pyval) : option pydict :=
  match v with
  | VRef l => h !! l
  | VSc _ => None
  end.

(** The override [{section: {k1: s1, ..., kn: sn}}] of scalar leaves. *)
Definition section_override (section : pykey) (leaves : list (pykey * scalar))
  : list (pykey * pylit) :=
  [(section, LDict (map (fun kv => (fst kv, LVal (snd kv))) leaves))].

(** [d.update(leaves)]: the entries are stored in order, so a later one
    wins. *)
Definition updated (sd : pydict) (leaves : list (pykey * scalar)) : pydict :=
  fold_left (fun d kv => <[fst kv := VSc (snd kv)]> d) leaves sd.

End ConfigAccessVocabulary.

Module ConfigAccessDemo.
Import Py PyFloat PyOps Config.

(** A configuration dict that passes validation although its
    TRANSMITTER section has no ["tx_id"]. *)
Definition heap_without_tx_id : heap :=
  <[TRANSMITTER_loc := delete (KStr "tx_id") default_transmitter]> module_heap.

End ConfigAccessDemo.

Section Binary64Vocabulary.
Local Open Scope Q_scope.

(** [x = M * 2^j] with a significand of at most 53 bits and an exponent
    a double can have: such an [x] below [2^1024] is a double. *)
Definition dyadic53 (x : Q) : Prop :=
  exists M j, (0 < M < 2 ^ 53)%Z /\ (-1074 <= j)%Z /\ x == inject_Z M * 2 ^ j.

End Binary64Vocabulary.

Section FormatVocabulary.
Import PyFloat.

(** The unit [format_bytes] chooses for a size: the first of B, KB, MB,
    GB whose range holds it, and TB from [1024^4] on. *)
Definition unit_index (n : Z) : nat :=
  if (n <? 1024)%Z then 0
  else if (n <? 1024 ^ 2)%Z then 1
  else if (n <? 1024 ^ 3)%Z then 2
  else if (n <? 1024 ^ 4)%Z then 3
  else 4.

Definition unit_name (k : nat) : string :=
  nth k ["B"; "KB"; "MB"; "GB"]%string "TB"%string.

(** [n / 1024^k], as a reduced fraction. *)
Definition scaled (n : Z) (k : nat) : Q :=
  Qred (inject_Z n / inject_Z (1024 ^ Z.of_nat k)).

(** The text [<whole>.<tenth>] of a number of tenths. *)
Definition tenths (t : Z) : string :=
  (str_of_Z (t / 10) ++ "." ++ str_of_Z (t mod 10))%string.

End FormatVocabulary.

(** ** Sequences of calls on a logger *)
Section LoggerVocabulary.
Import PyNum Logging.
Context {Kwargs : Type}.

Inductive logger_call :=
  | Info (msg : string) (kwargs : Kwargs)
  | Warning (msg : string) (kwargs : Kwargs)
  | Error (msg : string) (kwargs : Kwargs)
  | Success (msg : string) (kwargs : Kwargs)
  | Debug (msg : string) (kwargs : Kwargs).

Definition logger_invoke (c : logger_call) : M (Logger.state Kwargs) unit :=
  match c with
  | Info msg kwargs => Logger.info msg kwargs
  | Warning msg kwargs => Logger.warning msg kwargs
  | Error msg kwargs => Logger.error msg kwargs
  | Success msg kwargs => Logger.success msg kwargs
  | Debug msg kwargs => Logger.debug msg kwargs
  end.

(** The calls one after the other. *)
Fixpoint logger_run (cs : list logger_call) : M (Logger.state Kwargs) unit :=
  match cs with
  | [] => ret tt
  | c :: rest => bind (logger_invoke c) (fun _ => logger_run rest)
  end.

(** The level and the text a call is recorded with. *)
Definition recorded (c : logger_call) : string * string :=
  match c with
  | Info msg _ => ("INFO", msg)
  | Warning msg _ => ("WARNING", msg)
  | Error msg _ => ("ERROR", msg)
  | Success msg _ => ("SUCCESS", msg)
  | Debug msg _ => ("DEBUG", msg)
  end%string.

(** The calls a logger of level [lvl] records: all but [debug], and
    [debug] too under "DEBUG" and "VERBOSE". *)
Definition records (lvl : string) (c : logger_call) : bool :=
  match c with
  | Debug _ _ => Logger.str_in lvl ["DEBUG"; "VERBOSE"]%string
  | _ => true
  end.

Definition level_and_text (e : Logger.entry Kwargs) : string * string :=
  (Logger.level e, Logger.message e).

(** How many of the messages have the level [lvl]. *)
Definition count_level (lvl : string) (o : Logger.t Kwargs) : nat :=
  count_occ string_dec (map Logger.level (Logger.messages o)) lvl.

(** [sum(summary.values())] *)
Definition total_count (summary : list (string * Z)) : Z :=
  fold_right Z.add 0%Z (map snd summary).

End LoggerVocabulary.

(** ** Sequences of calls on a progress tracker *)
Section TrackerVocabulary.
Import PyFloat PyNum Logging.

Inductive tracker_call :=
  | Start
  | Update (count : Z) (force : bool)
  | Finish.

Definition tracker_invoke (c : tracker_call) : M ProgressTracker.state unit :=
  match c with
  | Start => ProgressTracker.start
  | Update count force => ProgressTracker.update count force
  | Finish => bind ProgressTracker.finish (fun _ => ret tt)
  end.

Fixpoint tracker_run (cs : list tracker_call) : M ProgressTracker.state unit :=
  match cs with
  | [] => ret tt
  | c :: rest => bind (tracker_invoke c) (fun _ => tracker_run rest)
  end.

(** The world after [k] more readings of the clock. *)
Definition after_reads (k : nat) (w : World) : World :=
  {| time_time := time_time w;
     datetime_now_isoformat := datetime_now_isoformat w;
     clock_reads := (clock_reads w + k)%nat;
     stdout := stdout w |}.

(** The world after one more write. *)
Definition after_write (text : string) (w : World) : World :=
  {| time_time := time_time w;
     datetime_now_isoformat := datetime_now_isoformat w;
     clock_reads := clock_reads w;
     stdout := stdout w ++ [text] |}.

(** The tracker with another [current]. *)
Definition with_current (c : Z) (o : ProgressTracker.t) : ProgressTracker.t :=
  {| ProgressTracker.total := ProgressTracker.total o;
     ProgressTracker.name := ProgressTracker.name o;
     ProgressTracker.current := c;
     ProgressTracker.start_time := ProgressTracker.start_time o;
     ProgressTracker.last_update := ProgressTracker.last_update o |}.

(** A started tracker whose total is zero (and whose [last_update] is a
    number a float can hold, as [start] and [update] leave it). *)
Definition started_with_zero_total (o : ProgressTracker.t) : Prop :=
  ProgressTracker.total o = 0%Z
  /\ (exists t0, ProgressTracker.start_time o = Some t0)
  /\ (exists f, to_float (ProgressTracker.last_update o) = Ok f).

(** The progress line of a tracker at its total, [elapsed] after its
    start. *)
Definition full_bar_line (o : ProgressTracker.t) (elapsed : pyfloat) : string :=
  (CR ++ ProgressTracker.name o ++ ": [" ++ str_repeat cell_full 40 ++ "] 100.0% ("
      ++ str_of_Z (ProgressTracker.total o) ++ "/" ++ str_of_Z (ProgressTracker.total o)
      ++ ") " ++ format_1f elapsed ++ "s")%string.

(** A progress line with [filled] full cells in its bar. *)
Definition progress_line (o : ProgressTracker.t) (filled : Z) (percent time_str : string)
    (final : bool) : string :=
  let status :=
    (CR ++ ProgressTracker.name o ++ ": ["
        ++ (str_repeat cell_full filled ++ str_repeat cell_empty (40 - filled))
        ++ "] " ++ percent ++ "% ("
        ++ str_of_Z (ProgressTracker.current o) ++ "/" ++ str_of_Z (ProgressTracker.total o)
        ++ ") " ++ time_str)%string in
  if final then (status ++ " - DONE" ++ NL)%string else status.

(** The reading the clock gives at its [k]-th next call. *)
Definition reading (k : nat) (w : World) : pyfloat :=
  time_time w (clock_reads w + k)%nat.

(** [with Timer(name): body]: [__enter__], the block on the world, then
    [__exit__] whether the block returned or raised; the outcome is the
    block's, as [__exit__] returns [None]. *)
Definition with_Timer {A} (name : string) (body : M World A)
  : World -> res A * (Timer.t * World) :=
  fun w =>
    match Timer.enter (Timer.init name, w) with
    | (Ok _, (timer, w1)) =>
        let (outcome, w2) := body w1 in
        match Timer.exit (timer, w2) with
        | (Ok _, s) => (outcome, s)
        | (Raise e, s) => (Raise e, s)
        end
    | (Raise e, s) => (Raise e, s)
    end.

End TrackerVocabulary.

(** A clock that stands still at 1000.0 and an empty output. *)
Module LoggingDemo.
Import PyFloat PyNum Logging.

Definition frozen_world : World :=
  {| time_time := fun _ => FFin 1000;
     datetime_now_isoformat := fun _ => "2026-01-02T03:04:05"%string;
     clock_reads := 0;
     stdout := [] |}.

Definition started_tracker : ProgressTracker.t :=
  {| ProgressTracker.total := 10; ProgressTracker.name := "Processing";
     ProgressTracker.current := 0;
     ProgressTracker.start_time := Some (FFin 1000);
     ProgressTracker.last_update := NInt 0 |}.

End LoggingDemo.

(* ===================================================================== *)
(** * Part III: properties                                                *)
(* ===================================================================== *)

(** ** The coverage polygon *)
Section PolygonFacts.
Import GeoJSON.
Context {V : Type} `{EqDecision V} `{Precision6 V}.

(** The ring of the polygon is the caller's list as the call leaves it,
    every position rounded. *)
Lemma polygon_returns_argument_after (polygon_coords : list (V * V)) :
  snd (generate_geojson_polygon polygon_coords) =
  {| features :=
       [{| geom :=
             Polygon [map clean_position (fst (generate_geojson_polygon polygon_coords))];
           properties := [("name", PStr "Coverage area")]%string |}] |}.
Proof.
  unfold generate_geojson_polygon, geojson_Polygon.
  destruct polygon_coords as [|first rest]; simpl; [reflexivity|].
  destruct (decide (first <> List.last rest first)); [|reflexivity].
  destruct (rest ++ [first]) eqn:E; reflexivity.
Qed.

Lemma polygon_argument_after (polygon_coords : list (V * V)) :
  fst (generate_geojson_polygon polygon_coords) =
  match polygon_coords with
  | [] => []
  | first :: rest =>
      if decide (List.last rest first = first) then polygon_coords
      else polygon_coords ++ [first]
  end.
Proof.
  unfold generate_geojson_polygon.
  destruct polygon_coords as [|first rest]; simpl; [reflexivity|].
  destruct (decide (first <> List.last rest first)) as [Hne|Heq];
    destruct (decide (List.last rest first = first)) as [He|Hn];
    try reflexivity.
  - exfalso. apply Hne. symmetry. exact He.
  - exfalso. apply Heq. intros E. apply Hn. symmetry. exact E.
Qed.

(** C4 (amended): [generate_geojson_polygon] returns one collection
    holding one polygon feature named "Coverage area"; its ring is the
    closed input with every coordinate rounded to 6 decimals, where the
    closed input is the empty list for the empty input, the input itself
    when the last vertex equals the first, and the input followed by its
    first vertex otherwise.  So the ring is the closed input itself when
    rounding changes none of the input's positions.  The function is
    total, so no input makes it raise. *)
Theorem generate_geojson_polygon_ring (polygon_coords : list (V * V)) :
  exists closed,
    snd (generate_geojson_polygon polygon_coords) =
      {| features :=
           [{| geom := Polygon [map clean_position closed];
               properties := [("name", PStr "Coverage area")]%string |}] |}
    /\ (polygon_coords = [] -> closed = [])
    /\ (forall first rest,
          polygon_coords = first :: rest ->
          List.last rest first <> first ->
          closed = polygon_coords ++ [first])
    /\ (forall first rest,
          polygon_coords = first :: rest ->
          List.last rest first = first ->
          closed = polygon_coords)
    /\ (Forall (fun position => clean_position position = position) polygon_coords ->
        map clean_position closed = closed).
Proof.
  exists (fst (generate_geojson_polygon polygon_coords)).
  split; [apply polygon_returns_argument_after|].
  rewrite polygon_argument_after.
  repeat split.
  - intros ->. reflexivity.
  - intros first rest -> Hne.
    destruct (decide (List.last rest first = first)); [contradiction|reflexivity].
  - intros first rest -> Heq.
    destruct (decide (List.last rest first = first)); [reflexivity|contradiction].
  - intros Hall.
    assert (forall l : list (V * V),
               Forall (fun position => clean_position position = position) l ->
               map clean_position l = l) as Hfix.
    { induction 1 as [|x l Hx _ IH]; [reflexivity|]. simpl. rewrite Hx, IH. reflexivity. }
    destruct polygon_coords as [|first rest]; [reflexivity|].
    destruct (decide (List.last rest first = first)); [apply Hfix, Hall|].
    apply Hfix. apply Forall_app. split; [exact Hall|].
    constructor; [|constructor]. inversion Hall; assumption.
Qed.

(** C5 (amended): the value [generate_geojson_polygon] returns depends on
    its argument alone, but the call is not free of effects: the caller's
    list is left unchanged exactly when it is empty or already closed,
    and otherwise it has its first vertex appended. *)
Theorem generate_geojson_polygon_argument_effect (polygon_coords : list (V * V)) :
  (fst (generate_geojson_polygon polygon_coords) = polygon_coords <->
   polygon_coords = [] \/
   exists first rest,
     polygon_coords = first :: rest /\ List.last rest first = first)
  /\ (forall first rest,
        polygon_coords = first :: rest ->
        List.last rest first <> first ->
        fst (generate_geojson_polygon polygon_coords) = polygon_coords ++ [first]).
Proof.
  rewrite polygon_argument_after. split.
  - destruct polygon_coords as [|first rest].
    + split; [intros _; left; reflexivity | reflexivity].
    + destruct (decide (List.last rest first = first)) as [He|Hn].
      * split; [intros _; right; exists first, rest; auto | reflexivity].
      * split.
        -- intros E. exfalso.
           apply (f_equal (@List.length _)) in E.
           rewrite length_app in E. simpl in E. lia.
        -- intros [E|(f & r & E & Hl)]; [discriminate|].
           injection E as -> ->. contradiction.
  - intros first rest -> Hne.
    destruct (decide (List.last rest first = first)); [contradiction|reflexivity].
Qed.

End PolygonFacts.

(** C5, counterexample: after the call on an open ring of three vertices
    the caller's list holds four. *)
Lemma generate_geojson_polygon_mutates_argument :
  fst (GeoJSON.generate_geojson_polygon [(0, 0); (1, 0); (1, 1)]%Z)
  = [(0, 0); (1, 0); (1, 1); (0, 0)]%Z
  /\ fst (GeoJSON.generate_geojson_polygon [(0, 0); (1, 0); (1, 1)]%Z)
     <> [(0, 0); (1, 0); (1, 1)]%Z.
Proof. split; [reflexivity | discriminate]. Qed.

(** C4, counterexample: the ring of [generate_geojson_polygon] on the one
    vertex [(1.00000095367431640625, 0.0)], that is [(1 + 2**-20, 0.0)],
    is [[(1.000001, 0.0)]], not the input ring: the coordinate is
    rounded to six decimals. *)
Lemma generate_geojson_polygon_rounds_coordinates :
  geom_rings (snd (GeoJSON.generate_geojson_polygon
                     [(Q2Qc (1048577 # 1048576), Q2Qc 0)]))
  = [[(Q2Qc (4503604130970123 # 4503599627370496), Q2Qc 0)]]
  /\ geom_rings (snd (GeoJSON.generate_geojson_polygon
                        [(Q2Qc (1048577 # 1048576), Q2Qc 0)]))
     <> [[(Q2Qc (1048577 # 1048576), Q2Qc 0)]].
Proof.
  assert (geom_rings (snd (GeoJSON.generate_geojson_polygon
                             [(Q2Qc (1048577 # 1048576), Q2Qc 0)]))
          = [[(Q2Qc (4503604130970123 # 4503599627370496), Q2Qc 0)]]) as E.
  { unfold GeoJSON.generate_geojson_polygon. cbn [List.last].
    destruct (decide _) as [Hne|_]; [exfalso; apply Hne; reflexivity|].
    cbn. unfold GeoJSON.clean_position. cbn [fst snd].
    repeat f_equal; apply Qc_is_canon; vm_compute; reflexivity. }
  split; [exact E|]. rewrite E. intros Heq.
  assert (Q2Qc (4503604130970123 # 4503599627370496) = Q2Qc (1048577 # 1048576))
    as Hq by congruence.
  apply (f_equal this) in Hq. vm_compute in Hq. discriminate.
Qed.

(** The rings of the specification's examples: an open ring is closed,
    a closed ring and the empty ring are left as they are. *)
Example polygon_ring_examples :
  geom_rings (snd (GeoJSON.generate_geojson_polygon [(0, 0); (1, 0); (1, 1)]%Z))
  = [[(0, 0); (1, 0); (1, 1); (0, 0)]%Z]
  /\ geom_rings (snd (GeoJSON.generate_geojson_polygon
                        [(0, 0); (1, 0); (1, 1); (0, 0)]%Z))
     = [[(0, 0); (1, 0); (1, 1); (0, 0)]%Z]
  /\ geom_rings (snd (GeoJSON.generate_geojson_polygon ([] : list (Z * Z))))
     = [[]].
Proof. repeat split. Qed.

(** ** Order facts about floats *)
Section FloatFacts.
Import PyFloat.

Lemma flt_true_not_nan a b : flt a b = true -> is_nan a = false /\ is_nan b = false.
Proof. destruct a, b; simpl; intros; try discriminate; auto. Qed.

Lemma flt_irrefl a : flt a a = false.
Proof.
  destruct a as [q|n|]; simpl; [|destruct n|]; try reflexivity.
  apply Bool.negb_false_iff, Qle_bool_iff, Qle_refl.
Qed.

(** If [m < b] and [x] is not above [m], then [x] is not above [b]. *)
Lemma flt_step m b x : flt m b = true -> flt m x = false -> flt b x = false.
Proof.
  destruct m as [m|nm|], b as [b|nb|], x as [x|nx|]; simpl;
    try discriminate; try reflexivity;
    try (destruct nm; simpl; try discriminate; try reflexivity);
    try (destruct nb; simpl; try discriminate; try reflexivity);
    try (destruct nx; simpl; try discriminate; try reflexivity).
  rewrite !Bool.negb_true_iff, !Bool.negb_false_iff.
  intros Hmb Hxm. apply Qle_bool_iff. apply Qle_bool_iff in Hxm.
  destruct (Qlt_le_dec m b) as [Hlt|Hle].
  - apply Qle_trans with m; [exact Hxm | apply Qlt_le_weak, Hlt].
  - apply Qle_bool_iff in Hle. congruence.
Qed.

(** If [a] is a number not above [m] and [m < b], then [a < b]. *)
Lemma flt_below a m b :
  is_nan a = false -> flt m a = false -> flt m b = true -> flt a b = true.
Proof.
  destruct a as [a|na|], m as [m|nm|], b as [b|nb|]; simpl;
    try discriminate; try reflexivity;
    try (destruct na; simpl; try discriminate; try reflexivity);
    try (destruct nm; simpl; try discriminate; try reflexivity);
    try (destruct nb; simpl; try discriminate; try reflexivity).
  rewrite !Bool.negb_true_iff, !Bool.negb_false_iff.
  intros _ Ham Hbm. apply Qle_bool_iff in Ham.
  destruct (Qle_bool b a) eqn:E; [|reflexivity].
  apply Qle_bool_iff in E.
  assert (Qle_bool b m = true) by (apply Qle_bool_iff, Qle_trans with a; auto).
  congruence.
Qed.

(** What the running maximum of the second loop is: the start value or
    one of the elements, never NaN, and below none of them. *)
Lemma fold_pymax_max (l : list pyfloat) : forall m0,
  is_nan m0 = false ->
  is_nan (fold_left pymax l m0) = false
  /\ (fold_left pymax l m0 = m0 \/ In (fold_left pymax l m0) l)
  /\ flt (fold_left pymax l m0) m0 = false
  /\ (forall x, In x l -> flt (fold_left pymax l m0) x = false).
Proof.
  induction l as [|b l IH]; intros m0 Hm0; simpl.
  - repeat split; auto using flt_irrefl. contradiction.
  - assert (pymax m0 b = if flt m0 b then b else m0) as Hmax by reflexivity.
    destruct (flt m0 b) eqn:Hlt; rewrite Hmax; clear Hmax.
    + destruct (flt_true_not_nan _ _ Hlt) as [_ Hb].
      destruct (IH b Hb) as (Hn & Hin & Hb' & Hall).
      repeat split; auto.
      * destruct Hin as [Hin|Hin]; auto.
      * destruct (flt (fold_left pymax l b) m0) eqn:E; [|reflexivity].
        pose proof (flt_step _ _ _ E Hb') as Hs. congruence.
      * intros x [<-|Hx]; auto.
    + destruct (IH m0 Hm0) as (Hn & Hin & Hm' & Hall).
      repeat split; auto.
      * destruct Hin as [Hin|Hin]; auto.
      * intros x [<-|Hx]; auto.
        destruct (flt (fold_left pymax l m0) b) eqn:E; [|reflexivity].
        pose proof (flt_below _ _ _ Hm0 Hm' E) as Hs. congruence.
Qed.

Lemma feq_refl a : is_nan a = false -> feq a a = true.
Proof.
  destruct a as [q|n|]; simpl; intros; try discriminate.
  - apply Qeq_bool_iff, Qeq_refl.
  - destruct n; reflexivity.
Qed.

(** When some element is at least [0.0], the running maximum started at
    [0.0] equals one of the elements: it is their maximum. *)
Lemma fold_pymax_attained (l : list pyfloat) :
  (exists x, In x l /\ fle (FFin 0) x = true) ->
  exists y, In y l /\ feq (fold_left pymax l (FFin 0)) y = true.
Proof.
  intros (x & Hx & Hle).
  destruct (fold_pymax_max l (FFin 0) eq_refl) as (Hn & [E|Hin] & _ & Hall).
  - exists x. split; [exact Hx|]. specialize (Hall x Hx). rewrite E in *.
    destruct x as [q|n|]; simpl in *; try discriminate.
    + apply Bool.negb_false_iff in Hall.
      apply Qle_bool_iff in Hall. apply Qle_bool_iff in Hle.
      apply Qeq_bool_iff, Qle_antisym; assumption.
    + destruct n; discriminate.
  - eexists. split; [exact Hin|]. apply feq_refl, Hn.
Qed.

End FloatFacts.

(** ** The run timestamp *)
Section TimestampFacts.
Import PyFloat BatchProcessor.

Lemma checked_below (P : Z -> bool) (lo len : Z) :
  forallb (fun k => P (lo + Z.of_nat k)%Z) (seq 0 (Z.to_nat len)) = true ->
  forall n : Z, (lo <= n < lo + len)%Z -> P n = true.
Proof.
  intros Hall n Hn. rewrite forallb_forall in Hall.
  replace n with (lo + Z.of_nat (Z.to_nat (n - lo)))%Z by lia.
  apply Hall. apply in_seq. lia.
Qed.




End TimestampFacts.

(** ** The batch orchestrator *)

Section BatchFacts.
Import Py PyFloat GeoJSON BatchProcessor.
Context {V X Profile World : Type} `{EqDecision V} `{Precision6 V}.
Variable loss : LossParameterSet V X -> World -> (V * V) * World.
Variable load_profiles : string -> World -> list Profile * World.
Variable process_loss_parameters : Profile -> World -> LossParameterSet V X * World.
Variable localtime : World -> struct_time * World.
Variable project_root : string.

Hypothesis distances_nonempty :
  forall profile w, distances (fst (process_loss_parameters profile w)) <> [].

Lemma last_cons {A} (rest : list A) : forall x d,
  List.last (x :: rest) d = List.last rest x.
Proof.
  induction rest as [|y rest IH]; intros x d; [reflexivity|].
  change (List.last (y :: rest) d = List.last (y :: rest) x).
  rewrite (IH y d), (IH y x). reflexivity.
Qed.

Lemma last_item_nonempty {A} (xs : list A) (d : A) :
  xs <> [] -> last_item xs = Ok (List.last xs d).
Proof.
  destruct xs as [|x rest]; [congruence|]. intros _.
  unfold last_item. rewrite last_cons. reflexivity.
Qed.

Lemma numbered_cons prefix k n :
  numbered prefix k (S n) =
  Some (prefix ++ str_of_Z (k + 1))%string :: numbered prefix (k + 1) n.
Proof.
  unfold numbered. simpl. f_equal.
  - do 3 f_equal. lia.
  - rewrite <- seq_shift, map_map. apply map_ext. intros i.
    do 3 f_equal. lia.
Qed.



(** One turn of the loop, spelled out. *)
Lemma process_profile_turn k profile acc w :
  exists receiver line,
    let p := fst (process_loss_parameters profile w) in
    let w1 := snd (process_loss_parameters profile w) in
    process_profile process_loss_parameters loss k profile acc w =
      (Ok {| points :=
               (if (k =? 0)%Z
                then points acc ++ [generate_geojson_point_transmitter p]
                else points acc) ++ [receiver];
             lines := lines acc ++ [line];
             polygon_coords := polygon_coords acc ++ [rx_position p] |},
       snd (loss p w1))
    /\ feature_name receiver = Some ("Receiver_" ++ str_of_Z (k + 1))%string
    /\ geom receiver = Point (round6 (rx_lon p)) (round6 (rx_lat p))
    /\ feature_name line = Some ("Link_" ++ str_of_Z (k + 1))%string
    /\ geom line =
       LineString [(round6 (tx_lon p), round6 (tx_lat p));
                   (round6 (rx_lon p), round6 (rx_lat p))].
Proof.
  unfold process_profile, bind, call, lift, ret.
  pose proof (distances_nonempty profile w) as Hd.
  destruct (process_loss_parameters profile w) as [p w1]. simpl in *.
  destruct (loss p w1) as [[Lb Ep] w2]. simpl.
  unfold generate_geojson_point_receiver, generate_geojson_line, rbind.
  rewrite (last_item_nonempty _ (FFin 0) Hd).
  eexists _, _. repeat split.
Qed.

(** The loop from a turn after the first: receivers and links only. *)
Lemma process_profiles_later profiles : forall k acc w,
  (0 < k)%Z ->
  exists acc' receivers links,
    process_profiles process_loss_parameters loss k profiles acc w =
      (Ok acc', snd (derived loss process_loss_parameters profiles w))
    /\ points acc' = points acc ++ receivers
    /\ lines acc' = lines acc ++ links
    /\ map feature_name receivers = numbered "Receiver_" k (length profiles)
    /\ map geom receivers =
       map (fun d => Point (round6 (rx_lon (fst d))) (round6 (rx_lat (fst d))))
         (fst (derived loss process_loss_parameters profiles w))
    /\ map feature_name links = numbered "Link_" k (length profiles)
    /\ polygon_coords acc' =
       polygon_coords acc ++ map (fun d => rx_position (fst d)) (fst (derived loss process_loss_parameters profiles w)).
Proof.
  induction profiles as [|profile rest IH]; intros k acc w Hk.
  - exists acc, [], []. simpl. unfold numbered. simpl. rewrite !app_nil_r. auto 10.
  - destruct (process_profile_turn k profile acc w)
      as (receiver & line & Hturn & Hrn & Hrg & Hln & Hlg).
    simpl in Hturn. simpl process_profiles. unfold bind at 1. rewrite Hturn.
    assert ((k =? 0)%Z = false) as Hk0 by lia. rewrite Hk0.
    match goal with |- context [process_profiles _ _ _ _ ?a ?w'] =>
      destruct (IH (k + 1)%Z a w' ltac:(lia))
        as (acc' & recs & lns & Hrun & Hp & Hl & Hpn & Hpg & Hlnm & Hpc)
    end.
    exists acc', (receiver :: recs), (line :: lns). simpl derived.
    destruct (process_loss_parameters profile w) as [p w1]. simpl in *.
    destruct (loss p w1) as [r w2]. simpl in *.
    destruct (derived loss process_loss_parameters rest w2) as [more w3] eqn:Hmore. simpl in *.
    rewrite Hrun. split; [reflexivity|].
    rewrite Hp, Hl, Hpc, !numbered_cons, <- !app_assoc. simpl.
    rewrite Hrn, Hrg, Hln, Hpn, Hpg, Hlnm. auto 10.
Qed.

(** The whole loop of [main], started as [main] starts it. *)
Lemma process_profiles_whole profile rest w :
  exists acc receivers,
    process_profiles process_loss_parameters loss 0 (profile :: rest)
      {| points := []; lines := []; polygon_coords := [] |} w =
      (Ok acc, snd (derived loss process_loss_parameters (profile :: rest) w))
    /\ points acc =
       generate_geojson_point_transmitter
         (fst (process_loss_parameters profile w)) :: receivers
    /\ map feature_name receivers = numbered "Receiver_" 0 (S (length rest))
    /\ map geom receivers =
       map (fun d => Point (round6 (rx_lon (fst d))) (round6 (rx_lat (fst d))))
         (fst (derived loss process_loss_parameters (profile :: rest) w))
    /\ map feature_name (lines acc) = numbered "Link_" 0 (S (length rest))
    /\ polygon_coords acc =
       map (fun d => rx_position (fst d)) (fst (derived loss process_loss_parameters (profile :: rest) w)).
Proof.
  destruct (process_profile_turn 0 profile
              {| points := []; lines := []; polygon_coords := [] |} w)
    as (receiver & line & Hturn & Hrn & Hrg & Hln & Hlg).
  simpl in Hturn. simpl process_profiles. unfold bind at 1. rewrite Hturn.
  change (0 + 1)%Z with 1%Z.
  match goal with |- context [process_profiles _ _ _ _ ?a ?w'] =>
    destruct (process_profiles_later rest 1%Z a w' ltac:(lia))
      as (acc' & recs & lns & Hrun & Hp & Hl & Hpn & Hpg & Hlnm & Hpc)
  end.
  exists acc', (receiver :: recs). simpl derived.
  destruct (process_loss_parameters profile w) as [p w1]. simpl in *.
  destruct (loss p w1) as [r w2]. simpl in *.
  destruct (derived loss process_loss_parameters rest w2) as [more w3] eqn:Hmore. simpl in *.
  rewrite Hrun. split; [reflexivity|].
  rewrite Hp, Hl, Hpc, !numbered_cons. simpl.
  rewrite Hrn, Hrg, Hln, Hpn, Hpg, Hlnm. auto 10.
Qed.

(** The second loop computes a running maximum over the last distances
    of the parameter sets it derives again. *)
Lemma max_distance_run profiles : forall m w,
  max_distance process_loss_parameters profiles m w =
    (Ok (fold_left pymax (map last_distance (fst (rederived process_loss_parameters profiles w))) m),
     snd (rederived process_loss_parameters profiles w)).
Proof.
  induction profiles as [|profile rest IH]; intros m w; [reflexivity|].
  simpl. unfold bind, call, lift.
  pose proof (distances_nonempty profile w) as Hd.
  destruct (process_loss_parameters profile w) as [p w1]. simpl in Hd.
  rewrite (last_item_nonempty _ (FFin 0) Hd), IH.
  destruct (rederived process_loss_parameters rest w1) as [more w2]. reflexivity.
Qed.


(** A whole run of [main], given the outcome of its first loop. *)
Lemma main_run profiles_dir output_dir w acc :
  let profiles := fst (load_profiles (resolved_profiles_dir project_root profiles_dir) w) in
  let w1 := snd (load_profiles (resolved_profiles_dir project_root profiles_dir) w) in
  let w2 := snd (derived loss process_loss_parameters profiles w1) in
  let ts := strftime_Ymd_HMS (fst (localtime w2)) in
  let w3 := snd (localtime w2) in
  let tag :=
    d_tag (fold_left pymax (map last_distance (fst (rederived process_loss_parameters profiles w3))) (FFin 0)) in
  let out := resolved_output_dir project_root output_dir in
  process_profiles process_loss_parameters loss 0 profiles
    {| points := []; lines := []; polygon_coords := [] |} w1 = (Ok acc, w2) ->
  main (Some loss) load_profiles process_loss_parameters localtime project_root
    profiles_dir output_dir w =
  (Ok {| points_file :=
           (path_join out ("points_" ++ tag ++ "_" ++ ts ++ ".geojson"),
            {| features := points acc |});
         lines_file :=
           (path_join out ("lines_" ++ tag ++ "_" ++ ts ++ ".geojson"),
            {| features := lines acc |});
         polygon_file :=
           (path_join out ("polygon_" ++ tag ++ "_" ++ ts ++ ".geojson"),
            snd (generate_geojson_polygon (polygon_coords acc))) |},
   snd (rederived process_loss_parameters profiles w3)).
Proof.
  intros profiles w1 w2 ts w3 tag out Hloop.
  unfold main, bind, call, ret.
  fold (resolved_profiles_dir project_root profiles_dir).
  fold (resolved_output_dir project_root output_dir). fold out.
  subst profiles w1 ts w3 tag.
  destruct (load_profiles (resolved_profiles_dir project_root profiles_dir) w)
    as [profiles w1]. simpl in *.
  rewrite Hloop. subst w2.
  destruct (localtime (snd (derived loss process_loss_parameters profiles w1))) as [t w3]. simpl.
  rewrite max_distance_run. reflexivity.
Qed.



(** C10 (amended): a one-vertex list (and any list whose last vertex
    equals its first) gets no closing vertex, so a run over exactly one
    profile writes a coverage polygon whose ring holds exactly one
    position: the receiver's, each coordinate rounded to six decimals. *)
Theorem single_profile_polygon profiles_dir output_dir w profile :
  fst (load_profiles (resolved_profiles_dir project_root profiles_dir) w) = [profile] ->
  let w1 := snd (load_profiles (resolved_profiles_dir project_root profiles_dir) w) in
  let p := fst (process_loss_parameters profile w1) in
  (forall c : V * V,
      generate_geojson_polygon [c] =
      ([c], {| features :=
                 [{| geom := Polygon [[clean_position c]];
                     properties := [("name", PStr "Coverage area")]%string |}] |}))
  /\ (forall (first : V * V) rest,
        List.last rest first = first ->
        fst (generate_geojson_polygon (first :: rest)) = first :: rest)
  /\ exists written w',
       main (Some loss) load_profiles process_loss_parameters localtime
         project_root profiles_dir output_dir w = (Ok written, w')
       /\ snd (polygon_file written) =
          {| features :=
               [{| geom := Polygon [[clean_position (rx_position p)]];
                   properties := [("name", PStr "Coverage area")]%string |}] |}
       /\ (forall ring,
             geom_rings (snd (polygon_file written)) = [ring] -> length ring = 1).
Proof.
  intros Hload w1 p.
  assert (forall c : V * V,
             generate_geojson_polygon [c] =
             ([c], {| features :=
                        [{| geom := Polygon [[clean_position c]];
                            properties := [("name", PStr "Coverage area")]%string |}] |}))
    as Hone.
  { intros c. unfold generate_geojson_polygon. simpl.
    destruct (decide (c <> c)); [contradiction|reflexivity]. }
  split; [exact Hone|]. split.
  { intros first rest Hl. rewrite polygon_argument_after.
    destruct (decide (List.last rest first = first)); [reflexivity|contradiction]. }
  destruct (process_profiles_whole profile [] w1)
    as (acc & receivers & Hrun & _ & _ & _ & _ & Hpc).
  assert (polygon_coords acc = [rx_position p]) as Hpc'.
  { rewrite Hpc. subst p. simpl.
    destruct (process_loss_parameters profile w1) as [p' w1']. simpl.
    destruct (loss p' w1'). reflexivity. }
  pose proof (main_run profiles_dir output_dir w acc) as Hmain.
  cbv zeta in Hmain. rewrite Hload in Hmain. specialize (Hmain Hrun).
  eexists _, _. split; [exact Hmain|].
  cbn [polygon_file snd]. rewrite Hpc', Hone.
  split; [reflexivity|].
  intros ring E. cbn in E. injection E as <-. reflexivity.
Qed.

(** What the first loop records: each turn appends a receiver that
    carries the last distance of the parameter set derived in that
    turn. *)
Lemma process_profiles_distances profiles : forall k acc w,
  exists acc',
    process_profiles process_loss_parameters loss k profiles acc w =
      (Ok acc', snd (derived loss process_loss_parameters profiles w))
    /\ recorded_distances (points acc') =
       recorded_distances (points acc)
         ++ map (fun d => last_distance (fst d))
              (fst (derived loss process_loss_parameters profiles w)).
Proof.
  induction profiles as [|profile rest IH]; intros k acc w.
  - exists acc. simpl. rewrite app_nil_r. auto.
  - simpl process_profiles. unfold bind at 1.
    unfold process_profile at 1, bind, call, lift, ret.
    pose proof (distances_nonempty profile w) as Hd. simpl derived.
    destruct (process_loss_parameters profile w) as [p w1]. simpl in Hd.
    destruct (loss p w1) as [[Lb Ep] w2].
    unfold generate_geojson_point_receiver, generate_geojson_line, rbind.
    rewrite (last_item_nonempty _ (FFin 0) Hd). cbn [fst snd].
    match goal with |- context [process_profiles _ _ _ _ ?a w2] =>
      destruct (IH (k + 1)%Z a w2) as (acc' & Hrun & Hrec)
    end.
    exists acc'. rewrite Hrun.
    destruct (derived loss process_loss_parameters rest w2) as [more w3].
    split; [reflexivity|]. rewrite Hrec. cbn [points fst map].
    unfold recorded_distances. rewrite omap_app.
    destruct (k =? 0)%Z; [rewrite omap_app|]; cbn [omap];
      rewrite <- ?app_assoc; reflexivity.
Qed.

(** A pure derivation gives both loops the same parameter sets. *)
Lemma derived_pure (f : Profile -> LossParameterSet V X) :
  (forall profile w, process_loss_parameters profile w = (f profile, w)) ->
  forall profiles w,
    map fst (fst (derived loss process_loss_parameters profiles w)) = map f profiles
    /\ rederived process_loss_parameters profiles w = (map f profiles, w).
Proof.
  intros Hpure. induction profiles as [|profile rest IH]; intros w; [auto|].
  simpl. rewrite Hpure.
  destruct (loss (f profile) w) as [r w2].
  destruct (IH w2) as [IH1 _]. destruct (IH w) as [_ IH2].
  destruct (derived loss process_loss_parameters rest w2) as [more w3].
  rewrite IH2. simpl in *. rewrite IH1. auto.
Qed.

(** C8 (amended): if [process_loss_parameters] is a pure function of its
    profile argument, the first loop completes and its receivers record
    the last distances of the parameter sets it derived, one per profile
    and in order; the value the second loop recomputes is the maximum of
    [0.0] and those recorded distances; and it is the maximum of the
    recorded distances themselves as soon as one of them is at least
    [0.0]. *)
Theorem max_distance_recomputed_is_cached (f : Profile -> LossParameterSet V X) :
  (forall profile w, process_loss_parameters profile w = (f profile, w)) ->
  forall profiles w w',
  exists acc w2 max_d_km,
    process_profiles process_loss_parameters loss 0 profiles
      {| points := []; lines := []; polygon_coords := [] |} w = (Ok acc, w2)
    /\ recorded_distances (points acc) =
       map (fun profile => last_distance (f profile)) profiles
    /\ max_distance process_loss_parameters profiles (FFin 0) w' = (Ok max_d_km, w')
    /\ maximum_of (FFin 0 :: recorded_distances (points acc)) max_d_km
    /\ ((exists x, In x (recorded_distances (points acc)) /\ fle (FFin 0) x = true) ->
        maximum_of (recorded_distances (points acc)) max_d_km).
Proof.
  intros Hpure profiles w w'.
  destruct (process_profiles_distances profiles 0
              {| points := []; lines := []; polygon_coords := [] |} w)
    as (acc & Hrun & Hrec).
  destruct (derived_pure f Hpure profiles w) as [Hd _].
  destruct (derived_pure f Hpure profiles w') as [_ Hr].
  assert (recorded_distances (points acc) =
          map (fun profile => last_distance (f profile)) profiles) as Hlasts.
  { rewrite Hrec. cbn [points recorded_distances omap app].
    rewrite <- (map_map f last_distance), <- Hd, map_map. reflexivity. }
  set (lasts := recorded_distances (points acc)) in *.
  exists acc, (snd (derived loss process_loss_parameters profiles w)),
    (fold_left pymax lasts (FFin 0)).
  split; [exact Hrun|]. split; [exact Hlasts|]. split.
  { rewrite max_distance_run, Hr. cbn [fst snd]. rewrite Hlasts, map_map. reflexivity. }
  destruct (fold_pymax_max lasts (FFin 0) eq_refl) as (Hn & Hin & H0 & Hall).
  split.
  - split.
    + destruct Hin as [E|Hin].
      * exists (FFin 0). split; [left; reflexivity|]. rewrite E. reflexivity.
      * eexists. split; [right; exact Hin|]. apply feq_refl, Hn.
    + intros x [<-|Hx]; auto.
  - intros Hex. split; [apply fold_pymax_attained, Hex|exact Hall].
Qed.

End BatchFacts.

Lemma demo_distances_nonempty (pr : Demo.profile) (w : nat) :
  GeoJSON.distances (fst (Demo.demo_process pr w)) <> [].
Proof. discriminate. Qed.


(** Tags: one decimal place, rounded to nearest with ties to even. *)
Example d_tag_examples :
  BatchProcessor.d_tag (PyFloat.FFin 5) = "5p0km"%string
  /\ BatchProcessor.d_tag (PyFloat.FFin (1299 # 100)) = "13p0km"%string
  /\ BatchProcessor.d_tag (PyFloat.FFin (1 # 4)) = "0p2km"%string
  /\ BatchProcessor.d_tag (PyFloat.FFin (3 # 4)) = "0p8km"%string
  /\ BatchProcessor.d_tag (PyFloat.FInf false) = "infkm"%string.
Proof. vm_compute. repeat split. Qed.

(** The end-to-end scenario: tag [5p0km], four point features, three
    links, and a ring of four positions. *)
Example demo_three_profiles :
  Demo.file_names (Demo.demo_main Demo.three_profiles) =
    ["out/points_5p0km_20260102_030405.geojson";
     "out/lines_5p0km_20260102_030405.geojson";
     "out/polygon_5p0km_20260102_030405.geojson"]%string
  /\ match fst (Demo.demo_main Demo.three_profiles) with
     | Py.Ok written =>
         map feature_name (GeoJSON.features (snd (BatchProcessor.points_file written))) =
           [Some "Transmitter"; Some "Receiver_1"; Some "Receiver_2";
            Some "Receiver_3"]%string
         /\ map feature_name (GeoJSON.features (snd (BatchProcessor.lines_file written))) =
           [Some "Link_1"; Some "Link_2"; Some "Link_3"]%string
         /\ geom_rings (snd (BatchProcessor.polygon_file written)) =
           [[(1, 1); (2, 1); (2, 2); (1, 1)]%Z]
     | Py.Raise _ => False
     end.
Proof. vm_compute. repeat split. Qed.




(** C8, witness: the theorem at the three-profile run, whose parameter
    derivation is pure: the receivers record 2.0, 5.0 and 3.0 and the
    second loop finds 5.0. *)
Lemma max_distance_recomputed_is_cached_witness :
  (forall pr w, Demo.demo_process pr w = (Demo.demo_parameters pr, w))
  /\ exists acc w2 max_d_km,
       BatchProcessor.process_profiles Demo.demo_process Demo.demo_loss 0
         Demo.three_profiles
         {| BatchProcessor.points := []; BatchProcessor.lines := [];
            BatchProcessor.polygon_coords := [] |} 0%nat = (Py.Ok acc, w2)
       /\ recorded_distances (BatchProcessor.points acc) =
          [PyFloat.FFin 2; PyFloat.FFin 5; PyFloat.FFin 3]
       /\ BatchProcessor.max_distance Demo.demo_process Demo.three_profiles
            (PyFloat.FFin 0) 3%nat = (Py.Ok max_d_km, 3%nat)
       /\ maximum_of (PyFloat.FFin 0 :: recorded_distances (BatchProcessor.points acc))
            max_d_km
       /\ ((exists x, In x (recorded_distances (BatchProcessor.points acc))
                      /\ PyFloat.fle (PyFloat.FFin 0) x = true) ->
           maximum_of (recorded_distances (BatchProcessor.points acc)) max_d_km).
Proof.
  split; [reflexivity|].
  exact (max_distance_recomputed_is_cached Demo.demo_loss Demo.demo_process
           demo_distances_nonempty Demo.demo_parameters (fun _ _ => eq_refl)
           Demo.three_profiles 0%nat 3%nat).
Defined.

(** C8, counterexample: over two profiles whose distance sequences end
    at [-2.0] and [-3.0] the first loop records those two distances,
    whose maximum is [-2.0], and the second loop recomputes [0.0], which
    is not their maximum. *)
Lemma max_distance_floor_counterexample :
  (forall pr w, Demo.demo_process pr w = (Demo.demo_parameters pr, w))
  /\ (exists acc w2,
        BatchProcessor.process_profiles Demo.demo_process Demo.demo_loss 0
          Demo.negative_profiles
          {| BatchProcessor.points := []; BatchProcessor.lines := [];
             BatchProcessor.polygon_coords := [] |} 0%nat = (Py.Ok acc, w2)
        /\ recorded_distances (BatchProcessor.points acc) =
           [PyFloat.FFin (-2); PyFloat.FFin (-3)])
  /\ BatchProcessor.max_distance Demo.demo_process Demo.negative_profiles
       (PyFloat.FFin 0) 2%nat = (Py.Ok (PyFloat.FFin 0), 2%nat)
  /\ maximum_of [PyFloat.FFin (-2); PyFloat.FFin (-3)] (PyFloat.FFin (-2))
  /\ ~ maximum_of [PyFloat.FFin (-2); PyFloat.FFin (-3)] (PyFloat.FFin 0).
Proof.
  split; [reflexivity|]. split; [eexists _, _; split; reflexivity|].
  split; [reflexivity|]. split.
  - split.
    + exists (PyFloat.FFin (-2)). split; [left; reflexivity|reflexivity].
    + intros x [<-|[<-|[]]]; reflexivity.
  - intros [(y & [<-|[<-|[]]] & Hy) _]; discriminate.
Qed.

(** C10, counterexample: the run over one profile whose receiver is at
    [(1.00000095367431640625, 0.0)] writes a polygon whose ring is
    [[(1.000001, 0.0)]]: one position, and not the receiver's. *)
Lemma single_profile_polygon_rounds_position :
  (let position := rx_position DemoRounded.fine_parameters in
   (this (fst position), this (snd position))) = (1048577 # 1048576, 0)%Q
  /\ DemoRounded.ring_values DemoRounded.fine_main
     = [[(4503604130970123 # 4503599627370496, 0)%Q]]
  /\ DemoRounded.ring_values DemoRounded.fine_main
     <> [[(1048577 # 1048576, 0)%Q]].
Proof.
  assert (DemoRounded.ring_values DemoRounded.fine_main
          = [[(4503604130970123 # 4503599627370496, 0)%Q]]) as E
    by (vm_compute; reflexivity).
  split; [reflexivity|]. split; [exact E|]. rewrite E. discriminate.
Qed.

(** C10, witness: the theorem at a run over one profile. *)
Lemma single_profile_polygon_witness :
  (forall c : Z * Z,
      GeoJSON.generate_geojson_polygon [c] =
      ([c], {| GeoJSON.features :=
                 [{| GeoJSON.geom := GeoJSON.Polygon [[GeoJSON.clean_position c]];
                     GeoJSON.properties :=
                       [("name", GeoJSON.PStr "Coverage area")]%string |}] |}))
  /\ (forall (first : Z * Z) rest,
        List.last rest first = first ->
        fst (GeoJSON.generate_geojson_polygon (first :: rest)) = first :: rest)
  /\ exists written w',
       Demo.demo_main Demo.one_profile = (Py.Ok written, w')
       /\ snd (BatchProcessor.polygon_file written) =
          {| GeoJSON.features :=
               [{| GeoJSON.geom := GeoJSON.Polygon [[(4, 7)%Z]];
                   GeoJSON.properties :=
                     [("name", GeoJSON.PStr "Coverage area")]%string |}] |}
       /\ (forall ring,
             geom_rings (snd (BatchProcessor.polygon_file written)) = [ring] ->
             length ring = 1%nat).
Proof.
  exact (single_profile_polygon Demo.demo_loss (Demo.demo_load Demo.one_profile)
           Demo.demo_process Demo.demo_clock "root" demo_distances_nonempty
           None (Some "out"%string) 0%nat _ eq_refl).
Defined.

(** ** Configuration validation *)
Section ValidationFacts.
Import Py PyFloat PyOps Validation Config.

Lemma missing_from_dict h l sd keys :
  h !! l = Some sd ->
  missing_from h keys (VRef l) = Ok (lacking sd keys).
Proof.
  intros Hl. induction keys as [|k keys IH]; [reflexivity|].
  simpl. unfold py_contains. rewrite Hl, IH. simpl.
  destruct (bool_decide (is_Some (sd !! KStr k))); reflexivity.
Qed.

Lemma lacking_nil sd keys :
  lacking sd keys = [] -> forall k, In k keys -> is_Some (sd !! KStr k).
Proof.
  intros Hnil k Hk.
  destruct (bool_decide (is_Some (sd !! KStr k))) eqn:E.
  - apply bool_decide_eq_true in E. exact E.
  - assert (In k (lacking sd keys)) as Hin.
    { apply filter_In. split; [exact Hk|]. rewrite E. reflexivity. }
    rewrite Hnil in Hin. contradiction.
Qed.

Lemma lacking_in sd keys k :
  In k (lacking sd keys) <-> In k keys /\ sd !! KStr k = None.
Proof.
  unfold lacking. rewrite filter_In. split; intros [Hk Hn]; split; auto.
  - destruct (sd !! KStr k) eqn:E; [|reflexivity].
    rewrite bool_decide_eq_true_2 in Hn by eauto. discriminate.
  - rewrite Hn. rewrite bool_decide_eq_false_2; [reflexivity|].
    intros [? ?]. discriminate.
Qed.

(** [lo <= v <= hi] on a number. *)
Lemma py_between_number lo hi s n (l_ h_ : scalar) :
  num_of l_ = Some lo -> num_of h_ = Some hi ->
  (forall x, l_ <> SStr x) -> (forall x, h_ <> SStr x) ->
  num_of s = Some n ->
  py_between (VSc l_) (VSc s) (VSc h_) = Ok (fle lo n && fle n hi).
Proof.
  intros Hlo Hhi Hl Hh Hn. unfold py_between, py_le.
  destruct l_; try discriminate; try (exfalso; eapply Hl; reflexivity);
    destruct s; try discriminate;
    destruct h_; try discriminate; try (exfalso; eapply Hh; reflexivity);
    simpl in *; simplify_eq; simpl;
    match goal with |- context [if ?b then _ else _] => destruct b end;
    reflexivity.
Qed.

Lemma section_dict_getitem h c d section sd :
  h !! c = Some d -> section_dict h d section = Some sd ->
  exists l, py_getitem h (VRef c) (KStr section) = Ok (VRef l) /\ h !! l = Some sd.
Proof.
  intros Hc Hs. unfold section_dict in Hs. unfold py_getitem. rewrite Hc.
  destruct (d !! KStr section) as [[s|l]|]; try discriminate.
  exists l. auto.
Qed.

Lemma dict_getitem h l sd k v :
  h !! l = Some sd -> sd !! KStr k = Some v ->
  py_getitem h (VRef l) (KStr k) = Ok v.
Proof. intros Hl Hk. unfold py_getitem. rewrite Hl, Hk. reflexivity. Qed.

(** Outcome of [validate_config] on a well-typed tree: it returns and no
    condition of the claim holds, or it raises a ValidationError whose
    message names what failed. *)
Lemma validate_config_outcome h c d :
  h !! c = Some d -> well_typed h d ->
  (validate_config h (VRef c) = Ok tt /\ ~ invalid h d)
  \/ (exists msg,
        validate_config h (VRef c) = Raise (ValidationError msg)
        /\ names_failure h d msg).
Proof.
  intros Hc [Ht Hp]. unfold validate_config.
  rewrite (missing_from_dict _ _ _ _ Hc). cbn [rbind].
  destruct (lacking d required_sections) as [|s0 ms] eqn:Hms; cycle 1.
  { right. eexists. split; [reflexivity|]. left. rewrite Hms. split; congruence. }
  cbn [is_empty negb].
  pose proof (lacking_nil _ _ Hms) as Hall.
  destruct (Hall "TRANSMITTER"%string ltac:(simpl; auto)) as [vt Hvt].
  destruct (Hall "P1812"%string ltac:(simpl; auto)) as [vp Hvp].
  destruct (Ht _ Hvt) as [txd Htxd].
  destruct (Hp _ Hvp) as (pd & Hpd & Hfnum & Hpnum).
  destruct (section_dict_getitem _ _ _ _ _ Hc Htxd) as (lt & Hgt & Hlt).
  destruct (section_dict_getitem _ _ _ _ _ Hc Hpd) as (lp & Hgp & Hlp).
  rewrite Hgt. cbn [rbind]. rewrite (missing_from_dict _ _ _ _ Hlt). cbn [rbind].
  destruct (lacking txd required_tx_keys) as [|k0 mtx] eqn:Hmtx; cycle 1.
  { right. eexists. split; [reflexivity|]. right; left. exists txd.
    rewrite Hmtx. repeat split; auto; congruence. }
  cbn [is_empty negb]. rewrite Hgp. cbn [rbind].
  rewrite (missing_from_dict _ _ _ _ Hlp). cbn [rbind].
  destruct (lacking pd required_p1812) as [|k1 mp] eqn:Hmp; cycle 1.
  { right. eexists. split; [reflexivity|]. do 2 right; left. exists pd.
    rewrite Hmp. repeat split; auto; congruence. }
  cbn [is_empty negb].
  pose proof (lacking_nil _ _ Hmtx) as Htxall.
  pose proof (lacking_nil _ _ Hmp) as Hpall.
  destruct (Hpall "frequency_ghz"%string ltac:(simpl; auto)) as [f Hf].
  destruct (Hpall "time_percentage"%string ltac:(simpl; auto)) as [p Hpv].
  destruct (Hpall "polarization"%string ltac:(simpl; auto)) as [pol Hpol].
  destruct (Hfnum _ Hf) as (fs & fn & -> & Hfn).
  destruct (Hpnum _ Hpv) as (ps & pn & -> & Hpn).
  rewrite (dict_getitem _ _ _ _ _ Hlp Hf). cbn [rbind].
  rewrite (py_between_number float_0_03 (FFin 6) fs fn (SFloat float_0_03) (SInt 6))
    by (try reflexivity; try congruence; exact Hfn).
  cbn [rbind].
  destruct (fle float_0_03 fn && fle fn (FFin 6)) eqn:Hfok; cycle 1.
  { right. eexists. split; [reflexivity|]. do 3 right; left. exists pd, (VSc fs).
    repeat split; auto. exists fs, fn. auto. }
  cbn [negb]. rewrite (dict_getitem _ _ _ _ _ Hlp Hpv). cbn [rbind].
  rewrite (py_between_number (FFin 1) (FFin 50) ps pn (SInt 1) (SInt 50))
    by (try reflexivity; try congruence; exact Hpn).
  cbn [rbind].
  destruct (fle (FFin 1) pn && fle pn (FFin 50)) eqn:Hpok; cycle 1.
  { right. eexists. split; [reflexivity|]. do 4 right; left. exists pd, (VSc ps).
    repeat split; auto. exists ps, pn. auto. }
  cbn [negb]. rewrite (dict_getitem _ _ _ _ _ Hlp Hpol). cbn [rbind].
  destruct (py_eq_int pol 1 || py_eq_int pol 2) eqn:Hpolok; cycle 1.
  { right. eexists. split; [reflexivity|]. do 5 right. exists pd, pol.
    apply orb_false_elim in Hpolok as [? ?]. repeat split; auto. }
  cbn [negb]. left. split; [reflexivity|].
  intros [(s & Hs & Hn) | [(sd & k & Hsd & Hk & Hn) | [(sd & k & Hsd & Hk & Hn)
         | [(sd & v & Hsd & Hv & Ho) | [(sd & v & Hsd & Hv & Ho)
         | (sd & v & Hsd & Hv & H1 & H2)]]]]].
  - destruct (Hall s Hs) as [? ?]. congruence.
  - rewrite Htxd in Hsd. injection Hsd as <-.
    destruct (Htxall k Hk) as [? ?]. congruence.
  - rewrite Hpd in Hsd. injection Hsd as <-.
    destruct (Hpall k Hk) as [? ?]. congruence.
  - rewrite Hpd in Hsd. injection Hsd as <-. rewrite Hf in Hv. injection Hv as <-.
    destruct Ho as (s' & n' & E & Hn' & Hb). injection E as <-. congruence.
  - rewrite Hpd in Hsd. injection Hsd as <-. rewrite Hpv in Hv. injection Hv as <-.
    destruct Ho as (s' & n' & E & Hn' & Hb). injection E as <-. congruence.
  - rewrite Hpd in Hsd. injection Hsd as <-. rewrite Hpol in Hv. injection Hv as <-.
    rewrite H1, H2 in Hpolok. discriminate.
Qed.

Lemma names_failure_invalid h d msg : names_failure h d msg -> invalid h d.
Proof.
  intros [[_ Hne] | [(sd & Hsd & _ & Hne) | [(sd & Hsd & _ & Hne)
         | [(sd & v & Hsd & Hv & Ho & _) | [(sd & v & Hsd & Hv & Ho & _)
         | (sd & v & Hsd & Hv & H1 & H2 & _)]]]]].
  - left. destruct (lacking d required_sections) as [|s ms] eqn:E; [congruence|].
    exists s. apply lacking_in. rewrite E. simpl. auto.
  - right; left.
    destruct (lacking sd required_tx_keys) as [|k ms] eqn:E; [congruence|].
    exists sd, k. split; [exact Hsd|]. apply lacking_in. rewrite E. simpl. auto.
  - do 2 right; left.
    destruct (lacking sd required_p1812) as [|k ms] eqn:E; [congruence|].
    exists sd, k. split; [exact Hsd|]. apply lacking_in. rewrite E. simpl. auto.
  - do 3 right; left. exists sd, v. auto.
  - do 4 right; left. exists sd, v. auto.
  - do 5 right. exists sd, v. auto.
Qed.

End ValidationFacts.

(** ** The configuration store *)
Section ConfigFacts.
Import Py PyFloat PyOps Validation Config.

Lemma validate_keeps_heap self h : snd (validate self h) = h.
Proof.
  unfold validate.
  destruct (validate_config h (VRef (config self))) as [|[]]; reflexivity.
Qed.

Lemma validate_result self h :
  validate self h = (fst (validate self h), h).
Proof. rewrite <- (validate_keeps_heap self h) at 3. apply surjective_pairing. Qed.

Lemma fresh_not_allocated (h : heap) l (d : pydict) :
  h !! l = Some d -> l <> fresh (dom h).
Proof.
  intros Hl E. apply (is_fresh (dom h)). rewrite <- E.
  apply elem_of_dom. eauto.
Qed.

(** [set] on a section that names a dict: one store update, then
    validation. *)
Lemma set_present self section key value h d l sd :
  h !! config self = Some d ->
  d !! section = Some (VRef l) ->
  h !! l = Some sd ->
  set self section key value h =
  validate self (<[l := <[key := value]> sd]> h).
Proof.
  intros Hc Hs Hl. unfold set, bind, ret, reads, py_contains, py_getitem, py_setitem.
  rewrite Hc, Hs. rewrite bool_decide_eq_true_2 by eauto.
  cbv beta iota. rewrite Hc, Hs. cbv beta iota. rewrite Hl. reflexivity.
Qed.

(** [set] on an absent section: a new dict is created for it first. *)
Lemma set_absent self section key value h d :
  h !! config self = Some d ->
  d !! section = None ->
  let l := fresh (dom h) in
  set self section key value h =
  validate self
    (<[l := <[key := value]> ∅]>
       (<[config self := <[section := VRef l]> d]> (<[l := ∅]> h))).
Proof.
  intros Hc Hs l.
  unfold set, bind, ret, reads, py_contains, py_getitem, py_setitem, py_alloc.
  rewrite Hc, Hs. rewrite bool_decide_eq_false_2 by (intros [? ?]; discriminate).
  fold l. pose proof (fresh_not_allocated _ _ _ Hc) as Hne. fold l in Hne.
  cbv beta iota. rewrite lookup_insert_ne by auto. rewrite Hc.
  cbv beta iota. rewrite lookup_insert_eq, lookup_insert_eq.
  cbv beta iota. rewrite lookup_insert_ne by auto. rewrite lookup_insert_eq.
  reflexivity.
Qed.

(** Construction from defaults: the new object holds the very entries
    of [DEFAULT_CONFIG]. *)
Lemma init_none h d :
  h !! DEFAULT_CONFIG = Some d ->
  let c := fresh (dom h) in
  let h1 := <[c := d]> h in
  init None h =
  (match fst (validate {| config := c |} h1) with
   | Ok _ => Ok {| config := c |}
   | Raise e => Raise e
   end, h1).
Proof.
  intros Hd c h1. unfold init, bind, ret, dict_copy, py_alloc. rewrite Hd.
  fold c. fold h1. rewrite (validate_result {| config := c |} h1).
  destruct (fst (validate {| config := c |} h1)); reflexivity.
Qed.

(** Reading through [get] a key of a section that names a dict. *)
Lemma get_section_key self section key dflt h d l sd :
  h !! config self = Some d ->
  d !! section = Some (VRef l) ->
  h !! l = Some sd ->
  get self section (Some key) dflt h = dict_get sd key dflt.
Proof. intros Hc Hs Hl. unfold get. rewrite Hc, Hs, Hl. reflexivity. Qed.

Lemma dict_get_insert (sd : pydict) key value dflt :
  dict_get (<[key := value]> sd) key dflt = value.
Proof. unfold dict_get. rewrite lookup_insert_eq. reflexivity. Qed.

(** Construction with an override of one key of an existing section: the
    store it leaves, whatever validation then says. *)
Lemma init_override_section h d section l sd key s :
  h !! DEFAULT_CONFIG = Some d ->
  d !! section = Some (VRef l) ->
  h !! l = Some sd ->
  snd (init (Some [(section, LDict [(key, LVal s)])]) h) =
  <[l := <[key := VSc s]> sd]> (<[fresh (dom h) := d]> h).
Proof.
  intros Hd Hs Hl.
  pose proof (fresh_not_allocated _ _ _ Hl) as Hne.
  unfold init, bind, ret, dict_copy, py_alloc. rewrite Hd. cbv beta iota.
  simpl _deep_update. unfold bind, ret, reads, py_contains, py_getitem, py_setitem.
  rewrite lookup_insert_eq, Hs. rewrite bool_decide_eq_true_2 by eauto.
  cbv beta iota. rewrite lookup_insert_eq, Hs. cbv beta iota.
  rewrite lookup_insert_ne by auto. rewrite Hl. cbv beta iota.
  match goal with |- context [validate ?m ?hh] =>
    rewrite (validate_result m hh); destruct (fst (validate m hh)) end;
    reflexivity.
Qed.

(** C2 (amended): on a tree whose TRANSMITTER and P1812 sections are
    dicts and whose frequency_ghz and time_percentage are numbers,
    validation raises a configuration error exactly when a required
    section or key is absent, the frequency is outside [0.03, 6], the
    time percentage is outside [1, 50] or the polarization is neither 1
    nor 2, and returns otherwise; the message names the absent sections
    or keys or the offending value; the built-in defaults pass. *)
Theorem validate_raises_iff_invalid self h d :
  h !! config self = Some d ->
  well_typed h d ->
  ((exists msg, validate self h = (Raise (ConfigError msg), h)) <-> invalid h d)
  /\ (validate self h = (Ok tt, h) <-> ~ invalid h d)
  /\ (forall msg,
        validate self h = (Raise (ConfigError msg), h) ->
        exists m, msg = FLit "Invalid configuration: " :: m /\ names_failure h d m)
  /\ validate {| config := DEFAULT_CONFIG |} module_heap = (Ok tt, module_heap)
  /\ (exists m h', init None module_heap = (Ok m, h')).
Proof.
  intros Hc Hty.
  assert (validate {| config := DEFAULT_CONFIG |} module_heap = (Ok tt, module_heap))
    as Hdefault.
  { rewrite validate_result.
    match goal with |- (?r, _) = _ =>
      replace r with (@Ok unit tt) by reflexivity end.
    reflexivity. }
  assert (exists m h', init None module_heap = (Ok m, h')) as Hinit.
  { eexists _, _. rewrite (init_none module_heap default_config eq_refl).
    match goal with |- (match ?r with _ => _ end, _) = _ =>
      replace r with (@Ok unit tt) by reflexivity end.
    reflexivity. }
  cut (((exists msg, validate self h = (Raise (ConfigError msg), h)) <-> invalid h d)
       /\ (validate self h = (Ok tt, h) <-> ~ invalid h d)
       /\ (forall msg,
             validate self h = (Raise (ConfigError msg), h) ->
             exists m, msg = FLit "Invalid configuration: " :: m
                       /\ names_failure h d m)).
  { intros (A & B & C). exact (conj A (conj B (conj C (conj Hdefault Hinit)))). }
  clear Hdefault Hinit.
  destruct (validate_config_outcome h (config self) d Hc Hty)
    as [[Hok Hvalid] | (m & Hraise & Hnames)];
    unfold validate; rewrite ?Hok, ?Hraise.
  - split; [|split].
    + split; [intros [msg E]; discriminate | intros Hinv; contradiction].
    + split; [intros _; exact Hvalid | reflexivity].
    + intros msg E. discriminate.
  - pose proof (names_failure_invalid _ _ _ Hnames) as Hinv.
    split; [|split].
    + split; [intros _; exact Hinv | intros _; eexists; reflexivity].
    + split; [intros E; discriminate | intros Hn; contradiction].
    + intros msg E. injection E as <-. eauto.
Qed.

(** C3 (amended): [set] stores the value first and validates afterwards,
    with no rollback.  When the section is absent or names a dict, the
    new value is what [get] returns after the call whether or not the
    call raised; the call returns exactly when the updated tree is
    valid, and a tree that fails validation makes it raise a
    configuration error. *)
Theorem set_stores_then_validates self section key value dflt h d :
  h !! config self = Some d ->
  (d !! section = None
   \/ exists l sd, d !! section = Some (VRef l) /\ h !! l = Some sd
                   /\ l <> config self) ->
  let r := set self section key value h in
  get self section (Some key) dflt (snd r) = value
  /\ r = validate self (snd r)
  /\ (fst r = Ok tt <-> validate_config (snd r) (VRef (config self)) = Ok tt)
  /\ (forall e,
        validate_config (snd r) (VRef (config self)) = Raise (ValidationError e) ->
        fst r = Raise (ConfigError (FLit "Invalid configuration: " :: e))).
Proof.
  intros Hc Hsec r.
  assert (exists h', r = validate self h'
                     /\ get self section (Some key) dflt h' = value)
    as (h' & Hr & Hget).
  { destruct Hsec as [Hnone | (l & sd & Hs & Hl & Hne)].
    - eexists. split; [apply (set_absent _ _ _ _ _ _ Hc Hnone)|].
      pose proof (fresh_not_allocated _ _ _ Hc) as Hfresh.
      unfold get. rewrite lookup_insert_ne by auto.
      rewrite lookup_insert_eq, lookup_insert_eq, lookup_insert_eq.
      apply dict_get_insert.
    - eexists. split; [apply (set_present _ _ _ _ _ _ _ _ Hc Hs Hl)|].
      erewrite get_section_key; [apply dict_get_insert| |exact Hs|apply lookup_insert_eq].
      rewrite lookup_insert_ne by auto. exact Hc. }
  assert (snd r = h') as Hsnd by (rewrite Hr; apply validate_keeps_heap).
  rewrite Hsnd. split; [exact Hget|]. split; [exact Hr|].
  rewrite Hr. unfold validate.
  destruct (validate_config h' (VRef (config self))) as [[]|[]]; simpl;
    repeat split; intros; try discriminate; try reflexivity; congruence.
Qed.

(** C9: construction copies only the top level of [DEFAULT_CONFIG], so a
    section dict is one object shared with the defaults.  Calling [set]
    for that section on an instance that holds it, or constructing an
    instance with an override for a key of it, changes
    [DEFAULT_CONFIG] in place, and every instance holding the section,
    and every instance later built from the defaults, reads the new
    value through [get]. *)
Theorem default_sections_are_shared h d section l sd key dflt :
  h !! DEFAULT_CONFIG = Some d ->
  d !! section = Some (VRef l) ->
  h !! l = Some sd ->
  l <> DEFAULT_CONFIG ->
  (forall m h1,
      init None h = (Ok m, h1) ->
      config m <> DEFAULT_CONFIG
      /\ h1 !! config m = Some d
      /\ h1 !! DEFAULT_CONFIG = Some d
      /\ h1 !! l = Some sd)
  /\ (forall m dm value,
        h !! config m = Some dm -> dm !! section = Some (VRef l) ->
        let h' := snd (set m section key value h) in
        default_value h' section key = Some value
        /\ (forall m' dm',
              h !! config m' = Some dm' -> dm' !! section = Some (VRef l) ->
              config m' <> l ->
              get m' section (Some key) dflt h' = value)
        /\ (forall m'' h'',
              init None h' = (Ok m'', h'') ->
              get m'' section (Some key) dflt h'' = value))
  /\ (forall s,
        let h' := snd (init (Some [(section, LDict [(key, LVal s)])]) h) in
        default_value h' section key = Some (VSc s)
        /\ (forall m' dm',
              h !! config m' = Some dm' -> dm' !! section = Some (VRef l) ->
              config m' <> l ->
              get m' section (Some key) dflt h' = VSc s)
        /\ (forall m'' h'',
              init None h' = (Ok m'', h'') ->
              get m'' section (Some key) dflt h'' = VSc s)).
Proof.
  intros Hd Hs Hl Hne.
  assert (forall (h' : heap) value,
             h' !! DEFAULT_CONFIG = Some d ->
             h' !! l = Some (<[key := value]> sd) ->
             (forall m' dm',
                 h !! config m' = Some dm' -> config m' <> l ->
                 h' !! config m' = Some dm') ->
             default_value h' section key = Some value
             /\ (forall m' dm',
                   h !! config m' = Some dm' -> dm' !! section = Some (VRef l) ->
                   config m' <> l ->
                   get m' section (Some key) dflt h' = value)
             /\ (forall m'' h'',
                   init None h' = (Ok m'', h'') ->
                   get m'' section (Some key) dflt h'' = value)) as Hobs.
  { intros h' value Hd' Hl' Hkeep. repeat split.
    - unfold default_value. rewrite Hd', Hs, Hl'. apply lookup_insert_eq.
    - intros m' dm' Hm' Hs' Hne'.
      erewrite get_section_key; [apply dict_get_insert|eauto|exact Hs'|exact Hl'].
    - intros m'' h'' Hinit. rewrite (init_none _ _ Hd') in Hinit.
      injection Hinit as Hm <-.
      destruct (fst (validate _ _)); [|discriminate]. injection Hm as <-.
      erewrite get_section_key;
        [apply dict_get_insert|apply lookup_insert_eq|exact Hs|].
      rewrite lookup_insert_ne; [exact Hl'|].
      intros E. symmetry in E. revert E. eapply fresh_not_allocated, Hl'. }
  split; [|split].
  - intros m h1 Hinit. rewrite (init_none _ _ Hd) in Hinit.
    injection Hinit as Hm <-.
    destruct (fst (validate _ _)); [|discriminate]. injection Hm as <-.
    simpl. pose proof (fresh_not_allocated _ _ _ Hd) as H1.
    pose proof (fresh_not_allocated _ _ _ Hl) as H2.
    repeat split; auto.
    + apply lookup_insert_eq.
    + rewrite lookup_insert_ne by auto. exact Hd.
    + rewrite lookup_insert_ne by auto. exact Hl.
  - intros m dm value Hm Hsm h'. subst h'.
    rewrite (set_present _ _ _ _ _ _ _ _ Hm Hsm Hl), validate_keeps_heap.
    apply Hobs.
    + rewrite lookup_insert_ne by auto. exact Hd.
    + apply lookup_insert_eq.
    + intros m' dm' Hm' Hne'. rewrite lookup_insert_ne by auto. exact Hm'.
  - intros s h'. subst h'.
    rewrite (init_override_section _ _ _ _ _ _ _ Hd Hs Hl).
    pose proof (fresh_not_allocated _ _ _ Hd) as H1.
    apply Hobs.
    + rewrite lookup_insert_ne by auto. rewrite lookup_insert_ne by auto. exact Hd.
    + apply lookup_insert_eq.
    + intros m' dm' Hm' Hne'. rewrite lookup_insert_ne by auto.
      rewrite lookup_insert_ne; [exact Hm'|].
      intros E. symmetry in E. revert E. eapply fresh_not_allocated, Hm'.
Qed.

End ConfigFacts.

Lemma init_from_defaults :
  Config.init None Config.module_heap =
  (Py.Ok ConfigDemo.fresh_manager, ConfigDemo.heap_after_init).
Proof.
  rewrite (init_none Config.module_heap Config.default_config eq_refl).
  change (fresh (dom Config.module_heap)) with 8%positive.
  match goal with |- (match ?r with _ => _ end, _) = _ =>
    replace r with (@Py.Ok unit tt) by reflexivity end.
  reflexivity.
Qed.

Lemma heap_after_init_well_typed :
  well_typed ConfigDemo.heap_after_init Config.default_config.
Proof.
  split.
  - intros v _. exists Config.default_transmitter. reflexivity.
  - intros v _. exists Config.default_p1812. split; [reflexivity|].
    split; intros v' Hv.
    + change (Some (VSc (SFloat (PyFloat.FFin (8106479329266893 # 9007199254740992))))
              = Some v') in Hv.
      injection Hv as <-. eexists _, _. split; reflexivity.
    + change (Some (VSc (SInt 50)) = Some v') in Hv.
      injection Hv as <-. eexists _, _. split; reflexivity.
Qed.

(** C2, witness: the theorem at a manager built from the defaults. *)
Lemma validate_raises_iff_invalid_witness :
  well_typed ConfigDemo.heap_after_init Config.default_config
  /\ ((exists msg,
          Config.validate ConfigDemo.fresh_manager ConfigDemo.heap_after_init =
          (Py.Raise (Py.ConfigError msg), ConfigDemo.heap_after_init))
      <-> invalid ConfigDemo.heap_after_init Config.default_config)
  /\ (Config.validate ConfigDemo.fresh_manager ConfigDemo.heap_after_init =
      (Py.Ok tt, ConfigDemo.heap_after_init)
      <-> ~ invalid ConfigDemo.heap_after_init Config.default_config)
  /\ (forall msg,
        Config.validate ConfigDemo.fresh_manager ConfigDemo.heap_after_init =
        (Py.Raise (Py.ConfigError msg), ConfigDemo.heap_after_init) ->
        exists m, msg = FLit "Invalid configuration: " :: m
                  /\ names_failure ConfigDemo.heap_after_init Config.default_config m)
  /\ Config.validate {| Config.config := Config.DEFAULT_CONFIG |} Config.module_heap =
     (Py.Ok tt, Config.module_heap)
  /\ (exists m h', Config.init None Config.module_heap = (Py.Ok m, h')).
Proof.
  split; [exact heap_after_init_well_typed|].
  exact (validate_raises_iff_invalid ConfigDemo.fresh_manager
           ConfigDemo.heap_after_init Config.default_config
           (lookup_insert_eq _ _ _) heap_after_init_well_typed).
Defined.

(** C2, counterexample: [ConfigManager({'P1812': {'frequency_ghz': '0.9',
    'polarization': 3}})].  The polarization is neither 1 nor 2, yet
    what validation raises is a TypeError from comparing a float with a
    string, which [validate] does not turn into a configuration error. *)
Lemma validate_type_error_counterexample :
  fst (Config.init (Some ConfigDemo.bad_override) Config.module_heap) =
    Py.Raise Py.TypeError
  /\ fst (Config.validate ConfigDemo.fresh_manager ConfigDemo.bad_heap) =
    Py.Raise Py.TypeError
  /\ invalid ConfigDemo.bad_heap Config.default_config.
Proof.
  split; [reflexivity|]. split; [reflexivity|].
  do 5 right. eexists _, (VSc (SInt 3)).
  split; [reflexivity|]. repeat split.
Qed.

(** The failures the specification lists: a tree without [P1812], a
    frequency of 10 GHz, a polarization of 3. *)
Example validation_failure_examples :
  fst (Config.validate {| Config.config := 9%positive |}
         (<[9%positive := delete (KStr "P1812") Config.default_config]>
            Config.module_heap)) =
    Py.Raise (Py.ConfigError
                [FLit "Invalid configuration: "; FLit "Missing CONFIG sections: ";
                 FList ["P1812"%string]])
  /\ fst (Config.init
            (Some [(KStr "P1812",
                    Config.LDict [(KStr "frequency_ghz", Config.LVal (SInt 10))])])
            Config.module_heap) =
    Py.Raise (Py.ConfigError
                [FLit "Invalid configuration: "; FLit "Frequency ";
                 FVal (VSc (SInt 10)); FLit " outside valid range [0.03, 6]"])
  /\ fst (Config.init
            (Some [(KStr "P1812",
                    Config.LDict [(KStr "polarization", Config.LVal (SInt 3))])])
            Config.module_heap) =
    Py.Raise (Py.ConfigError
                [FLit "Invalid configuration: "; FLit "Polarization ";
                 FVal (VSc (SInt 3)); FLit " must be 1 (H) or 2 (V)"]).
Proof. repeat split. Qed.

(** C3, counterexample: on a manager built from the defaults,
    [set('P1812', 'frequency_ghz', 10)] raises a configuration error and
    [get('P1812', 'frequency_ghz')] then returns 10, not the 0.9 it
    returned before the call. *)
Lemma set_no_rollback_counterexample :
  fst (Config.validate ConfigDemo.fresh_manager ConfigDemo.heap_after_init) = Py.Ok tt
  /\ Config.get ConfigDemo.fresh_manager (KStr "P1812") (Some (KStr "frequency_ghz"))
       (VSc SNone) ConfigDemo.heap_after_init =
     VSc (SFloat (PyFloat.FFin (8106479329266893 # 9007199254740992)))
  /\ fst (Config.set ConfigDemo.fresh_manager (KStr "P1812") (KStr "frequency_ghz")
            (VSc (SInt 10)) ConfigDemo.heap_after_init) =
     Py.Raise (Py.ConfigError
                 [FLit "Invalid configuration: "; FLit "Frequency ";
                  FVal (VSc (SInt 10)); FLit " outside valid range [0.03, 6]"])
  /\ Config.get ConfigDemo.fresh_manager (KStr "P1812") (Some (KStr "frequency_ghz"))
       (VSc SNone)
       (snd (Config.set ConfigDemo.fresh_manager (KStr "P1812") (KStr "frequency_ghz")
               (VSc (SInt 10)) ConfigDemo.heap_after_init)) =
     VSc (SInt 10).
Proof. repeat split. Qed.

(** C3, witness: the theorem at [set('P1812', 'frequency_ghz', 2)] on a
    manager built from the defaults. *)
Lemma set_stores_then_validates_witness :
  ConfigDemo.heap_after_init !! Config.config ConfigDemo.fresh_manager =
    Some Config.default_config
  /\ Config.get ConfigDemo.fresh_manager (KStr "P1812") (Some (KStr "frequency_ghz"))
       (VSc SNone)
       (snd (Config.set ConfigDemo.fresh_manager (KStr "P1812")
               (KStr "frequency_ghz") (VSc (SInt 2)) ConfigDemo.heap_after_init)) =
     VSc (SInt 2)
  /\ Config.set ConfigDemo.fresh_manager (KStr "P1812") (KStr "frequency_ghz")
       (VSc (SInt 2)) ConfigDemo.heap_after_init =
     Config.validate ConfigDemo.fresh_manager
       (snd (Config.set ConfigDemo.fresh_manager (KStr "P1812")
               (KStr "frequency_ghz") (VSc (SInt 2)) ConfigDemo.heap_after_init))
  /\ (fst (Config.set ConfigDemo.fresh_manager (KStr "P1812") (KStr "frequency_ghz")
             (VSc (SInt 2)) ConfigDemo.heap_after_init) = Py.Ok tt
      <-> Validation.validate_config
            (snd (Config.set ConfigDemo.fresh_manager (KStr "P1812")
                    (KStr "frequency_ghz") (VSc (SInt 2)) ConfigDemo.heap_after_init))
            (VRef (Config.config ConfigDemo.fresh_manager)) = Py.Ok tt)
  /\ (forall e,
        Validation.validate_config
          (snd (Config.set ConfigDemo.fresh_manager (KStr "P1812")
                  (KStr "frequency_ghz") (VSc (SInt 2)) ConfigDemo.heap_after_init))
          (VRef (Config.config ConfigDemo.fresh_manager)) =
        Py.Raise (Py.ValidationError e) ->
        fst (Config.set ConfigDemo.fresh_manager (KStr "P1812") (KStr "frequency_ghz")
               (VSc (SInt 2)) ConfigDemo.heap_after_init) =
        Py.Raise (Py.ConfigError (FLit "Invalid configuration: " :: e))).
Proof.
  split; [reflexivity|].
  refine (set_stores_then_validates ConfigDemo.fresh_manager (KStr "P1812")
            (KStr "frequency_ghz") (VSc (SInt 2)) (VSc SNone)
            ConfigDemo.heap_after_init Config.default_config eq_refl _).
  right. exists Config.P1812_loc, Config.default_p1812.
  split; [reflexivity|]. split; [reflexivity|]. discriminate.
Defined.

(** C9, witness: the theorem at the store of the imported module and the
    key [frequency_ghz] of the section [P1812]. *)
Lemma default_sections_are_shared_witness :
  (Config.module_heap !! Config.DEFAULT_CONFIG = Some Config.default_config
   /\ Config.default_config !! KStr "P1812" = Some (VRef Config.P1812_loc)
   /\ Config.module_heap !! Config.P1812_loc = Some Config.default_p1812
   /\ Config.P1812_loc <> Config.DEFAULT_CONFIG)
  /\ (forall m h1,
        Config.init None Config.module_heap = (Py.Ok m, h1) ->
        Config.config m <> Config.DEFAULT_CONFIG
        /\ h1 !! Config.config m = Some Config.default_config
        /\ h1 !! Config.DEFAULT_CONFIG = Some Config.default_config
        /\ h1 !! Config.P1812_loc = Some Config.default_p1812)
  /\ (forall m dm value,
        Config.module_heap !! Config.config m = Some dm ->
        dm !! KStr "P1812" = Some (VRef Config.P1812_loc) ->
        default_value
          (snd (Config.set m (KStr "P1812") (KStr "frequency_ghz") value
                  Config.module_heap))
          (KStr "P1812") (KStr "frequency_ghz") = Some value
        /\ (forall m' dm',
              Config.module_heap !! Config.config m' = Some dm' ->
              dm' !! KStr "P1812" = Some (VRef Config.P1812_loc) ->
              Config.config m' <> Config.P1812_loc ->
              Config.get m' (KStr "P1812") (Some (KStr "frequency_ghz")) (VSc SNone)
                (snd (Config.set m (KStr "P1812") (KStr "frequency_ghz") value
                        Config.module_heap)) = value)
        /\ (forall m'' h'',
              Config.init None
                (snd (Config.set m (KStr "P1812") (KStr "frequency_ghz") value
                        Config.module_heap)) = (Py.Ok m'', h'') ->
              Config.get m'' (KStr "P1812") (Some (KStr "frequency_ghz")) (VSc SNone)
                h'' = value))
  /\ (forall s,
        default_value
          (snd (Config.init
                  (Some [(KStr "P1812",
                          Config.LDict [(KStr "frequency_ghz", Config.LVal s)])])
                  Config.module_heap))
          (KStr "P1812") (KStr "frequency_ghz") = Some (VSc s)
        /\ (forall m' dm',
              Config.module_heap !! Config.config m' = Some dm' ->
              dm' !! KStr "P1812" = Some (VRef Config.P1812_loc) ->
              Config.config m' <> Config.P1812_loc ->
              Config.get m' (KStr "P1812") (Some (KStr "frequency_ghz")) (VSc SNone)
                (snd (Config.init
                        (Some [(KStr "P1812",
                                Config.LDict [(KStr "frequency_ghz", Config.LVal s)])])
                        Config.module_heap)) = VSc s)
        /\ (forall m'' h'',
              Config.init None
                (snd (Config.init
                        (Some [(KStr "P1812",
                                Config.LDict [(KStr "frequency_ghz", Config.LVal s)])])
                        Config.module_heap)) = (Py.Ok m'', h'') ->
              Config.get m'' (KStr "P1812") (Some (KStr "frequency_ghz")) (VSc SNone)
                h'' = VSc s)).
Proof.
  assert (Config.P1812_loc <> Config.DEFAULT_CONFIG) as Hne by discriminate.
  split; [repeat split; exact Hne|].
  exact (default_sections_are_shared Config.module_heap Config.default_config
           (KStr "P1812") Config.P1812_loc Config.default_p1812
           (KStr "frequency_ghz") (VSc SNone) eq_refl eq_refl eq_refl Hne).
Defined.

(** The scenario of C9 run on the store: a second manager, built before
    the call, and a third, built after it, both read the value that the
    first one set, and so does [DEFAULT_CONFIG] itself. *)
Example set_is_seen_by_every_manager :
  let h0 := Config.module_heap in
  let h1 := snd (Config.init None h0) in
  let h2 := snd (Config.init None h1) in
  let first := {| Config.config := 8%positive |} in
  let second := {| Config.config := 9%positive |} in
  let h3 := snd (Config.set first (KStr "P1812") (KStr "polarization")
                   (VSc (SInt 2)) h2) in
  fst (Config.init None h0) = Py.Ok first
  /\ fst (Config.init None h1) = Py.Ok second
  /\ Config.get second (KStr "P1812") (Some (KStr "polarization")) (VSc SNone) h2
     = VSc (SInt 1)
  /\ Config.get second (KStr "P1812") (Some (KStr "polarization")) (VSc SNone) h3
     = VSc (SInt 2)
  /\ default_value h3 (KStr "P1812") (KStr "polarization") = Some (VSc (SInt 2))
  /\ fst (Config.init None h3) = Py.Ok {| Config.config := 10%positive |}
  /\ Config.get {| Config.config := 10%positive |} (KStr "P1812")
       (Some (KStr "polarization")) (VSc SNone) (snd (Config.init None h3))
     = VSc (SInt 2).
Proof. repeat split. Qed.

Section PolygonComposition.
Import GeoJSON.
Context {V : Type} `{EqDecision V} `{Precision6 V}.

Lemma last_app_one {A} (l : list A) (x d : A) : List.last (l ++ [x]) d = x.
Proof. apply last_last. Qed.

(** X1: closing is idempotent.  After one call the caller's list is empty
    or ends with its first vertex, and a second call on the same list
    changes it no further and returns an equal collection. *)
Theorem generate_geojson_polygon_idempotent (polygon_coords : list (V * V)) :
  let after := fst (generate_geojson_polygon polygon_coords) in
  generate_geojson_polygon after =
    (after, snd (generate_geojson_polygon polygon_coords))
  /\ (after = []
      \/ exists first rest, after = first :: rest /\ List.last rest first = first).
Proof.
  cbv zeta.
  assert (fst (generate_geojson_polygon polygon_coords) = []
          \/ exists first rest,
               fst (generate_geojson_polygon polygon_coords) = first :: rest
               /\ List.last rest first = first) as Hclosed.
  { rewrite polygon_argument_after.
    destruct polygon_coords as [|first rest]; [left; reflexivity|right].
    destruct (decide (List.last rest first = first)) as [He|Hn].
    - exists first, rest. auto.
    - exists first, (rest ++ [first]). split; [reflexivity|apply last_app_one]. }
  split; [|exact Hclosed].
  rewrite (surjective_pairing (generate_geojson_polygon (fst _))).
  f_equal.
  - rewrite polygon_argument_after.
    destruct Hclosed as [->|(first & rest & -> & Hl)]; [reflexivity|].
    destruct (decide (List.last rest first = first)); [reflexivity|contradiction].
  - rewrite !polygon_returns_argument_after. do 4 f_equal.
    rewrite (polygon_argument_after (fst _)).
    destruct Hclosed as [->|(first & rest & -> & Hl)]; [reflexivity|].
    destruct (decide (List.last rest first = first)); [reflexivity|contradiction].
Qed.

End PolygonComposition.

Section BuilderFacts.
Import Py PyFloat GeoJSON.
Context {V X : Type} `{Precision6 V}.

(** X2: the receiver and link builders read the last element of the
    distance sequence: on an empty sequence both raise IndexError, and
    otherwise both return a feature, carrying that same last distance
    (the receiver as "distance", the link as "distance_km"), the
    receiver named after its number and the link after its index plus
    one. *)
Theorem receiver_and_line_last_distance
    (parameters : LossParameterSet V X) (number index : Z) (Lb Ep : V) :
  match distances parameters with
  | [] =>
      generate_geojson_point_receiver parameters number Lb Ep = Raise IndexError
      /\ generate_geojson_line parameters index Lb Ep = Raise IndexError
  | d :: rest =>
      exists receiver line,
        generate_geojson_point_receiver parameters number Lb Ep = Ok receiver
        /\ generate_geojson_line parameters index Lb Ep = Ok line
        /\ property "distance" (properties receiver) = Some (PFloat (List.last rest d))
        /\ property "distance_km" (properties line) = Some (PFloat (List.last rest d))
        /\ feature_name receiver = Some ("Receiver_" ++ str_of_Z number)%string
        /\ feature_name line = Some ("Link_" ++ str_of_Z (index + 1))%string
        /\ property "rx_id" (properties line) = Some (PInt (index + 1))
  end.
Proof.
  unfold generate_geojson_point_receiver, generate_geojson_line, last_item, rbind.
  destruct (distances parameters) as [|d rest]; [split; reflexivity|].
  eexists _, _. repeat split.
Qed.

(** X28: the three point and link builders round the coordinates of the
    geometry only.  The geometry of the transmitter, of a receiver and
    of a link holds the longitudes and latitudes rounded to six decimals
    ([geojson.Point] and [geojson.LineString] round them), while the
    properties "lon", "lat", "tx_lon", "tx_lat", "rx_lon" and "rx_lat"
    of the same feature hold them as given; a receiver or a link that
    is not built has an empty distance sequence. *)
Theorem builders_round_geometry_only
    (parameters : LossParameterSet V X) (number index : Z) (Lb Ep : V) :
  let transmitter := generate_geojson_point_transmitter parameters in
  geom transmitter = Point (round6 (tx_lon parameters)) (round6 (tx_lat parameters))
  /\ property "lon" (properties transmitter) = Some (PNum (tx_lon parameters))
  /\ property "lat" (properties transmitter) = Some (PNum (tx_lat parameters))
  /\ match generate_geojson_point_receiver parameters number Lb Ep with
     | Ok receiver =>
         geom receiver
         = Point (round6 (rx_lon parameters)) (round6 (rx_lat parameters))
         /\ property "lon" (properties receiver) = Some (PNum (rx_lon parameters))
         /\ property "lat" (properties receiver) = Some (PNum (rx_lat parameters))
     | Raise _ => distances parameters = []
     end
  /\ match generate_geojson_line parameters index Lb Ep with
     | Ok line =>
         geom line
         = LineString [(round6 (tx_lon parameters), round6 (tx_lat parameters));
                       (round6 (rx_lon parameters), round6 (rx_lat parameters))]
         /\ property "tx_lon" (properties line) = Some (PNum (tx_lon parameters))
         /\ property "tx_lat" (properties line) = Some (PNum (tx_lat parameters))
         /\ property "rx_lon" (properties line) = Some (PNum (rx_lon parameters))
         /\ property "rx_lat" (properties line) = Some (PNum (rx_lat parameters))
     | Raise _ => distances parameters = []
     end.
Proof.
  cbv zeta.
  unfold generate_geojson_point_receiver, generate_geojson_line, last_item, rbind.
  destruct (distances parameters) as [|d rest]; repeat split.
Qed.

End BuilderFacts.

Section TagFacts.
Import PyFloat BatchProcessor.

Lemma string_of_uint_digits (u : Decimal.uint) :
  forallb is_digit (list_ascii_of_string (NilEmpty.string_of_uint u)) = true.
Proof. induction u; simpl; auto. Qed.

Lemma str_of_N_digits (n : N) : all_digits (str_of_N n) = true.
Proof.
  unfold str_of_N, NilZero.string_of_uint.
  destruct (N.to_uint n) as [|u|u|u|u|u|u|u|u|u|u]; try reflexivity;
    unfold all_digits; simpl; apply string_of_uint_digits.
Qed.

Lemma round_half_even_nonneg n d : (0 <= n)%Z -> (0 <= round_half_even n d)%Z.
Proof.
  intros Hn. unfold round_half_even.
  assert (0 <= n / Z.pos d)%Z by (apply Z.div_pos; lia).
  destruct (2 * (n mod Z.pos d) ?= Z.pos d)%Z; [destruct (Z.even _)| |]; lia.
Qed.

Lemma string_app_assoc (a b c : string) : ((a ++ b) ++ c = a ++ (b ++ c))%string.
Proof.
  induction a as [|x a IH]; [reflexivity|].
  change (String x ((a ++ b) ++ c) = String x (a ++ (b ++ c)))%string.
  rewrite IH. reflexivity.
Qed.

Lemma str_replace_app old new s t :
  str_replace old new (s ++ t) = (str_replace old new s ++ str_replace old new t)%string.
Proof.
  induction s as [|c s IH]; [reflexivity|].
  change (String (if Ascii.eqb c old then new else c) (str_replace old new (s ++ t))
          = String (if Ascii.eqb c old then new else c)
              (str_replace old new s ++ str_replace old new t))%string.
  rewrite IH. reflexivity.
Qed.

(** Replacing the dot changes nothing in a string of digits. *)
Lemma str_replace_digits s :
  forallb is_digit (list_ascii_of_string s) = true -> str_replace "." "p" s = s.
Proof.
  induction s as [|c s IH]; simpl; [reflexivity|].
  intros H. apply andb_prop in H as [Hc Hs]. rewrite (IH Hs).
  destruct (Ascii.eqb c ".") eqn:E; [|reflexivity].
  apply Ascii.eqb_eq in E. subst c. discriminate.
Qed.

Lemma has_char_app c s t : has_char c (s ++ t) = has_char c s || has_char c t.
Proof.
  unfold has_char. induction s as [|a s IH]; simpl; [reflexivity|].
  rewrite IH, orb_assoc. reflexivity.
Qed.

Lemma has_char_digits c s :
  is_digit c = false ->
  forallb is_digit (list_ascii_of_string s) = true -> has_char c s = false.
Proof.
  intros Hc. unfold has_char. induction s as [|a s IH]; simpl; [reflexivity|].
  intros H. apply andb_prop in H as [Ha Hs]. rewrite (IH Hs), orb_false_r.
  destruct (Ascii.eqb c a) eqn:E; [|reflexivity].
  apply Ascii.eqb_eq in E. congruence.
Qed.

(** The parts of the tag of a finite value. *)
Lemma d_tag_finite q :
  exists whole tenth,
    d_tag (FFin q) =
      ((if (Qnum q <? 0)%Z then "-" else "") ++ whole ++ "p" ++ tenth ++ "km")%string
    /\ all_digits whole = true /\ digits 1 tenth = true.
Proof.
  set (t := round_half_even (10 * Z.abs (Qnum q)) (Qden q)).
  assert (0 <= t)%Z as Ht by (apply round_half_even_nonneg; lia).
  exists (str_of_N (Z.to_N (t / 10))), (str_of_Z (t mod 10)).
  assert (str_of_Z (t / 10) = str_of_N (Z.to_N (t / 10))) as Hw.
  { assert (0 <= t / 10)%Z by (apply Z.div_pos; lia).
    unfold str_of_Z. destruct (t / 10)%Z; [reflexivity|reflexivity|lia]. }
  assert (digits 1 (str_of_Z (t mod 10)) = true) as Hd.
  { apply (checked_below (fun n => digits 1 (str_of_Z n)) 0 10);
      [vm_compute; reflexivity|].
    pose proof (Z.mod_pos_bound t 10). lia. }
  pose proof (str_of_N_digits (Z.to_N (t / 10))) as Hwd.
  split; [|split; assumption].
  unfold d_tag, format_1f. fold t. rewrite Hw.
  rewrite !str_replace_app, !string_app_assoc.
  rewrite (str_replace_digits (str_of_N _)).
  2:{ unfold all_digits in Hwd. apply andb_prop in Hwd as [_ Hwd]. exact Hwd. }
  rewrite (str_replace_digits (str_of_Z _)).
  2:{ unfold digits in Hd. apply andb_prop in Hd as [_ Hd]. exact Hd. }
  destruct (Qnum q <? 0)%Z; reflexivity.
Qed.

(** X3: the distance tag of a finite value has the shape
    [<digits>p<digit>km], after a minus sign for a value below zero; the
    tag of any float, the infinities and NaN included, holds no dot and
    no path separator. *)
Theorem d_tag_shape :
  (forall q, tag_form (d_tag (FFin q)))
  /\ (forall x, has_char "." (d_tag x) = false /\ has_char "/" (d_tag x) = false).
Proof.
  split.
  - intros q. destruct (d_tag_finite q) as (whole & tenth & E & Hw & Ht).
    exists (if (Qnum q <? 0)%Z then "-" else "")%string, whole, tenth.
    split; [exact E|]. split; [destruct (Qnum q <? 0)%Z; auto|]. auto.
  - intros [q|[]|]; try (split; reflexivity).
    destruct (d_tag_finite q) as (whole & tenth & -> & Hw & Ht).
    unfold all_digits in Hw. apply andb_prop in Hw as [_ Hw].
    unfold digits in Ht. apply andb_prop in Ht as [_ Ht].
    rewrite !has_char_app.
    rewrite !(has_char_digits _ whole), !(has_char_digits _ tenth) by (assumption || reflexivity).
    destruct (Qnum q <? 0)%Z; split; reflexivity.
Qed.

End TagFacts.

(** ** Runs of [main] that write nothing, or nothing but empty collections *)
Section BatchEdgeFacts.
Import Py PyFloat GeoJSON BatchProcessor.
Context {V X Profile World : Type} `{EqDecision V} `{Precision6 V}.
Variable loss : LossParameterSet V X -> World -> (V * V) * World.
Variable load_profiles : string -> World -> list Profile * World.
Variable process_loss_parameters : Profile -> World -> LossParameterSet V X * World.
Variable localtime : World -> struct_time * World.
Variable project_root : string.

(** The first loop stops with IndexError at the first parameter set
    whose distance sequence is empty. *)
Lemma process_profiles_empty_distances profiles : forall k acc w,
  Exists (fun d => distances (fst d) = [])
    (fst (derived loss process_loss_parameters profiles w)) ->
  exists w',
    process_profiles process_loss_parameters loss k profiles acc w =
    (Raise IndexError, w').
Proof.
  induction profiles as [|profile rest IH]; intros k acc w Hex.
  - simpl in Hex. inversion Hex.
  - simpl in Hex. simpl process_profiles.
    unfold bind at 1. unfold process_profile, bind, call, lift, ret.
    destruct (process_loss_parameters profile w) as [p w1].
    destruct (loss p w1) as [[Lb Ep] w2].
    destruct (derived loss process_loss_parameters rest w2) as [more w3] eqn:Hmore.
    simpl in Hex.
    unfold generate_geojson_point_receiver, generate_geojson_line, rbind, last_item.
    destruct (distances p) as [|d ds] eqn:Hd.
    + eexists. reflexivity.
    + cbv beta iota.
      apply Exists_cons in Hex as [Hex|Hex]; [simpl in Hex; congruence|].
      match goal with |- context [process_profiles _ _ ?k' rest ?a w2] =>
        destruct (IH k' a w2) as [w' Hw'] end.
      { rewrite Hmore. exact Hex. }
      exists w'. exact Hw'.
Qed.

(** X4: [main] raises ImportError, before any profile is loaded, when
    [Py1812.P1812] cannot be imported; and it raises IndexError, and
    returns no file, when the first loop derives a parameter set whose
    distance sequence is empty. *)
Theorem main_raises_without_output profiles_dir output_dir w :
  main None load_profiles process_loss_parameters localtime project_root
    profiles_dir output_dir w = (Raise ImportError, w)
  /\ (let loaded := load_profiles (resolved_profiles_dir project_root profiles_dir) w in
      Exists (fun d => distances (fst d) = [])
        (fst (derived loss process_loss_parameters (fst loaded) (snd loaded))) ->
      exists w',
        main (Some loss) load_profiles process_loss_parameters localtime project_root
          profiles_dir output_dir w = (Raise IndexError, w')).
Proof.
  split; [reflexivity|].
  intros loaded Hex. subst loaded.
  unfold main, bind, call, ret.
  fold (resolved_profiles_dir project_root profiles_dir).
  destruct (load_profiles (resolved_profiles_dir project_root profiles_dir) w)
    as [profiles w1]. simpl in Hex.
  destruct (process_profiles_empty_distances profiles 0
              {| points := []; lines := []; polygon_coords := [] |} w1 Hex)
    as [w' Hw'].
  rewrite Hw'. eexists. reflexivity.
Qed.

(** X5: a run that loads no profile calls neither
    [process_loss_parameters] nor [bt_loss] and still writes its three
    files: two empty collections and a coverage polygon with one empty
    ring, all tagged [0p0km]. *)
Theorem main_without_profiles profiles_dir output_dir w :
  fst (load_profiles (resolved_profiles_dir project_root profiles_dir) w) = [] ->
  let w1 := snd (load_profiles (resolved_profiles_dir project_root profiles_dir) w) in
  let ts := strftime_Ymd_HMS (fst (localtime w1)) in
  let out := resolved_output_dir project_root output_dir in
  main (Some loss) load_profiles process_loss_parameters localtime project_root
    profiles_dir output_dir w =
  (Ok {| points_file :=
           (path_join out ("points_0p0km_" ++ ts ++ ".geojson"), {| features := [] |});
         lines_file :=
           (path_join out ("lines_0p0km_" ++ ts ++ ".geojson"), {| features := [] |});
         polygon_file :=
           (path_join out ("polygon_0p0km_" ++ ts ++ ".geojson"),
            {| features :=
                 [{| geom := Polygon [[]];
                     properties := [("name", PStr "Coverage area")]%string |}] |}) |},
   snd (localtime w1)).
Proof.
  intros Hload w1 ts out. subst w1 ts out.
  unfold main, bind, call, ret.
  fold (resolved_profiles_dir project_root profiles_dir).
  fold (resolved_output_dir project_root output_dir).
  destruct (load_profiles (resolved_profiles_dir project_root profiles_dir) w)
    as [profiles w1]. simpl in Hload. subst profiles. simpl.
  destruct (localtime w1) as [t w2]. reflexivity.
Qed.

End BatchEdgeFacts.

(** X4, witness: the theorem at a run whose second profile has no distances. *)
Lemma main_raises_without_output_witness :
  Exists (fun d => GeoJSON.distances (fst d) = [])
    (fst (derived Demo.demo_loss DemoEmpty.sparse_process DemoEmpty.broken_profiles 0%nat))
  /\ exists w',
       BatchProcessor.main (Some Demo.demo_loss)
         (DemoEmpty.sparse_load DemoEmpty.broken_profiles) DemoEmpty.sparse_process
         Demo.demo_clock "root" None (Some "out"%string) 0%nat
       = (Py.Raise Py.IndexError, w').
Proof.
  assert (Exists (fun d => GeoJSON.distances (fst d) = [])
            (fst (derived Demo.demo_loss DemoEmpty.sparse_process
                    DemoEmpty.broken_profiles 0%nat))) as Hex.
  { apply Exists_cons_tl, Exists_cons_hd. reflexivity. }
  split; [exact Hex|].
  exact (proj2 (main_raises_without_output Demo.demo_loss
                  (DemoEmpty.sparse_load DemoEmpty.broken_profiles)
                  DemoEmpty.sparse_process Demo.demo_clock "root"
                  None (Some "out"%string) 0%nat) Hex).
Defined.

(** X5, witness: the theorem at a run that loads no profile. *)
Lemma main_without_profiles_witness :
  fst (Demo.demo_load [] "root/data/input/profiles" 0%nat) = []
  /\ Demo.file_names (Demo.demo_main []) =
     ["out/points_0p0km_20260102_030405.geojson";
      "out/lines_0p0km_20260102_030405.geojson";
      "out/polygon_0p0km_20260102_030405.geojson"]%string.
Proof.
  split; [reflexivity|].
  unfold Demo.demo_main.
  rewrite (main_without_profiles Demo.demo_loss (Demo.demo_load [])
             Demo.demo_process Demo.demo_clock "root" None (Some "out"%string)
             0%nat eq_refl).
  reflexivity.
Defined.

Section ConfigAccessFacts.
Import Py PyFloat PyOps Validation Config ConfigAccess.

Lemma py_le_inv (a : scalar) (b : pyval) r :
  (forall x, a <> SStr x) ->
  py_le (VSc a) b = Ok r ->
  exists s p q, b = VSc s /\ num_of a = Some p /\ num_of s = Some q /\ r = fle p q.
Proof.
  intros Ha Hle. destruct b as [s|l]; [|destruct a; discriminate].
  exists s. unfold py_le in Hle.
  destruct a; try discriminate; try (exfalso; eapply Ha; reflexivity);
    destruct s; try discriminate;
    cbn [num_of] in *; eexists _, _; repeat split; congruence.
Qed.

Lemma py_between_ok lo hi (l_ h_ : scalar) v :
  num_of l_ = Some lo -> num_of h_ = Some hi ->
  (forall x, l_ <> SStr x) -> (forall x, h_ <> SStr x) ->
  py_between (VSc l_) v (VSc h_) = Ok true -> within lo hi v.
Proof.
  intros Hlo Hhi Hl Hh Hb. unfold py_between in Hb.
  destruct (py_le (VSc l_) v) as [b1|e] eqn:H1; [|discriminate].
  cbn [rbind] in Hb. destruct b1; [|discriminate].
  destruct (py_le_inv _ _ _ Hl H1) as (s & p & q & -> & Hp & Hq & Hpq).
  exists s, q. split; [reflexivity|]. split; [exact Hq|].
  split; [congruence|].
  unfold py_le in Hb.
  destruct s; try discriminate;
    destruct h_; try discriminate; try (exfalso; eapply Hh; reflexivity);
    cbn [num_of] in *; congruence.
Qed.

Lemma missing_from_scalar_raises h keys s k :
  (forall x, s <> SStr x) ->
  missing_from h (k :: keys) (VSc s) = Raise TypeError.
Proof. intros Hs. destruct s; try reflexivity. exfalso. eapply Hs. reflexivity. Qed.

Lemma missing_from_dangling h keys c k :
  h !! c = None -> missing_from h (k :: keys) (VRef c) = Raise TypeError.
Proof. intros Hc. simpl. unfold py_contains. rewrite Hc. reflexivity. Qed.

Lemma getitem_string h s k : py_getitem h (VSc (SStr s)) (KStr k) = Raise TypeError.
Proof. reflexivity. Qed.

(** What a configuration that passes [validate_config] is made of. *)
Lemma validate_config_ok h config :
  validate_config h config = Ok tt ->
  exists c d tx lp pd f p pol,
    config = VRef c /\ h !! c = Some d
    /\ (forall s, In s required_sections -> is_Some (d !! KStr s))
    /\ d !! KStr "TRANSMITTER" = Some tx
    /\ missing_from h required_tx_keys tx = Ok []
    /\ d !! KStr "P1812" = Some (VRef lp) /\ h !! lp = Some pd
    /\ pd !! KStr "frequency_ghz" = Some f
    /\ within float_0_03 (FFin 6) f
    /\ pd !! KStr "time_percentage" = Some p
    /\ within (FFin 1) (FFin 50) p
    /\ pd !! KStr "polarization" = Some pol
    /\ py_eq_int pol 1 || py_eq_int pol 2 = true.
Proof.
  intros Hok. unfold validate_config in Hok.
  destruct config as [s|c].
  { exfalso. destruct s as [|b|z|f|s];
      try (unfold required_sections in Hok;
           rewrite missing_from_scalar_raises in Hok by congruence; discriminate).
    destruct (missing_from h required_sections (VSc (SStr s))) as [ms|e];
      [|discriminate].
    cbn [rbind] in Hok. rewrite getitem_string in Hok.
    destruct (negb (is_empty ms)); [discriminate|].
    cbn [rbind] in Hok. discriminate. }
  destruct (h !! c) as [d|] eqn:Hc; cycle 1.
  { unfold required_sections in Hok.
    rewrite (missing_from_dangling _ _ _ _ Hc) in Hok. discriminate. }
  rewrite (missing_from_dict _ _ _ _ Hc) in Hok. cbn [rbind] in Hok.
  destruct (lacking d required_sections) as [|s0 ms] eqn:Hms; [|discriminate].
  cbn [is_empty negb] in Hok.
  pose proof (lacking_nil _ _ Hms) as Hall.
  destruct (Hall "TRANSMITTER"%string ltac:(simpl; auto 10)) as [tx Htx].
  destruct (Hall "P1812"%string ltac:(simpl; auto 10)) as [p1812 Hp1812].
  unfold py_getitem at 1 in Hok. rewrite Hc, Htx in Hok. cbn [rbind] in Hok.
  destruct (missing_from h required_tx_keys tx) as [mtx|e] eqn:Hmtx; [|discriminate].
  cbn [rbind] in Hok. destruct mtx as [|k0 mtx]; [|discriminate].
  cbn [is_empty negb] in Hok.
  unfold py_getitem at 1 in Hok. rewrite Hc, Hp1812 in Hok. cbn [rbind] in Hok.
  destruct (missing_from h required_p1812 p1812) as [mp|e] eqn:Hmp; [|discriminate].
  cbn [rbind] in Hok. destruct mp as [|k1 mp]; [|discriminate].
  cbn [is_empty negb] in Hok.
  destruct p1812 as [s|lp].
  { exfalso. destruct s; discriminate. }
  destruct (h !! lp) as [pd|] eqn:Hlp; [|unfold py_getitem in Hok; rewrite Hlp in Hok; discriminate].
  unfold py_getitem at 1 in Hok. rewrite Hlp in Hok.
  destruct (pd !! KStr "frequency_ghz") as [f|] eqn:Hf; [|discriminate].
  cbn [rbind] in Hok.
  destruct (py_between (SFloat float_0_03) f (SInt 6)) as [[]|e] eqn:Hfb;
    try discriminate.
  cbn [rbind negb] in Hok.
  unfold py_getitem at 1 in Hok. rewrite Hlp in Hok.
  destruct (pd !! KStr "time_percentage") as [p|] eqn:Hp; [|discriminate].
  cbn [rbind] in Hok.
  destruct (py_between (SInt 1) p (SInt 50)) as [[]|e] eqn:Hpb; try discriminate.
  cbn [rbind negb] in Hok.
  unfold py_getitem at 1 in Hok. rewrite Hlp in Hok.
  destruct (pd !! KStr "polarization") as [pol|] eqn:Hpol; [|discriminate].
  cbn [rbind] in Hok.
  destruct (py_eq_int pol 1 || py_eq_int pol 2) eqn:Hpolok; [|discriminate].
  exists c, d, tx, lp, pd, f, p, pol.
  repeat split; auto.
  - exact (py_between_ok float_0_03 (FFin 6) (SFloat float_0_03) (SInt 6) f
             eq_refl eq_refl ltac:(congruence) ltac:(congruence) Hfb).
  - exact (py_between_ok (FFin 1) (FFin 50) (SInt 1) (SInt 50) p
             eq_refl eq_refl ltac:(congruence) ltac:(congruence) Hpb).
Qed.

Lemma getitem_dict h l sd k v :
  h !! l = Some sd -> sd !! k = Some v -> getitem (VRef l) k h = (Ok v, h).
Proof. intros Hl Hk. unfold getitem, reads, py_getitem. rewrite Hl, Hk. reflexivity. Qed.

Lemma getitem_missing h l sd k :
  h !! l = Some sd -> sd !! k = None -> getitem (VRef l) k h = (Raise KeyError, h).
Proof. intros Hl Hk. unfold getitem, reads, py_getitem. rewrite Hl, Hk. reflexivity. Qed.

Lemma bind_ok {S A B} (m : M S A) (k : A -> M S B) s a s' :
  m s = (Ok a, s') -> bind m k s = k a s'.
Proof. intros E. unfold bind. rewrite E. reflexivity. Qed.

Lemma bind_raise {S A B} (m : M S A) (k : A -> M S B) s e s' :
  m s = (Raise e, s') -> bind m k s = (Raise e, s').
Proof. intros E. unfold bind. rewrite E. reflexivity. Qed.

(** X9: a configuration that passes [validate_config] always yields its
    P.1812 parameters: the configuration is a dict whose P1812 section
    is a dict holding the three keys, and [get_p1812_params] returns a
    new dict holding the three values of that section, the frequency a
    number within [0.03, 6], the time percentage a number within [1, 50]
    and the polarization equal to 1 or 2. *)
Theorem validated_p1812_params h config :
  validate_config h config = Ok tt ->
  exists c d p1812 section f p pol,
    config = VRef c /\ h !! c = Some d
    /\ d !! KStr "P1812" = Some (VRef p1812) /\ h !! p1812 = Some section
    /\ section !! KStr "frequency_ghz" = Some f
    /\ section !! KStr "time_percentage" = Some p
    /\ section !! KStr "polarization" = Some pol
    /\ get_p1812_params config h =
      (Ok (fresh (dom h)),
       <[fresh (dom h) :=
           dict_of [(KStr "frequency_ghz", f);
                    (KStr "time_percentage", p);
                    (KStr "polarization", pol)]]> h)
    /\ within float_0_03 (FFin 6) f
    /\ within (FFin 1) (FFin 50) p
    /\ (py_eq_int pol 1 = true \/ py_eq_int pol 2 = true).
Proof.
  intros Hok.
  destruct (validate_config_ok h config Hok)
    as (c & d & tx & lp & pd & f & p & pol & -> & Hc & _ & _ & _ & Hp1812 & Hlp
        & Hf & Hfw & Hp & Hpw & Hpol & Hpolok).
  exists c, d, lp, pd, f, p, pol.
  do 7 (split; [first [reflexivity|assumption]|]).
  split; [|split; [exact Hfw|split; [exact Hpw|]]].
  - unfold get_p1812_params.
    rewrite (bind_ok _ _ _ _ _ (getitem_dict _ _ _ _ _ Hc Hp1812)).
    rewrite (bind_ok _ _ _ _ _ (getitem_dict _ _ _ _ _ Hlp Hf)).
    rewrite (bind_ok _ _ _ _ _ (getitem_dict _ _ _ _ _ Hlp Hp)).
    rewrite (bind_ok _ _ _ _ _ (getitem_dict _ _ _ _ _ Hlp Hpol)).
    reflexivity.
  - apply orb_prop in Hpolok. exact Hpolok.
Qed.

(** X10: validation requires four keys of TRANSMITTER but not ["tx_id"]:
    on a validated configuration whose TRANSMITTER section is a dict,
    [get_transmitter_info] returns a new dict of the five values when
    ["tx_id"] is present, and raises KeyError, leaving the store as it
    was, when it is absent. *)
Theorem validated_transmitter_info h c d txd :
  h !! c = Some d ->
  section_dict h d "TRANSMITTER" = Some txd ->
  validate_config h (VRef c) = Ok tt ->
  exists latitude longitude antenna_height_tx antenna_height_rx,
    txd !! KStr "latitude" = Some latitude
    /\ txd !! KStr "longitude" = Some longitude
    /\ txd !! KStr "antenna_height_tx" = Some antenna_height_tx
    /\ txd !! KStr "antenna_height_rx" = Some antenna_height_rx
    /\ get_transmitter_info (VRef c) h =
       match txd !! KStr "tx_id" with
       | Some tx_id =>
           (Ok (fresh (dom h)),
            <[fresh (dom h) :=
                dict_of [(KStr "tx_id", tx_id);
                         (KStr "latitude", latitude);
                         (KStr "longitude", longitude);
                         (KStr "antenna_height_tx", antenna_height_tx);
                         (KStr "antenna_height_rx", antenna_height_rx)]]> h)
       | None => (Raise KeyError, h)
       end.
Proof.
  intros Hc Htxd Hok.
  destruct (validate_config_ok h (VRef c) Hok)
    as (c' & d' & tx & lp & pd & f & p & pol & E & Hc' & _ & Htx & Hmtx & _).
  injection E as <-. rewrite Hc in Hc'. injection Hc' as <-.
  unfold section_dict in Htxd. rewrite Htx in Htxd.
  destruct tx as [s|lt]; [discriminate|].
  rewrite (missing_from_dict _ _ _ _ Htxd) in Hmtx.
  assert (lacking txd required_tx_keys = []) as Hnone by congruence.
  pose proof (lacking_nil _ _ Hnone) as Hall.
  destruct (Hall "latitude"%string ltac:(simpl; auto 10)) as [lat Hlat].
  destruct (Hall "longitude"%string ltac:(simpl; auto 10)) as [lon Hlon].
  destruct (Hall "antenna_height_tx"%string ltac:(simpl; auto 10)) as [htx Hhtx].
  destruct (Hall "antenna_height_rx"%string ltac:(simpl; auto 10)) as [hrx Hhrx].
  exists lat, lon, htx, hrx. repeat (split; [assumption|]).
  unfold get_transmitter_info.
  rewrite (bind_ok _ _ _ _ _ (getitem_dict _ _ _ _ _ Hc Htx)).
  destruct (txd !! KStr "tx_id") as [tx_id|] eqn:Hid.
  - rewrite (bind_ok _ _ _ _ _ (getitem_dict _ _ _ _ _ Htxd Hid)).
    rewrite (bind_ok _ _ _ _ _ (getitem_dict _ _ _ _ _ Htxd Hlat)).
    rewrite (bind_ok _ _ _ _ _ (getitem_dict _ _ _ _ _ Htxd Hlon)).
    rewrite (bind_ok _ _ _ _ _ (getitem_dict _ _ _ _ _ Htxd Hhtx)).
    rewrite (bind_ok _ _ _ _ _ (getitem_dict _ _ _ _ _ Htxd Hhrx)).
    reflexivity.
  - rewrite (bind_raise _ _ _ _ _ (getitem_missing _ _ _ _ Htxd Hid)).
    reflexivity.
Qed.

(** X11: on a validated configuration [get_land_cover_mappings] never
    raises; it returns the two values the configuration holds under
    ["LCM10_TO_CT"] and ["CT_TO_R"] themselves (for dicts: the same
    objects, not copies) and leaves the store as it was. *)
Theorem validated_land_cover_mappings h config :
  validate_config h config = Ok tt ->
  exists c d lcm10_to_ct ct_to_r,
    config = VRef c /\ h !! c = Some d
    /\ d !! KStr "LCM10_TO_CT" = Some lcm10_to_ct
    /\ d !! KStr "CT_TO_R" = Some ct_to_r
    /\ get_land_cover_mappings config h = (Ok (lcm10_to_ct, ct_to_r), h).
Proof.
  intros Hok.
  destruct (validate_config_ok h config Hok)
    as (c & d & tx & lp & pd & f & p & pol & -> & Hc & Hall & _).
  destruct (Hall "LCM10_TO_CT"%string ltac:(simpl; auto 10)) as [lcm Hlcm].
  destruct (Hall "CT_TO_R"%string ltac:(simpl; auto 10)) as [ct Hct].
  exists c, d, lcm, ct. repeat (split; [assumption || reflexivity|]).
  unfold get_land_cover_mappings.
  rewrite (bind_ok _ _ _ _ _ (getitem_dict _ _ _ _ _ Hc Hlcm)).
  rewrite (bind_ok _ _ _ _ _ (getitem_dict _ _ _ _ _ Hc Hct)).
  reflexivity.
Qed.

(** X12: [get_receiver_generation_params] returns a snapshot: a new dict
    of the four values, which a later [set] on the manager's
    RECEIVER_GENERATION section leaves as it is. *)
Theorem receiver_generation_snapshot self h d l sd v1 v2 v3 v4 :
  h !! config self = Some d ->
  d !! KStr "RECEIVER_GENERATION" = Some (VRef l) ->
  h !! l = Some sd ->
  sd !! KStr "max_distance_km" = Some v1 ->
  sd !! KStr "azimuth_step" = Some v2 ->
  sd !! KStr "distance_step" = Some v3 ->
  sd !! KStr "sampling_resolution" = Some v4 ->
  let snapshot :=
    dict_of [(KStr "max_distance_km", v1); (KStr "azimuth_step", v2);
             (KStr "distance_step", v3); (KStr "sampling_resolution", v4)] in
  let r := fresh (dom h) in
  get_receiver_generation_params (VRef (config self)) h
  = (Ok r, <[r := snapshot]> h)
  /\ h !! r = None
  /\ (forall key value,
        let h' := snd (set self (KStr "RECEIVER_GENERATION") key value
                         (<[r := snapshot]> h)) in
        h' !! r = Some snapshot
        /\ h' !! l = Some (<[key := value]> sd)).
Proof.
  intros Hc Hs Hl H1 H2 H3 H4 snapshot r.
  pose proof (fresh_not_allocated _ _ _ Hc) as Hrc.
  pose proof (fresh_not_allocated _ _ _ Hl) as Hrl. fold r in Hrc, Hrl.
  split; [|split].
  - unfold get_receiver_generation_params.
    rewrite (bind_ok _ _ _ _ _ (getitem_dict _ _ _ _ _ Hc Hs)).
    rewrite (bind_ok _ _ _ _ _ (getitem_dict _ _ _ _ _ Hl H1)).
    rewrite (bind_ok _ _ _ _ _ (getitem_dict _ _ _ _ _ Hl H2)).
    rewrite (bind_ok _ _ _ _ _ (getitem_dict _ _ _ _ _ Hl H3)).
    rewrite (bind_ok _ _ _ _ _ (getitem_dict _ _ _ _ _ Hl H4)).
    reflexivity.
  - apply not_elem_of_dom. apply is_fresh.
  - intros key value h'. subst h'.
    rewrite (set_present self (KStr "RECEIVER_GENERATION") key value
               (<[r := snapshot]> h) d l sd).
    + rewrite validate_keeps_heap. split.
      * rewrite lookup_insert_ne by auto. apply lookup_insert_eq.
      * apply lookup_insert_eq.
    + rewrite lookup_insert_ne by auto. exact Hc.
    + exact Hs.
    + rewrite lookup_insert_ne by auto. exact Hl.
Qed.

(** X13: [to_dict] copies the top level only.  The exported dict is a new
    object, so storing under a key of it changes no object the manager
    reads; but its sections are the manager's own section dicts, so a
    value stored in a section of the export is what the manager's [get]
    returns from then on, no validation having run. *)
Theorem to_dict_shares_sections self h d :
  h !! config self = Some d ->
  let exported := fresh (dom h) in
  let h1 := <[exported := d]> h in
  to_dict self h = (Ok exported, h1)
  /\ h !! exported = None
  /\ (forall k v,
        let h2 := snd (py_setitem (VRef exported) k v h1) in
        h2 !! exported = Some (<[k := v]> d)
        /\ forall l, l <> exported -> h2 !! l = h !! l)
  /\ (forall section l sd key v dflt,
        d !! section = Some (VRef l) -> h !! l = Some sd -> l <> config self ->
        let h2 := snd (bind (getitem (VRef exported) section)
                         (fun sec => py_setitem sec key v) h1) in
        get self section (Some key) dflt h2 = v).
Proof.
  intros Hc exported h1.
  pose proof (fresh_not_allocated _ _ _ Hc) as Hne. fold exported in Hne.
  split; [|split; [|split]].
  - unfold to_dict, dict_copy, py_alloc. rewrite Hc. reflexivity.
  - apply not_elem_of_dom. apply is_fresh.
  - intros k v h2. subst h2. unfold py_setitem, h1.
    rewrite lookup_insert_eq. cbn [snd]. split.
    + apply lookup_insert_eq.
    + intros l Hl. rewrite !lookup_insert_ne by auto. reflexivity.
  - intros section l sd key v dflt Hs Hl Hlc h2. subst h2.
    pose proof (fresh_not_allocated _ _ _ Hl) as Hnl. fold exported in Hnl.
    assert (h1 !! exported = Some d) as He by apply lookup_insert_eq.
    rewrite (bind_ok _ _ _ _ _ (getitem_dict _ _ _ _ _ He Hs)).
    unfold py_setitem, h1. rewrite lookup_insert_ne by auto. rewrite Hl. cbn [snd].
    erewrite get_section_key; [apply dict_get_insert| |exact Hs|apply lookup_insert_eq].
    rewrite !lookup_insert_ne by auto. exact Hc.
Qed.

(** X14: [set] changes one entry of one dict, whether it then raises or
    not: every other object of the store is as before, the section keeps
    all its other keys, and [get] returns what it returned before for
    every other key and for every section held in another dict. *)
Theorem set_changes_one_entry self section key value h d l sd :
  h !! config self = Some d ->
  d !! section = Some (VRef l) ->
  h !! l = Some sd ->
  l <> config self ->
  let h' := snd (set self section key value h) in
  h' !! l = Some (<[key := value]> sd)
  /\ (forall l', l' <> l -> h' !! l' = h !! l')
  /\ (forall k v, sd !! k = Some v -> k <> key -> (<[key := value]> sd) !! k = Some v)
  /\ (forall section' key' dflt,
        key' <> key \/ d !! section' <> Some (VRef l) ->
        get self section' (Some key') dflt h' = get self section' (Some key') dflt h).
Proof.
  intros Hc Hs Hl Hne h'. subst h'.
  rewrite (set_present _ _ _ _ _ _ _ _ Hc Hs Hl), validate_keeps_heap.
  split; [apply lookup_insert_eq|]. split; [|split].
  - intros l' Hl'. apply lookup_insert_ne. auto.
  - intros k v Hk Hkk. rewrite lookup_insert_ne by auto. exact Hk.
  - intros section' key' dflt Hor. unfold get.
    rewrite lookup_insert_ne by auto. rewrite Hc.
    destruct (d !! section') as [[s|l']|] eqn:Hs'; try reflexivity.
    destruct (decide (l' = l)) as [->|Hl'].
    + rewrite lookup_insert_eq, Hl. unfold dict_get.
      destruct Hor as [Hk|Hk]; [|congruence].
      rewrite lookup_insert_ne by auto. reflexivity.
    + rewrite lookup_insert_ne by auto. reflexivity.
Qed.

(** [_deep_update] with a source of scalar leaves stores them one after
    the other, as [dict.update] would. *)
Lemma deep_update_leaves l leaves : forall sd h,
  h !! l = Some sd ->
  _deep_update (VRef l) (LDict (map (fun kv => (fst kv, LVal (snd kv))) leaves)) h
  = (Ok tt, <[l := updated sd leaves]> h).
Proof.
  induction leaves as [|[k s] leaves IH]; intros sd h Hl.
  - simpl. unfold ret. rewrite insert_id by exact Hl. reflexivity.
  - change (bind (py_setitem (VRef l) k (VSc s))
              (fun _ => _deep_update (VRef l)
                          (LDict (map (fun kv => (fst kv, LVal (snd kv))) leaves))) h
            = (Ok tt, <[l := updated sd ((k, s) :: leaves)]> h)).
    unfold bind, py_setitem. rewrite Hl.
    rewrite (IH (<[k := VSc s]> sd)) by apply lookup_insert_eq.
    rewrite insert_insert_eq. reflexivity.
Qed.

Lemma updated_other (leaves : list (pykey * scalar)) : forall sd k,
  ~ In k (map fst leaves) -> updated sd leaves !! k = sd !! k.
Proof.
  induction leaves as [|[k0 s0] leaves IH]; intros sd k Hk; [reflexivity|].
  simpl in *. unfold updated in *. simpl. rewrite IH by tauto.
  apply lookup_insert_ne. tauto.
Qed.

Lemma updated_named (leaves : list (pykey * scalar)) : forall sd k s,
  NoDup (map fst leaves) -> In (k, s) leaves ->
  updated sd leaves !! k = Some (VSc s).
Proof.
  induction leaves as [|[k0 s0] leaves IH]; intros sd k s Hnd Hin; [contradiction|].
  simpl in Hnd. apply NoDup_cons in Hnd as [Hk0 Hnd].
  destruct Hin as [E|Hin].
  - injection E as -> ->.
    change (updated (<[k := VSc s]> sd) leaves !! k = Some (VSc s)).
    rewrite updated_other; [apply lookup_insert_eq|].
    intros Hin. apply Hk0. apply list_elem_of_In. exact Hin.
  - exact (IH _ _ _ Hnd Hin).
Qed.

(** X15: a constructor override for a section that exists is merged into
    the section's dict entry by entry, a later entry winning: the keys
    the override names get its values and every other key of the section
    keeps its value, which is what [get] on the new manager returns. *)
Theorem override_merges_into_section h d section l sd leaves :
  h !! DEFAULT_CONFIG = Some d ->
  d !! section = Some (VRef l) ->
  h !! l = Some sd ->
  let r := init (Some (section_override section leaves)) h in
  snd r = <[l := updated sd leaves]> (<[fresh (dom h) := d]> h)
  /\ (forall k, ~ In k (map fst leaves) -> updated sd leaves !! k = sd !! k)
  /\ (NoDup (map fst leaves) ->
      forall k s, In (k, s) leaves -> updated sd leaves !! k = Some (VSc s))
  /\ (forall m h', r = (Ok m, h') ->
        forall k dflt,
          get m section (Some k) dflt h' = dict_get (updated sd leaves) k dflt).
Proof.
  intros Hd Hs Hl r.
  pose proof (fresh_not_allocated _ _ _ Hl) as Hne.
  pose proof (fresh_not_allocated _ _ _ Hd) as Hnd.
  set (c := fresh (dom h)) in *.
  assert (r = (match fst (validate {| config := c |}
                            (<[l := updated sd leaves]> (<[c := d]> h))) with
               | Ok _ => Ok {| config := c |}
               | Raise e => Raise e
               end, <[l := updated sd leaves]> (<[c := d]> h))) as Hr.
  { subst r. unfold init, section_override, bind at 1, dict_copy, py_alloc.
    rewrite Hd. fold c. cbv beta iota.
    change (_deep_update (VRef c) (LDict [(section, LDict ?ls)]))
      with (bind (bind (reads (fun h0 => py_contains h0 (VRef c) section))
                    (fun b : bool =>
                       if b
                       then bind (reads (fun h0 => py_getitem h0 (VRef c) section))
                              (fun t => _deep_update t (LDict ls))
                       else bind (alloc_lit (LDict ls))
                              (fun v => py_setitem (VRef c) section v)))
              (fun _ => ret tt)).
    unfold bind, reads, py_contains, py_getitem, ret.
    rewrite lookup_insert_eq, Hs. rewrite bool_decide_eq_true_2 by eauto.
    cbv beta iota. rewrite lookup_insert_eq, Hs. cbv beta iota.
    rewrite (deep_update_leaves l leaves sd)
      by (rewrite lookup_insert_ne by auto; exact Hl).
    match goal with |- context [validate ?m ?hh] =>
      rewrite (validate_result m hh); destruct (fst (validate m hh)) end;
      reflexivity. }
  split; [rewrite Hr; reflexivity|].
  split; [apply updated_other|]. split; [intros; eapply updated_named; eauto|].
  intros m h' E. rewrite Hr in E. injection E as Hm <-.
  destruct (fst (validate _ _)); [|discriminate]. injection Hm as <-.
  intros k dflt.
  erewrite get_section_key; [reflexivity| |exact Hs|apply lookup_insert_eq].
  cbn [config]. rewrite lookup_insert_ne by auto. apply lookup_insert_eq.
Qed.

End ConfigAccessFacts.

(** X9, witness: the theorem at the default configuration. *)
Lemma validated_p1812_params_witness :
  Validation.validate_config Config.module_heap (VRef Config.DEFAULT_CONFIG) = Py.Ok tt
  /\ exists c d p1812 section f p pol,
       VRef Config.DEFAULT_CONFIG = VRef c /\ Config.module_heap !! c = Some d
       /\ d !! KStr "P1812" = Some (VRef p1812)
       /\ Config.module_heap !! p1812 = Some section
       /\ section !! KStr "frequency_ghz" = Some f
       /\ section !! KStr "time_percentage" = Some p
       /\ section !! KStr "polarization" = Some pol
       /\ ConfigAccess.get_p1812_params (VRef Config.DEFAULT_CONFIG) Config.module_heap =
         (Py.Ok (fresh (dom Config.module_heap)),
          <[fresh (dom Config.module_heap) :=
              Config.dict_of [(KStr "frequency_ghz", f);
                              (KStr "time_percentage", p);
                              (KStr "polarization", pol)]]> Config.module_heap)
       /\ within Validation.float_0_03 (PyFloat.FFin 6) f
       /\ within (PyFloat.FFin 1) (PyFloat.FFin 50) p
       /\ (PyOps.py_eq_int pol 1 = true \/ PyOps.py_eq_int pol 2 = true).
Proof.
  split; [reflexivity|].
  exact (validated_p1812_params Config.module_heap (VRef Config.DEFAULT_CONFIG) eq_refl).
Defined.

(** X10, witness: the default configuration without its [tx_id]. *)
Lemma validated_transmitter_info_witness :
  ConfigAccessDemo.heap_without_tx_id !! Config.DEFAULT_CONFIG = Some Config.default_config
  /\ section_dict ConfigAccessDemo.heap_without_tx_id Config.default_config "TRANSMITTER"
     = Some (delete (KStr "tx_id") Config.default_transmitter)
  /\ Validation.validate_config ConfigAccessDemo.heap_without_tx_id
       (VRef Config.DEFAULT_CONFIG) = Py.Ok tt
  /\ ConfigAccess.get_transmitter_info (VRef Config.DEFAULT_CONFIG)
       ConfigAccessDemo.heap_without_tx_id
     = (Py.Raise Py.KeyError, ConfigAccessDemo.heap_without_tx_id).
Proof.
  split; [reflexivity|]. split; [reflexivity|]. split; [reflexivity|].
  destruct (validated_transmitter_info ConfigAccessDemo.heap_without_tx_id
              Config.DEFAULT_CONFIG Config.default_config
              (delete (KStr "tx_id") Config.default_transmitter)
              eq_refl eq_refl eq_refl)
    as (lat & lon & htx & hrx & _ & _ & _ & _ & Hrun).
  exact Hrun.
Defined.

(** X11, witness: the theorem at the default configuration. *)
Lemma validated_land_cover_mappings_witness :
  Validation.validate_config Config.module_heap (VRef Config.DEFAULT_CONFIG) = Py.Ok tt
  /\ exists c d lcm10_to_ct ct_to_r,
       VRef Config.DEFAULT_CONFIG = VRef c /\ Config.module_heap !! c = Some d
       /\ d !! KStr "LCM10_TO_CT" = Some lcm10_to_ct
       /\ d !! KStr "CT_TO_R" = Some ct_to_r
       /\ ConfigAccess.get_land_cover_mappings (VRef Config.DEFAULT_CONFIG)
            Config.module_heap = (Py.Ok (lcm10_to_ct, ct_to_r), Config.module_heap).
Proof.
  split; [reflexivity|].
  exact (validated_land_cover_mappings Config.module_heap
           (VRef Config.DEFAULT_CONFIG) eq_refl).
Defined.

(** X12, witness: the theorem at a manager built from the defaults. *)
Lemma receiver_generation_snapshot_witness :
  ConfigDemo.heap_after_init !! Config.config ConfigDemo.fresh_manager
    = Some Config.default_config
  /\ Config.default_config !! KStr "RECEIVER_GENERATION"
     = Some (VRef Config.RECEIVER_GENERATION_loc)
  /\ ConfigDemo.heap_after_init !! Config.RECEIVER_GENERATION_loc
     = Some Config.default_receiver_generation
  /\ Config.default_receiver_generation !! KStr "max_distance_km" = Some (VSc (SInt 11))
  /\ Config.default_receiver_generation !! KStr "azimuth_step" = Some (VSc (SInt 10))
  /\ Config.default_receiver_generation !! KStr "distance_step"
     = Some (VSc (SFloat Validation.float_0_03))
  /\ Config.default_receiver_generation !! KStr "sampling_resolution"
     = Some (VSc (SInt 30))
  /\ ConfigAccess.get_receiver_generation_params
       (VRef (Config.config ConfigDemo.fresh_manager)) ConfigDemo.heap_after_init
     = (Py.Ok (fresh (dom ConfigDemo.heap_after_init)),
        <[fresh (dom ConfigDemo.heap_after_init) :=
            Config.dict_of
              [(KStr "max_distance_km", VSc (SInt 11));
               (KStr "azimuth_step", VSc (SInt 10));
               (KStr "distance_step", VSc (SFloat Validation.float_0_03));
               (KStr "sampling_resolution", VSc (SInt 30))]]>
          ConfigDemo.heap_after_init).
Proof.
  repeat (split; [reflexivity|]).
  exact (proj1 (receiver_generation_snapshot ConfigDemo.fresh_manager
                  ConfigDemo.heap_after_init Config.default_config
                  Config.RECEIVER_GENERATION_loc Config.default_receiver_generation
                  _ _ _ _ eq_refl eq_refl eq_refl eq_refl eq_refl eq_refl eq_refl)).
Defined.

(** X13, witness: the theorem at a manager built from the defaults. *)
Lemma to_dict_shares_sections_witness :
  ConfigDemo.heap_after_init !! Config.config ConfigDemo.fresh_manager
    = Some Config.default_config
  /\ ConfigAccess.to_dict ConfigDemo.fresh_manager ConfigDemo.heap_after_init
     = (Py.Ok (fresh (dom ConfigDemo.heap_after_init)),
        <[fresh (dom ConfigDemo.heap_after_init) := Config.default_config]>
          ConfigDemo.heap_after_init).
Proof.
  split; [reflexivity|].
  exact (proj1 (to_dict_shares_sections ConfigDemo.fresh_manager
                  ConfigDemo.heap_after_init Config.default_config eq_refl)).
Defined.

(** X14, witness: the theorem at [set('P1812', 'frequency_ghz', 10)] on a
    manager built from the defaults. *)
Lemma set_changes_one_entry_witness :
  ConfigDemo.heap_after_init !! Config.config ConfigDemo.fresh_manager
    = Some Config.default_config
  /\ Config.default_config !! KStr "P1812" = Some (VRef Config.P1812_loc)
  /\ ConfigDemo.heap_after_init !! Config.P1812_loc = Some Config.default_p1812
  /\ Config.P1812_loc <> Config.config ConfigDemo.fresh_manager
  /\ snd (Config.set ConfigDemo.fresh_manager (KStr "P1812") (KStr "frequency_ghz")
            (VSc (SInt 10)) ConfigDemo.heap_after_init) !! Config.P1812_loc
     = Some (<[KStr "frequency_ghz" := VSc (SInt 10)]> Config.default_p1812).
Proof.
  split; [reflexivity|]. split; [reflexivity|]. split; [reflexivity|].
  split; [discriminate|].
  exact (proj1 (set_changes_one_entry ConfigDemo.fresh_manager (KStr "P1812")
                  (KStr "frequency_ghz") (VSc (SInt 10)) ConfigDemo.heap_after_init
                  Config.default_config Config.P1812_loc Config.default_p1812
                  eq_refl eq_refl eq_refl ltac:(discriminate))).
Defined.

(** X15, witness: an override of two keys of the section [P1812]. *)
Lemma override_merges_into_section_witness :
  Config.module_heap !! Config.DEFAULT_CONFIG = Some Config.default_config
  /\ Config.default_config !! KStr "P1812" = Some (VRef Config.P1812_loc)
  /\ Config.module_heap !! Config.P1812_loc = Some Config.default_p1812
  /\ snd (Config.init
            (Some (section_override (KStr "P1812")
                     [(KStr "frequency_ghz", SInt 2); (KStr "polarization", SInt 2)]))
            Config.module_heap)
     = <[Config.P1812_loc :=
           updated Config.default_p1812
             [(KStr "frequency_ghz", SInt 2); (KStr "polarization", SInt 2)]]>
         (<[fresh (dom Config.module_heap) := Config.default_config]> Config.module_heap).
Proof.
  split; [reflexivity|]. split; [reflexivity|]. split; [reflexivity|].
  exact (proj1 (override_merges_into_section Config.module_heap Config.default_config
                  (KStr "P1812") Config.P1812_loc Config.default_p1812
                  [(KStr "frequency_ghz", SInt 2); (KStr "polarization", SInt 2)]
                  eq_refl eq_refl eq_refl)).
Defined.

Section Binary64Facts.
Import PyFloat Binary64.
Local Open Scope Q_scope.

Lemma pow2_pos (k : Z) : 0 < 2 ^ k.
Proof. apply Qpower_0_lt. reflexivity. Qed.

Lemma pow2_plus (a b : Z) : 2 ^ (a + b) == 2 ^ a * 2 ^ b.
Proof. apply Qpower_plus. discriminate. Qed.

Lemma pow2_le (a b : Z) : (a <= b)%Z -> 2 ^ a <= 2 ^ b.
Proof. intros H. apply Qpower_le_compat_l; [exact H|]. discriminate. Qed.

Lemma pow2_lt_inv (a b : Z) : 2 ^ a < 2 ^ b -> (a < b)%Z.
Proof. intros H. apply (Qpower_lt_compat_l_inv 2); [exact H|reflexivity]. Qed.

Lemma pow2_Z (k : Z) : (0 <= k)%Z -> 2 ^ k == inject_Z (2 ^ k).
Proof. intros H. rewrite Zpower_Qpower by exact H. reflexivity. Qed.

Lemma pow2_succ (a : Z) : 2 ^ (a + 1) == 2 * 2 ^ a.
Proof. rewrite pow2_plus. change (2 ^ 1) with 2. ring. Qed.

Lemma pow2_cancel (a : Z) : 2 ^ a * 2 ^ (- a) == 1.
Proof. rewrite <- pow2_plus. replace (a + - a)%Z with 0%Z by lia. reflexivity. Qed.

(** A fraction against a bound, without the division. *)
Lemma Qmake_le_l (x : Q) (n : Z) (d : positive) :
  x <= n # d <-> x * inject_Z (Zpos d) <= inject_Z n.
Proof.
  unfold Qle, Qmult, inject_Z. simpl. rewrite ?Z.mul_1_r, ?Pos.mul_1_r. reflexivity.
Qed.

Lemma Qmake_lt_r (x : Q) (n : Z) (d : positive) :
  n # d < x <-> inject_Z n < x * inject_Z (Zpos d).
Proof.
  unfold Qlt, Qmult, inject_Z. simpl. rewrite ?Z.mul_1_r, ?Pos.mul_1_r. reflexivity.
Qed.

Lemma Qmake_le_r (x : Q) (n : Z) (d : positive) :
  n # d <= x <-> inject_Z n <= x * inject_Z (Zpos d).
Proof.
  unfold Qle, Qmult, inject_Z. simpl. rewrite ?Z.mul_1_r, ?Pos.mul_1_r. reflexivity.
Qed.

Lemma inject_Z_le (a b : Z) : (a <= b)%Z <-> inject_Z a <= inject_Z b.
Proof. unfold Qle, inject_Z. simpl. rewrite ?Z.mul_1_r, ?Pos.mul_1_r. reflexivity. Qed.

Lemma inject_Z_lt (a b : Z) : (a < b)%Z <-> inject_Z a < inject_Z b.
Proof. unfold Qlt, inject_Z. simpl. rewrite ?Z.mul_1_r, ?Pos.mul_1_r. reflexivity. Qed.

(** [ilog2] is the binary exponent. *)
Lemma ilog2_spec (n d : positive) :
  2 ^ ilog2 n d <= Zpos n # d /\ Zpos n # d < 2 ^ (ilog2 n d + 1).
Proof.
  unfold ilog2.
  set (a := Z.log2 (Zpos n)). set (b := Z.log2 (Zpos d)).
  assert (0 <= a)%Z as Ha by apply Z.log2_nonneg.
  assert (0 <= b)%Z as Hb by apply Z.log2_nonneg.
  destruct (Z.log2_spec (Zpos n) ltac:(lia)) as [Hn1 Hn2]. fold a in Hn1, Hn2.
  destruct (Z.log2_spec (Zpos d) ltac:(lia)) as [Hd1 Hd2]. fold b in Hd1, Hd2.
  apply inject_Z_le in Hn1, Hd1. apply inject_Z_lt in Hn2, Hd2.
  rewrite <- Z.add_1_r in Hn2, Hd2.
  rewrite <- !pow2_Z in Hn1, Hn2, Hd1, Hd2 by lia.
  rewrite pow2_succ in Hn2, Hd2.
  pose proof (pow2_pos a) as Hpa. pose proof (pow2_pos b) as Hpb.
  pose proof (pow2_pos (a - b)) as Hpe.
  assert (2 ^ (a - b) * 2 ^ b == 2 ^ a) as Hab.
  { rewrite <- pow2_plus. replace (a - b + b)%Z with a by lia. reflexivity. }
  set (N := inject_Z (Zpos n)) in *. set (D := inject_Z (Zpos d)) in *.
  set (A := 2 ^ a) in *. set (B := 2 ^ b) in *. set (E := 2 ^ (a - b)) in *.
  destruct (Qle_bool E (Zpos n # d)) eqn:Ht.
  - apply Qle_bool_iff in Ht. split; [exact Ht|].
    apply Qmake_lt_r. fold N D. rewrite pow2_succ. fold E.
    assert (E * B <= E * D) as H1 by (apply Qmult_le_l; assumption).
    clear Ht. clearbody N D A B E. Lqa.lra.
  - assert (Zpos n # d < E) as Hlt.
    { apply Qnot_le_lt. intros H. apply Qle_bool_iff in H. congruence. }
    replace (a - b - 1 + 1)%Z with (a - b)%Z by lia. fold E. split; [|exact Hlt].
    apply Qmake_le_l. fold N D.
    assert (2 * 2 ^ (a - b - 1) == E) as Hh.
    { rewrite <- pow2_succ. replace (a - b - 1 + 1)%Z with (a - b)%Z by lia.
      reflexivity. }
    pose proof (pow2_pos (a - b - 1)) as Hpe1.
    set (E1 := 2 ^ (a - b - 1)) in *.
    assert (E1 * D <= E1 * (2 * B)) as H1
      by (apply Qmult_le_l; [assumption|apply Qlt_le_weak; assumption]).
    assert (E1 * (2 * B) == A) as H2 by (rewrite <- Hab, <- Hh; ring).
    clear Ht Hlt. clearbody N D A B E E1. Lqa.lra.
Qed.

(** Rounding to the nearest integer stays within integer bounds. *)
Lemma round_half_even_ge n d K :
  (K * Zpos d <= n)%Z -> (K <= round_half_even n d)%Z.
Proof.
  intros H. unfold round_half_even.
  pose proof (Z.div_mod n (Zpos d) ltac:(lia)) as Hdm.
  pose proof (Z.mod_pos_bound n (Zpos d) ltac:(lia)) as Hr.
  assert (K <= n / Zpos d)%Z by nia.
  destruct (2 * (n mod Zpos d) ?= Zpos d)%Z; [destruct (Z.even _)| |]; lia.
Qed.

Lemma round_half_even_le n d K :
  (n <= K * Zpos d)%Z -> (round_half_even n d <= K)%Z.
Proof.
  intros H. unfold round_half_even.
  pose proof (Z.div_mod n (Zpos d) ltac:(lia)) as Hdm.
  pose proof (Z.mod_pos_bound n (Zpos d) ltac:(lia)) as Hr.
  assert (n / Zpos d <= K)%Z as Hk by nia.
  destruct (2 * (n mod Zpos d) ?= Zpos d)%Z eqn:Hc.
  - apply Z.compare_eq in Hc. destruct (Z.even _); [lia|]. nia.
  - lia.
  - apply Z.compare_gt_iff in Hc. nia.
Qed.

Lemma nearest_ge (q : Q) (K : Z) : inject_Z K <= q -> (K <= nearest q)%Z.
Proof.
  intros H. apply round_half_even_ge.
  unfold Qle, inject_Z in H. simpl in H. lia.
Qed.

Lemma nearest_le (q : Q) (K : Z) : q <= inject_Z K -> (nearest q <= K)%Z.
Proof.
  intros H. apply round_half_even_le.
  unfold Qle, inject_Z in H. simpl in H. lia.
Qed.

Lemma significand_below (M j : Z) :
  (0 < M < 2 ^ 53)%Z -> inject_Z M * 2 ^ j < 2 ^ (53 + j).
Proof.
  intros [_ HM]. apply inject_Z_lt in HM. rewrite <- pow2_Z in HM by lia.
  rewrite pow2_plus. apply Qmult_lt_compat_r; [apply pow2_pos|exact HM].
Qed.

Lemma scaled_significand (M j k : Z) :
  (0 <= j + k)%Z ->
  inject_Z M * 2 ^ j * 2 ^ k == inject_Z (M * 2 ^ (j + k)).
Proof.
  intros H. rewrite inject_Z_mult, <- pow2_Z by exact H.
  rewrite pow2_plus. ring.
Qed.

(** The exponent at which [n/d] is rounded takes a 53-bit bound with
    it. *)
Lemma exponent_fits (n d : positive) (M j : Z) :
  (0 < M < 2 ^ 53)%Z -> (-1074 <= j)%Z ->
  2 ^ ilog2 n d <= inject_Z M * 2 ^ j ->
  (0 <= j + (52 - Z.max (ilog2 n d) (-1022)))%Z.
Proof.
  intros HM Hj Hle.
  pose proof (significand_below M j HM) as Hlt.
  assert (2 ^ ilog2 n d < 2 ^ (53 + j)) as H by (eapply Qle_lt_trans; eassumption).
  apply pow2_lt_inv in H. lia.
Qed.

Lemma round_pos_le (n d : positive) (M j : Z) :
  (0 < M < 2 ^ 53)%Z -> (-1074 <= j)%Z ->
  Zpos n # d <= inject_Z M * 2 ^ j ->
  round_pos n d <= inject_Z M * 2 ^ j.
Proof.
  intros HM Hj Hle. unfold round_pos.
  destruct (ilog2_spec n d) as [Hlo _].
  assert (0 <= j + (52 - Z.max (ilog2 n d) (-1022)))%Z as Hk.
  { apply (exponent_fits n d M j); auto. eapply Qle_trans; eassumption. }
  set (e := Z.max (ilog2 n d) (-1022)) in *.
  assert ((Zpos n # d) * 2 ^ (52 - e) <= inject_Z (M * 2 ^ (j + (52 - e)))) as Hs.
  { rewrite <- scaled_significand by exact Hk.
    apply Qmult_le_compat_r; [exact Hle|apply Qlt_le_weak, pow2_pos]. }
  apply nearest_le, inject_Z_le in Hs.
  apply (Qmult_le_compat_r _ _ (2 ^ (e - 52))) in Hs;
    [|apply Qlt_le_weak, pow2_pos].
  eapply Qle_trans; [exact Hs|].
  rewrite <- scaled_significand by exact Hk.
  rewrite <- !Qmult_assoc, <- pow2_plus.
  replace (52 - e + (e - 52))%Z with 0%Z by lia.
  change (2 ^ 0) with 1. rewrite Qmult_1_r. apply Qle_refl.
Qed.

Lemma round_pos_ge (n d : positive) (M j : Z) :
  (0 < M < 2 ^ 53)%Z -> (-1074 <= j)%Z ->
  inject_Z M * 2 ^ j <= Zpos n # d ->
  inject_Z M * 2 ^ j <= round_pos n d.
Proof.
  intros HM Hj Hle. unfold round_pos.
  destruct (ilog2_spec n d) as [Hlo _].
  set (e := Z.max (ilog2 n d) (-1022)).
  destruct (Z_le_gt_dec 0 (j + (52 - e))) as [Hk|Hk].
  - assert (inject_Z (M * 2 ^ (j + (52 - e))) <= (Zpos n # d) * 2 ^ (52 - e)) as Hs.
    { rewrite <- scaled_significand by exact Hk.
      apply Qmult_le_compat_r; [exact Hle|apply Qlt_le_weak, pow2_pos]. }
    apply nearest_ge, inject_Z_le in Hs.
    apply (Qmult_le_compat_r _ _ (2 ^ (e - 52))) in Hs;
      [|apply Qlt_le_weak, pow2_pos].
    eapply Qle_trans; [|exact Hs].
    rewrite <- scaled_significand by exact Hk.
    rewrite <- !Qmult_assoc, <- pow2_plus.
    replace (52 - e + (e - 52))%Z with 0%Z by lia.
    change (2 ^ 0) with 1. rewrite Qmult_1_r. apply Qle_refl.
  - assert (e = ilog2 n d) as He by lia.
    assert (inject_Z (2 ^ 52) <= (Zpos n # d) * 2 ^ (52 - e)) as Hs.
    { rewrite <- pow2_Z by lia.
      replace 52%Z with (e + (52 - e))%Z at 1 by lia. rewrite pow2_plus.
      apply Qmult_le_compat_r; [rewrite He; exact Hlo|apply Qlt_le_weak, pow2_pos]. }
    apply nearest_ge, inject_Z_le in Hs.
    apply (Qmult_le_compat_r _ _ (2 ^ (e - 52))) in Hs;
      [|apply Qlt_le_weak, pow2_pos].
    eapply Qle_trans; [|exact Hs].
    rewrite <- pow2_Z, <- pow2_plus by lia.
    replace (52 + (e - 52))%Z with e by lia.
    apply Qlt_le_weak. eapply Qlt_le_trans; [apply significand_below, HM|].
    apply pow2_le. lia.
Qed.

Lemma Qred_inject_Z (z : Z) : Qred (inject_Z z) = inject_Z z.
Proof.
  unfold Qred, inject_Z.
  pose proof (Z.ggcd_gcd z 1) as Hg.
  pose proof (Z.ggcd_correct_divisors z 1) as Hd.
  destruct (Z.ggcd z 1) as [g [aa bb]]. simpl in *.
  rewrite Z.gcd_1_r in Hg. subst g. destruct Hd as [Ha Hb].
  f_equal; [lia|]. assert (bb = 1%Z) by lia. subst bb. reflexivity.
Qed.

(** A positive rational between two doubles is rounded to a double
    between them. *)
Lemma round_between_red (q lo hi : Q) :
  dyadic53 lo -> dyadic53 hi -> hi < 2 ^ 1024 ->
  lo <= q -> q <= hi ->
  exists r, round q = FFin (Qred r) /\ lo <= r /\ r <= hi.
Proof.
  intros (Ml & jl & HMl & Hjl & Hlo) (Mh & jh & HMh & Hjh & Hhi) Hmax Hl Hh.
  assert (0 < q) as Hq.
  { eapply Qlt_le_trans; [|exact Hl]. rewrite Hlo.
    apply Qmult_lt_0_compat; [|apply pow2_pos].
    destruct HMl as [HM0 _]. apply inject_Z_lt in HM0. exact HM0. }
  destruct q as [[|n|n] d]; try (exfalso; revert Hq; unfold Qlt; simpl; lia).
  unfold round. cbn [Qnum Qden].
  assert (round_pos n d <= hi) as Hrh.
  { rewrite Hhi. apply round_pos_le; auto. rewrite <- Hhi. exact Hh. }
  assert (lo <= round_pos n d) as Hrl.
  { rewrite Hlo. apply round_pos_ge; auto. rewrite <- Hlo. exact Hl. }
  destruct (Qle_bool (2 ^ 1024) (round_pos n d)) eqn:Hov.
  - exfalso. apply Qle_bool_iff in Hov.
    apply (Qlt_irrefl hi). eapply Qlt_le_trans; [exact Hmax|].
    eapply Qle_trans; eassumption.
  - eexists. split; [reflexivity|]. auto.
Qed.

Lemma round_between (q lo hi : Q) :
  dyadic53 lo -> dyadic53 hi -> hi < 2 ^ 1024 ->
  lo <= q -> q <= hi ->
  exists r, round q = FFin r /\ lo <= r /\ r <= hi.
Proof.
  intros Hlo Hhi Hmax Hl Hh.
  destruct (round_between_red q lo hi Hlo Hhi Hmax Hl Hh) as (r & Hr & H1 & H2).
  exists (Qred r). split; [exact Hr|].
  split; [rewrite Qred_correct|rewrite Qred_correct]; assumption.
Qed.

(** A rational that is a double is rounded to itself. *)
Lemma round_exact (q : Q) :
  dyadic53 q -> q < 2 ^ 1024 -> round q = FFin (Qred q).
Proof.
  intros Hd Hmax.
  destruct (round_between_red q q q Hd Hd Hmax (Qle_refl q) (Qle_refl q))
    as (r & Hr & Hl & Hh).
  rewrite Hr. f_equal. apply Qred_complete. apply Qle_antisym; assumption.
Qed.

(** Integers of at most 53 bits, and their quotients by powers of two,
    are doubles. *)
Lemma dyadic53_scaled (M j : Z) :
  (0 < M < 2 ^ 53)%Z -> (-1074 <= j)%Z -> dyadic53 (inject_Z M * 2 ^ j).
Proof. intros HM Hj. exists M, j. repeat split; auto; try lia. Qed.

Lemma dyadic53_int (M : Z) : (0 < M < 2 ^ 53)%Z -> dyadic53 (inject_Z M).
Proof.
  intros HM. exists M, 0%Z. repeat split; try lia.
  change (2 ^ 0) with 1. rewrite Qmult_1_r. reflexivity.
Qed.

Lemma below_overflow (M j : Z) :
  (0 < M < 2 ^ 53)%Z -> (j <= 971)%Z -> inject_Z M * 2 ^ j < 2 ^ 1024.
Proof.
  intros HM Hj. eapply Qlt_le_trans; [apply significand_below, HM|].
  apply pow2_le. lia.
Qed.

Lemma round_int (M : Z) :
  (0 < M < 2 ^ 53)%Z -> round (inject_Z M) = FFin (inject_Z M).
Proof.
  intros HM. rewrite round_exact.
  - rewrite Qred_inject_Z. reflexivity.
  - apply dyadic53_int, HM.
  - pose proof (below_overflow M 0 HM ltac:(lia)) as H.
    change (2 ^ 0) with 1 in H. rewrite Qmult_1_r in H. exact H.
Qed.

End Binary64Facts.

Section PyNumFacts.
Import PyFloat Binary64 PyNum.
Local Open Scope Q_scope.

Lemma round_neg (n d : positive) :
  round (Zneg n # d) =
  match round (Zpos n # d) with
  | FFin r => FFin (- r)
  | FInf neg => FInf (negb neg)
  | FNaN => FNaN
  end.
Proof.
  unfold round. cbn [Qnum Qden].
  destruct (Qle_bool (2 ^ 1024) (round_pos n d)); [reflexivity|].
  rewrite Qred_opp. reflexivity.
Qed.

(** An int of at most 53 bits converts to a float exactly. *)
Lemma float_of_int_exact (n : Z) :
  (- 2 ^ 53 < n < 2 ^ 53)%Z -> float_of_int n = Ok (FFin (inject_Z n)).
Proof.
  intros Hn. unfold float_of_int. destruct n as [|p|p].
  - reflexivity.
  - rewrite round_int by lia. reflexivity.
  - change (inject_Z (Zneg p)) with (Zneg p # 1).
    rewrite round_neg. change (Zpos p # 1) with (inject_Z (Zpos p)).
    rewrite round_int by lia. reflexivity.
Qed.

Lemma flt_fin (a b : Q) : flt (FFin a) (FFin b) = true <-> a < b.
Proof.
  unfold flt. rewrite Bool.negb_true_iff. split.
  - intros H. apply Qnot_le_lt. intros Hle. apply Qle_bool_iff in Hle. congruence.
  - intros H. destruct (Qle_bool b a) eqn:E; [|reflexivity].
    apply Qle_bool_iff in E. exfalso. apply (Qlt_irrefl a).
    eapply Qlt_le_trans; eassumption.
Qed.

Lemma flt_fin_false (a b : Q) : flt (FFin a) (FFin b) = false <-> b <= a.
Proof.
  unfold flt. rewrite Bool.negb_false_iff. apply Qle_bool_iff.
Qed.

Lemma round_half_even_unit (n : Z) : round_half_even n 1 = n.
Proof.
  unfold round_half_even. rewrite Z.div_1_r, Z.mod_1_r. reflexivity.
Qed.

Lemma str_of_Z_signed (n : Z) :
  str_of_Z n = ((if (n <? 0)%Z then "-" else "") ++ str_of_Z (Z.abs n))%string.
Proof. destruct n; reflexivity. Qed.

(** An integer value prints with [.0]. *)
Lemma format_1f_int (n : Z) :
  format_1f (FFin (inject_Z n)) = (str_of_Z n ++ ".0")%string.
Proof.
  unfold format_1f, inject_Z. cbn [Qnum Qden].
  rewrite round_half_even_unit.
  replace (10 * Z.abs n / 10)%Z with (Z.abs n)
    by (rewrite Z.mul_comm, Z.div_mul; lia).
  replace (10 * Z.abs n mod 10)%Z with 0%Z
    by (rewrite Z.mul_comm, Z.mod_mul; lia).
  rewrite (str_of_Z_signed n), string_app_assoc. reflexivity.
Qed.

(** The tenths a non-negative value is printed with lie within integer
    bounds of ten times the value. *)
Lemma format_1f_tenths (r : Q) (a b : Z) :
  0 <= r -> inject_Z a <= 10 * r -> 10 * r <= inject_Z b ->
  exists t, (a <= t <= b)%Z /\ format_1f (FFin r) = tenths t.
Proof.
  intros H0 Ha Hb.
  assert (0 <= Qnum r)%Z as Hn.
  { unfold Qle in H0. simpl in H0. lia. }
  exists (round_half_even (10 * Z.abs (Qnum r)) (Qden r)).
  rewrite Z.abs_eq by exact Hn. split.
  - split.
    + apply round_half_even_ge. unfold Qle, Qmult, inject_Z in Ha. simpl in Ha. lia.
    + apply round_half_even_le. unfold Qle, Qmult, inject_Z in Hb. simpl in Hb. lia.
  - unfold format_1f, tenths. rewrite Z.abs_eq by exact Hn.
    destruct (Qnum r <? 0)%Z eqn:E; [lia|]. reflexivity.
Qed.

End PyNumFacts.

(** ** Float arithmetic within the range of the doubles *)
Section FloatArithmeticFacts.
Import PyFloat Binary64 PyNum.
Local Open Scope Q_scope.

Lemma round_pos_nonneg (n d : positive) : 0 <= round_pos n d.
Proof.
  unfold round_pos. apply Qmult_le_0_compat; [|apply Qlt_le_weak, pow2_pos].
  change 0 with (inject_Z 0). rewrite <- inject_Z_le.
  apply nearest_ge. change (inject_Z 0) with 0.
  apply Qmult_le_0_compat; [|apply Qlt_le_weak, pow2_pos].
  unfold Qle. simpl. lia.
Qed.

(** Rounding keeps a number that is not below zero so. *)
Lemma round_nonneg (q : Q) : 0 <= q -> nonneg_float (round q).
Proof.
  intros Hq. unfold round. destruct q as [[|n|n] d]; cbn [Qnum Qden].
  - apply Qle_refl.
  - destruct (Qle_bool (2 ^ 1024) (round_pos n d)); [reflexivity|].
    cbn [nonneg_float]. rewrite Qred_correct. apply round_pos_nonneg.
  - exfalso. unfold Qle in Hq. simpl in Hq. lia.
Qed.

(** Rounding below a double that is no overflow gives a finite float
    below it. *)
Lemma round_finite_le (q hi : Q) :
  0 <= q -> q <= hi -> dyadic53 hi -> hi < 2 ^ 1024 ->
  exists r, round q = FFin r /\ 0 <= r /\ r <= hi.
Proof.
  intros Hq Hle (M & j & HM & Hj & Hhi) Hmax.
  unfold round. destruct q as [[|n|n] d]; cbn [Qnum Qden].
  - exists 0. split; [reflexivity|]. split; [apply Qle_refl|].
    eapply Qle_trans; [exact Hq|exact Hle].
  - assert (round_pos n d <= hi) as Hr.
    { rewrite Hhi. apply round_pos_le; auto. rewrite <- Hhi. exact Hle. }
    destruct (Qle_bool (2 ^ 1024) (round_pos n d)) eqn:E.
    + apply Qle_bool_iff in E. exfalso. apply (Qlt_irrefl hi).
      eapply Qlt_le_trans; [exact Hmax|]. eapply Qle_trans; eassumption.
    + exists (Qred (round_pos n d)). split; [reflexivity|].
      rewrite Qred_correct. split; [apply round_pos_nonneg|exact Hr].
  - exfalso. unfold Qle in Hq. simpl in Hq. lia.
Qed.

(** Rounding at or above a double gives a float at or above it. *)
Lemma round_ge (q lo : Q) :
  dyadic53 lo -> lo <= q ->
  round q = FInf false \/ exists r, round q = FFin r /\ lo <= r.
Proof.
  intros (M & j & HM & Hj & Hlo) Hle.
  assert (0 < lo) as Hpos.
  { rewrite Hlo. apply Qmult_lt_0_compat; [|apply pow2_pos].
    destruct HM as [HM0 _]. apply inject_Z_lt in HM0. exact HM0. }
  assert (0 < q) as Hq by (eapply Qlt_le_trans; eassumption).
  unfold round. destruct q as [[|n|n] d]; cbn [Qnum Qden];
    try (exfalso; unfold Qlt in Hq; simpl in Hq; lia).
  destruct (Qle_bool (2 ^ 1024) (round_pos n d)); [left; reflexivity|].
  right. exists (Qred (round_pos n d)). split; [reflexivity|].
  rewrite Qred_correct, Hlo. apply round_pos_ge; auto. rewrite <- Hlo. exact Hle.
Qed.

(** A number at least the least positive double in magnitude does not
    round to zero. *)
Lemma round_away_from_zero (q : Q) :
  2 ^ (-1074) <= q \/ q <= - 2 ^ (-1074) -> is_zero (round q) = false.
Proof.
  assert (dyadic53 (inject_Z 1 * 2 ^ (-1074))) as Hd
    by (apply dyadic53_scaled; lia).
  pose proof (pow2_pos (-1074)) as Ht.
  assert (forall x, 2 ^ (-1074) <= x ->
            round x = FInf false \/ exists r, round x = FFin r /\ 0 < r) as Hpos.
  { intros x Hx. destruct (round_ge x _ Hd) as [E|(r & E & Hr)].
    - rewrite Qmult_1_l. exact Hx.
    - left. exact E.
    - right. exists r. split; [exact E|]. rewrite Qmult_1_l in Hr.
      eapply Qlt_le_trans; eassumption. }
  intros [Hq|Hq].
  - destruct (Hpos q Hq) as [E|(r & E & Hr)]; rewrite E; [reflexivity|].
    cbn [is_zero]. destruct (Qeq_bool r 0) eqn:Ez; [|reflexivity].
    apply Qeq_bool_iff in Ez. rewrite Ez in Hr. discriminate.
  - assert (q < 0) as Hneg.
    { eapply Qle_lt_trans; [exact Hq|]. apply (Qopp_lt_compat 0), Ht. }
    destruct q as [[|n|n] d]; try (exfalso; unfold Qlt in Hneg; simpl in Hneg; lia).
    rewrite round_neg.
    destruct (Hpos (Z.pos n # d)) as [E|(r & E & Hr)].
    + apply Qopp_le_compat in Hq. rewrite Qopp_involutive in Hq. exact Hq.
    + rewrite E. reflexivity.
    + rewrite E. cbn [is_zero]. destruct (Qeq_bool (- r) 0) eqn:Ez; [|reflexivity].
      apply Qeq_bool_iff in Ez. exfalso. apply (Qlt_irrefl 0).
      eapply Qlt_le_trans; [exact Hr|]. rewrite <- (Qopp_involutive r), Ez. discriminate.
Qed.

Lemma pow2_lt (a b : Z) : (a < b)%Z -> 2 ^ a < 2 ^ b.
Proof.
  intros H. replace b with (a + (b - a))%Z by lia. rewrite pow2_plus.
  rewrite <- (Qmult_1_r (2 ^ a)) at 1.
  apply Qmult_lt_l; [apply pow2_pos|].
  apply Qlt_le_trans with (2 ^ 1); [reflexivity|]. apply pow2_le. lia.
Qed.

(** The powers of two that are doubles. *)
Lemma dyadic53_pow2 (k : Z) : (-1022 <= k)%Z -> dyadic53 (2 ^ k).
Proof.
  intros Hk. exists (2 ^ 52)%Z, (k - 52)%Z. repeat split; try lia.
  rewrite <- pow2_Z by lia. rewrite <- pow2_plus. replace (52 + (k - 52))%Z with k by lia.
  reflexivity.
Qed.

(** [float(z)] for an int from 0 to [2^1020]. *)
Lemma fl_nonneg (z : Z) :
  (0 <= z <= 2 ^ 1020)%Z ->
  exists q, fl z = FFin q /\ 0 <= q /\ q <= 2 ^ 1020 /\ ((1 <= z)%Z -> 1 <= q).
Proof.
  intros [H0 Hz]. unfold fl.
  destruct (round_finite_le (inject_Z z) (2 ^ 1020)) as (r & Hr & Hr0 & Hrh).
  - change 0 with (inject_Z 0). rewrite <- inject_Z_le. exact H0.
  - rewrite pow2_Z by lia. rewrite <- inject_Z_le. exact Hz.
  - apply dyadic53_pow2. lia.
  - apply pow2_lt. lia.
  - exists r. split; [exact Hr|]. split; [exact Hr0|]. split; [exact Hrh|].
    intros H1.
    destruct (round_ge (inject_Z z) (inject_Z 1)) as [E|(r' & E & Hr')].
    + apply dyadic53_int. lia.
    + rewrite <- inject_Z_le. exact H1.
    + congruence.
    + rewrite Hr in E. injection E as <-. exact Hr'.
Qed.

Lemma float_of_int_fl (z : Z) :
  (0 <= z <= 2 ^ 1020)%Z -> to_float (NInt z) = Ok (fl z).
Proof.
  intros Hz. destruct (fl_nonneg z Hz) as (q & E & _).
  cbn [to_float]. unfold float_of_int. fold (fl z). rewrite E. reflexivity.
Qed.

(** An int from [2^1024] on is no float. *)
Lemma float_of_int_overflow (z : Z) :
  (2 ^ 1024 <= z)%Z -> to_float (NInt z) = Raise OverflowError.
Proof.
  intros Hz. cbn [to_float]. unfold float_of_int.
  unfold round.
  assert (0 < z)%Z as Hpos by (pose proof (Z.pow_pos_nonneg 2 1024); lia).
  destruct z as [|n|n]; try lia. cbn [inject_Z Qnum Qden].
  assert (2 ^ 1024 <= round_pos n 1) as Hr.
  { destruct (dyadic53_pow2 1024 ltac:(lia)) as (M & j & HM & Hj & E).
    rewrite E. apply round_pos_ge; auto. rewrite <- E.
    rewrite pow2_Z by lia. change (Z.pos n # 1) with (inject_Z (Z.pos n)).
    rewrite <- inject_Z_le. exact Hz. }
  apply Qle_bool_iff in Hr. rewrite Hr. reflexivity.
Qed.

End FloatArithmeticFacts.

(** ** The phyllotaxis generator *)
Section PhyllotaxisFacts.
Import PyFloat Binary64 PyNum PointGenerator.
Local Open Scope Q_scope.
Variable libm_cos libm_sin : Q -> Q.

Abbreviation fcos := (fcos libm_cos).
Abbreviation fsin := (fsin libm_sin).
Abbreviation point_at := (point_at libm_cos libm_sin).
Abbreviation generate_phyllotaxis := (generate_phyllotaxis libm_cos libm_sin).
Abbreviation phyllotaxis_step := (phyllotaxis_step libm_cos libm_sin).

Lemma phi_value : phi = FFin (1955271225761131 # 562949953421312).
Proof. vm_compute. reflexivity. Qed.

Lemma golden_angle_value : golden_angle = Ok phi.
Proof. vm_compute. reflexivity. Qed.

Lemma float_div_ok (a b : pyfloat) :
  is_zero b = false -> float_div a b = Ok (quot a b).
Proof. intros Hb. unfold quot, float_div. rewrite Hb. reflexivity. Qed.

Lemma float_div_zero (a b : pyfloat) :
  is_zero b = true -> float_div a b = Raise ZeroDivisionError.
Proof. intros Hb. unfold float_div. rewrite Hb. reflexivity. Qed.

Lemma math_sqrt_ok (t : pyfloat) :
  nonneg_float t -> math_sqrt (NFloat t) = Ok (fsqrt t).
Proof.
  intros Ht. unfold fsqrt, math_sqrt. cbn [to_float rbind].
  destruct t as [q|neg|]; cbn [nonneg_float] in Ht.
  - replace (Qnum q <? 0)%Z with false; [reflexivity|].
    symmetry. apply Z.ltb_ge. unfold Qle in Ht. simpl in Ht. lia.
  - subst neg. reflexivity.
  - contradiction.
Qed.

Lemma is_zero_fin (q : Q) : ~ q == 0 -> is_zero (FFin q) = false.
Proof.
  intros Hq. cbn [is_zero]. destruct (Qeq_bool q 0) eqn:E; [|reflexivity].
  apply Qeq_bool_iff in E. contradiction.
Qed.

(** The ratio under the square root is not below zero. *)
Lemma ratio_nonneg (i n : Z) :
  (0 <= i <= 2 ^ 1020)%Z -> (1 <= n <= 2 ^ 1020)%Z ->
  to_float (NInt i) = Ok (fl i)
  /\ to_float (NInt n) = Ok (fl n)
  /\ is_zero (fl n) = false
  /\ nonneg_float (quot (float_add (fl i) (FFin (1 # 2))) (fl n)).
Proof.
  intros Hi Hn.
  split; [apply float_of_int_fl, Hi|].
  split; [apply float_of_int_fl; lia|].
  destruct (fl_nonneg i Hi) as (a & Ea & Ha0 & _).
  destruct (fl_nonneg n ltac:(lia)) as (b & Eb & _ & _ & Hb1).
  specialize (Hb1 ltac:(lia)).
  assert (0 < b) as Hb by (eapply Qlt_le_trans; [|exact Hb1]; reflexivity).
  rewrite Ea, Eb.
  assert (is_zero (FFin b) = false) as Hz.
  { apply is_zero_fin. intros E. rewrite E in Hb. discriminate. }
  split; [exact Hz|].
  unfold quot, float_div. rewrite Hz. cbn [value float_add].
  pose proof (round_nonneg (a + (1 # 2)) ltac:(Lqa.lra)) as Ht.
  destruct (round (a + (1 # 2))) as [t|neg|]; cbn [nonneg_float] in Ht;
    [|subst neg|contradiction].
  2:{ cbn [nonneg_float]. unfold is_negative.
      replace (Qnum b <? 0)%Z with false; [reflexivity|].
      symmetry. apply Z.ltb_ge. unfold Qlt in Hb. simpl in Hb. lia. }
  apply round_nonneg. apply Qle_shift_div_l; [exact Hb|]. rewrite Qmult_0_l. exact Ht.
Qed.

(** The angle is finite. *)
Lemma angle_finite (i : Z) :
  (0 <= i <= 2 ^ 1020)%Z -> exists a, float_mul (fl i) phi = FFin a.
Proof.
  intros Hi. destruct (fl_nonneg i Hi) as (a & Ea & Ha0 & Hah & _).
  rewrite Ea, phi_value. cbn [float_mul].
  destruct (round_finite_le (a * (1955271225761131 # 562949953421312))
              (inject_Z 1955271225761131 * 2 ^ 971)) as (r & Hr & _).
  - apply Qmult_le_0_compat; [exact Ha0|discriminate].
  - apply Qle_trans with (2 ^ 1020 * (1955271225761131 # 562949953421312)).
    + apply Qmult_le_compat_r; [exact Hah|discriminate].
    + apply Qle_lteq. right.
      change (1955271225761131 # 562949953421312)
        with (inject_Z 1955271225761131 * 2 ^ (-49)).
      replace 971%Z with (1020 + -49)%Z by lia. rewrite (pow2_plus 1020). ring.
  - apply dyadic53_scaled; lia.
  - apply below_overflow; lia.
  - exists r. exact Hr.
Qed.

Lemma value_ok (v : pyfloat) : value (Ok v) = v.
Proof. reflexivity. Qed.

(** What one turn of the loop comes to: the point is appended, unless
    the cosine of the latitude cannot be taken or the metres per degree
    of longitude are zero. *)
Lemma phyllotaxis_step_outcome lat0 lon0 n scale i points :
  (0 <= i <= 2 ^ 1020)%Z -> (1 <= n <= 2 ^ 1020)%Z ->
  phyllotaxis_step lat0 lon0 n scale phi i points =
  match math_radians lat0 with
  | FInf _ => Raise ValueError
  | _ =>
      if is_zero (metres_per_degree libm_cos lat0) then Raise ZeroDivisionError
      else Ok (points ++ [point_at lat0 lon0 n scale i])
  end.
Proof.
  intros Hi Hn. unfold phyllotaxis_step, mul, add.
  destruct (ratio_nonneg i n Hi Hn) as (Efi & Efn & Hzn & Hratio).
  destruct (angle_finite i Hi) as (a & Ea).
  rewrite Efi. cbn [to_float rbind].
  unfold truediv at 1. cbn [to_float rbind]. change (float_of_int n) with (to_float (NInt n)).
  rewrite Efn. cbn [rbind]. rewrite (float_div_ok _ _ Hzn). cbn [rbind].
  rewrite (math_sqrt_ok _ Hratio). cbn [rbind].
  assert (math_cos libm_cos (float_mul (fl i) phi) = Ok (fcos (float_mul (fl i) phi))) as Ec
    by (rewrite Ea; reflexivity).
  assert (math_sin libm_sin (float_mul (fl i) phi) = Ok (fsin (float_mul (fl i) phi))) as Es
    by (rewrite Ea; reflexivity).
  rewrite Ec. cbn [rbind]. rewrite Es. cbn [rbind].
  unfold truediv at 1. cbn [to_float rbind].
  rewrite (float_of_int_exact 111320) by lia. cbn [rbind].
  change (FFin (inject_Z 111320)) with (fl 111320).
  rewrite (float_div_ok _ (fl 111320)) by reflexivity. cbn [rbind].
  unfold metres_per_degree, point_at.
  destruct (math_radians lat0) as [r|neg|] eqn:Erad.
  - cbn [math_cos rbind]. unfold truediv. cbn [to_float rbind].
    change (fcos (FFin r)) with (FFin (libm_cos r)).
    destruct (is_zero (float_mul (fl 111320) (FFin (libm_cos r)))) eqn:Ez.
    + rewrite (float_div_zero _ _ Ez). reflexivity.
    + rewrite (float_div_ok _ _ Ez). reflexivity.
  - reflexivity.
  - reflexivity.
Qed.

Lemma for_each_steps lat0 lon0 n scale (ixs : list Z) : forall points,
  (1 <= n <= 2 ^ 1020)%Z -> Forall (fun i => 0 <= i <= 2 ^ 1020)%Z ixs ->
  for_each ixs (phyllotaxis_step lat0 lon0 n scale phi) points =
  match ixs, math_radians lat0 with
  | [], _ => Ok points
  | _ :: _, FInf _ => Raise ValueError
  | _ :: _, _ =>
      if is_zero (metres_per_degree libm_cos lat0) then Raise ZeroDivisionError
      else Ok (points ++ map (point_at lat0 lon0 n scale) ixs)
  end.
Proof.
  induction ixs as [|i ixs IH]; intros points Hn Hall; [reflexivity|].
  inversion Hall as [|? ? Hi Hrest]; subst. cbn [for_each].
  rewrite (phyllotaxis_step_outcome _ _ _ _ _ _ Hi Hn).
  destruct (math_radians lat0) as [r|neg|] eqn:Erad; [|reflexivity|].
  - destruct (is_zero (metres_per_degree libm_cos lat0)) eqn:Ez; [reflexivity|].
    cbn [rbind]. rewrite (IH _ Hn Hrest).
    destruct ixs as [|j ixs']; [reflexivity|].
    rewrite <- app_assoc. reflexivity.
  - destruct (is_zero (metres_per_degree libm_cos lat0)) eqn:Ez; [reflexivity|].
    cbn [rbind]. rewrite (IH _ Hn Hrest).
    destruct ixs as [|j ixs']; [reflexivity|].
    rewrite <- app_assoc. reflexivity.
Qed.

Lemma range_length n : length (range n) = Z.to_nat n.
Proof. unfold range. rewrite length_map, length_seq. reflexivity. Qed.

Lemma range_empty n : (n <= 0)%Z -> range n = [].
Proof. intros Hn. unfold range. replace (Z.to_nat n) with 0%nat by lia. reflexivity. Qed.

Lemma range_first n : (1 <= n)%Z -> exists rest, range n = 0%Z :: rest.
Proof.
  intros Hn. unfold range. destruct (Z.to_nat n) as [|k] eqn:E; [lia|].
  simpl. eexists. reflexivity.
Qed.

Lemma range_below n : Forall (fun i => 0 <= i < n)%Z (range n).
Proof.
  unfold range. apply List.Forall_forall. intros i Hi.
  apply in_map_iff in Hi as (k & <- & Hk). apply in_seq in Hk. lia.
Qed.

(** The outcome of a call for [1 <= n <= 2^1020]. *)
Lemma generate_phyllotaxis_outcome lat0 lon0 n scale :
  (1 <= n <= 2 ^ 1020)%Z ->
  generate_phyllotaxis lat0 lon0 n scale =
  match math_radians lat0 with
  | FInf _ => Raise ValueError
  | _ =>
      if is_zero (metres_per_degree libm_cos lat0) then Raise ZeroDivisionError
      else Ok (map (point_at lat0 lon0 n scale) (range n))
  end.
Proof.
  intros Hn. unfold PointGenerator.generate_phyllotaxis.
  rewrite golden_angle_value. cbn [rbind].
  rewrite for_each_steps; [|exact Hn|].
  - destruct (range_first n ltac:(lia)) as (rest & E). rewrite E. reflexivity.
  - eapply List.Forall_impl; [|apply range_below]. simpl. intros i Hi. lia.
Qed.

(** A float in the range of the doubles has finite radians. *)
Lemma radians_finite (q : Q) :
  - 2 ^ 1024 < q -> q < 2 ^ 1024 -> exists r, math_radians (FFin q) = FFin r.
Proof.
  intros Hlo Hhi. unfold math_radians.
  change deg_to_rad with (FFin (5030569068109113 # 288230376151711744)).
  cbn [float_mul].
  set (c := 5030569068109113 # 288230376151711744).
  assert (forall x, 0 <= x -> x < 2 ^ 1024 -> exists r, round (x * c) = FFin r) as Hpos.
  { intros x Hx0 Hx.
    destruct (round_finite_le (x * c) (inject_Z 5030569068109113 * 2 ^ 966))
      as (r & Hr & _).
    - apply Qmult_le_0_compat; [exact Hx0|discriminate].
    - apply Qle_trans with (2 ^ 1024 * c).
      + apply Qmult_le_compat_r; [apply Qlt_le_weak, Hx|discriminate].
      + apply Qle_lteq. right. unfold c.
        change (5030569068109113 # 288230376151711744)
          with (inject_Z 5030569068109113 * 2 ^ (-58)).
        replace 966%Z with (1024 + -58)%Z by lia. rewrite (pow2_plus 1024). ring.
    - apply dyadic53_scaled; lia.
    - apply below_overflow; lia.
    - exists r. exact Hr. }
  destruct (Qlt_le_dec q 0) as [Hneg|Hnn]; [|apply Hpos; assumption].
  destruct (Hpos (- q)) as (r & Hr).
  - Lqa.lra.
  - Lqa.lra.
  - destruct q as [[|n|n] d]; try (exfalso; unfold Qlt in Hneg; simpl in Hneg; lia).
    change ((Z.neg n # d) * c)
      with (Z.neg (n * 5030569068109113) # (d * 288230376151711744)).
    change (- (Z.neg n # d) * c)
      with (Z.pos (n * 5030569068109113) # (d * 288230376151711744)) in Hr.
    rewrite round_neg, Hr. eexists. reflexivity.
Qed.

(** A latitude whose radians are finite is admissible as soon as the
    platform's cosine of them is at least the least positive double in
    magnitude, which every double but zero is. *)
Lemma nonzero_cosine_ok lat0 r :
  math_radians lat0 = FFin r ->
  2 ^ (-1074) <= libm_cos r \/ libm_cos r <= - 2 ^ (-1074) ->
  latitude_ok libm_cos lat0.
Proof.
  intros Hrad Hc. unfold latitude_ok, metres_per_degree. rewrite Hrad.
  change (fcos (FFin r)) with (FFin (libm_cos r)).
  unfold fl. rewrite round_int by lia. cbn [float_mul].
  apply round_away_from_zero.
  pose proof (pow2_pos (-1074)) as Ht.
  change (inject_Z 111320) with (111320 # 1).
  set (t := 2 ^ (-1074)) in *. set (c := libm_cos r) in *.
  destruct Hc as [Hc|Hc]; [left|right]; Lqa.lra.
Qed.

(** From [2^1024] points on the first turn of the loop fails: the
    number of points is no float. *)
Lemma too_many_points lat0 lon0 n scale :
  (2 ^ 1024 <= n)%Z ->
  generate_phyllotaxis lat0 lon0 n scale = Raise OverflowError.
Proof.
  intros Hn. unfold PointGenerator.generate_phyllotaxis.
  rewrite golden_angle_value. cbn [rbind].
  assert (1 <= n)%Z as H1 by (pose proof (Z.pow_pos_nonneg 2 1024); lia).
  destruct (range_first n H1) as (rest & E). rewrite E. cbn [for_each].
  unfold PointGenerator.phyllotaxis_step, mul, add.
  rewrite (float_of_int_fl 0) by lia. cbn [rbind to_float].
  unfold truediv. cbn [to_float rbind].
  change (float_of_int n) with (to_float (NInt n)).
  rewrite (float_of_int_overflow n Hn). reflexivity.
Qed.

(** C1 (amended), in float arithmetic, [cos] and [sin] being the
    platform's.  For [n <= 2^1020] and a latitude that is NaN or has
    finite radians and non-zero metres per degree of longitude, the call
    returns exactly [max(n, 0)] pairs, the [i]-th being the point of the
    claim; for [n <= 0] it returns the empty list whatever the other
    arguments are; every latitude in the range of the doubles has finite
    radians, and NaN is an admissible latitude.  For
    [1 <= n <= 2^1020] the call raises ValueError at an infinite
    latitude and ZeroDivisionError when the metres per degree of
    longitude are zero; from [n = 2^1024] on it raises OverflowError.
    The metres per degree of longitude are not zero as soon as the
    platform's cosine of the latitude is not: a latitude with finite
    radians is admissible whenever that cosine is at least the least
    positive double in magnitude.  (Memory is not modelled.) *)
Theorem generate_phyllotaxis_spec :
  (forall lat0 lon0 scale n,
      (n <= 2 ^ 1020)%Z -> latitude_ok libm_cos lat0 ->
      generate_phyllotaxis lat0 lon0 n scale =
      Ok (map (point_at lat0 lon0 n scale) (range n))
      /\ length (map (point_at lat0 lon0 n scale) (range n)) = Z.to_nat n)
  /\ (forall lat0 lon0 scale n,
        (n <= 0)%Z -> generate_phyllotaxis lat0 lon0 n scale = Ok [])
  /\ (forall q, - 2 ^ 1024 < q -> q < 2 ^ 1024 ->
        exists r, math_radians (FFin q) = FFin r)
  /\ latitude_ok libm_cos FNaN
  /\ (forall neg lon0 scale n,
        (1 <= n <= 2 ^ 1020)%Z ->
        generate_phyllotaxis (FInf neg) lon0 n scale = Raise ValueError)
  /\ (forall lat0 lon0 scale n,
        (1 <= n <= 2 ^ 1020)%Z ->
        is_zero (metres_per_degree libm_cos lat0) = true ->
        generate_phyllotaxis lat0 lon0 n scale = Raise ZeroDivisionError)
  /\ (forall lat0 lon0 scale n,
        (2 ^ 1024 <= n)%Z ->
        generate_phyllotaxis lat0 lon0 n scale = Raise OverflowError)
  /\ (forall lat0 r,
        math_radians lat0 = FFin r ->
        2 ^ (-1074) <= libm_cos r \/ libm_cos r <= - 2 ^ (-1074) ->
        latitude_ok libm_cos lat0).
Proof.
  assert (forall lat0 lon0 scale n,
             (n <= 0)%Z -> generate_phyllotaxis lat0 lon0 n scale = Ok []) as Hempty.
  { intros lat0 lon0 scale n Hn. unfold PointGenerator.generate_phyllotaxis.
    rewrite golden_angle_value, (range_empty n Hn). reflexivity. }
  split; [|split; [exact Hempty|split; [exact radians_finite|split; [exact I|
    split; [|split; [|split; [|exact nonzero_cosine_ok]]]]]]].
  - intros lat0 lon0 scale n Hn Hlat.
    split; [|rewrite length_map; apply range_length].
    destruct (Z_le_gt_dec n 0) as [H0|H0].
    + rewrite (Hempty _ _ _ _ H0), (range_empty n H0). reflexivity.
    + rewrite generate_phyllotaxis_outcome by lia.
      unfold latitude_ok in Hlat.
      destruct (math_radians lat0) as [r|neg|] eqn:Erad; [|contradiction|].
      * rewrite Hlat. reflexivity.
      * replace (is_zero (metres_per_degree libm_cos lat0)) with false; [reflexivity|].
        unfold metres_per_degree. rewrite Erad. reflexivity.
  - intros neg lon0 scale n Hn. rewrite generate_phyllotaxis_outcome by exact Hn.
    destruct neg; reflexivity.
  - intros lat0 lon0 scale n Hn Hz. rewrite generate_phyllotaxis_outcome by exact Hn.
    rewrite Hz. destruct (math_radians lat0) as [r|neg|] eqn:Erad; try reflexivity.
    exfalso. unfold metres_per_degree in Hz. rewrite Erad in Hz. discriminate.
  - intros lat0 lon0 scale n Hn. apply too_many_points, Hn.
Qed.

End PhyllotaxisFacts.

(** X27: the arithmetic at concrete arguments, [cos] and [sin] being
    glibc's: [math.sqrt(5)] is [2.23606797749979] and [math.sqrt(0.5)]
    is [0.7071067811865476]; the golden angle of line 25 is
    [3.4732594147632962]; [math.radians(90.0)] is [1.5707963267948966];
    [generate_phyllotaxis(90.0, 0.0, 1, 1.0)] returns
    [[(90.0, 103736346495.01485)]], the cosine at the pole being
    [6.123233995736766e-17] and not zero; and
    [generate_phyllotaxis(45.0, 10.0, 3, 1000.0)] returns
    [[(45.0, 10.005186401986972),
      (44.997931659281384, 9.991506459510028),
      (45.00504938413802, 10.009137902795818)]]. *)
Example float_arithmetic_examples :
  Binary64.sqrt 5 = PyFloat.FFin (629397181890197 # 281474976710656)
  /\ Binary64.sqrt (1 # 2) = PyFloat.FFin (6369051672525773 # 9007199254740992)
  /\ phi = PyFloat.FFin (1955271225761131 # 562949953421312)
  /\ PointGenerator.math_radians (PyFloat.FFin 90)
     = PyFloat.FFin (884279719003555 # 562949953421312)
  /\ PointGenerator.generate_phyllotaxis LibmDemo.demo_cos LibmDemo.demo_sin
       (PyFloat.FFin 90) (PyFloat.FFin 0) 1 (PyFloat.FFin 1)
     = PyNum.Ok [(PyFloat.FFin 90, PyFloat.FFin (6798465203897293 # 65536))]
  /\ PointGenerator.generate_phyllotaxis LibmDemo.demo_cos LibmDemo.demo_sin
       (PyFloat.FFin 45) (PyFloat.FFin 10) 3 (PyFloat.FFin 1000)
     = PyNum.Ok
         [(PyFloat.FFin 45, PyFloat.FFin (2816209609485055 # 281474976710656));
          (PyFloat.FFin (6332895882911959 # 140737488355328),
           PyFloat.FFin (1406179523997477 # 140737488355328));
          (PyFloat.FFin (3166948806815543 # 70368744177664),
           PyFloat.FFin (2817321858083197 # 281474976710656))].
Proof. vm_compute. repeat split. Qed.

(** C1, counterexample: [generate_phyllotaxis(float('inf'), 0.0, 1, 1.0)]
    raises ValueError, from [math.cos] of an infinity (which the
    platform's [cos] is never asked for). *)
Lemma generate_phyllotaxis_infinite_latitude :
  PointGenerator.generate_phyllotaxis LibmDemo.demo_cos LibmDemo.demo_sin
    (PyFloat.FInf false) (PyFloat.FFin 0) 1 (PyFloat.FFin 1)
  = PyNum.Raise PyNum.ValueError.
Proof. rewrite generate_phyllotaxis_outcome by lia. reflexivity. Qed.

(** C1, witness: the theorem's first part at the pole, where the cosine
    glibc returns is [6.123233995736766e-17]. *)
Lemma generate_phyllotaxis_spec_witness :
  (1 <= 2 ^ 1020)%Z
  /\ latitude_ok LibmDemo.demo_cos (PyFloat.FFin 90)
  /\ PointGenerator.generate_phyllotaxis LibmDemo.demo_cos LibmDemo.demo_sin
       (PyFloat.FFin 90) (PyFloat.FFin 0) 1 (PyFloat.FFin 1)
     = PyNum.Ok (map (point_at LibmDemo.demo_cos LibmDemo.demo_sin
                        (PyFloat.FFin 90) (PyFloat.FFin 0) 1 (PyFloat.FFin 1))
                   (PointGenerator.range 1))
  /\ length (map (point_at LibmDemo.demo_cos LibmDemo.demo_sin
                    (PyFloat.FFin 90) (PyFloat.FFin 0) 1 (PyFloat.FFin 1))
               (PointGenerator.range 1)) = 1%nat.
Proof.
  assert (latitude_ok LibmDemo.demo_cos (PyFloat.FFin 90)) as Hlat
    by (vm_compute; reflexivity).
  split; [lia|]. split; [exact Hlat|].
  exact (proj1 (generate_phyllotaxis_spec LibmDemo.demo_cos LibmDemo.demo_sin)
           (PyFloat.FFin 90) (PyFloat.FFin 0) (PyFloat.FFin 1) 1%Z ltac:(lia) Hlat).
Defined.

Section ReceiverPointsFacts.
Import PyFloat PyNum PointGenerator GeoJSON GenerateReceiverPoints.
Variable libm_cos libm_sin : Q -> Q.

Lemma generate_geojson_features (points : list (pyfloat * pyfloat)) :
  features (generate_geojson points) =
  map (fun p => {| geom := Point (snd p) (fst p); properties := [] |}) points.
Proof.
  unfold generate_geojson. cbn [features].
  enough (forall acc : list (Feature pyfloat),
             fold_left
               (fun features (point : pyfloat * pyfloat) =>
                  let (lat, lon) := point in
                  let feature := {| geom := Point lon lat; properties := [] |} in
                  features ++ [feature]) points acc
             = acc ++ map (fun p => {| geom := Point (snd p) (fst p);
                                       properties := [] |}) points) as Hfold
    by apply (Hfold []).
  induction points as [|[lat lon] points IH]; intros acc; simpl.
  - rewrite app_nil_r. reflexivity.
  - rewrite IH, <- app_assoc. reflexivity.
Qed.

(** A turn of the loop that does not raise appends one point. *)
Lemma phyllotaxis_step_appends lat0 lon0 n scale golden i points points' :
  phyllotaxis_step libm_cos libm_sin lat0 lon0 n scale golden i points = Ok points' ->
  length points' = S (length points).
Proof.
  unfold phyllotaxis_step. intros E.
  repeat match type of E with
         | rbind ?r _ = Ok _ => destruct r; cbn [rbind] in E; [|discriminate]
         end.
  injection E as <-. rewrite length_app. simpl. lia.
Qed.

Lemma for_each_appends lat0 lon0 n scale golden (ixs : list Z) : forall points points',
  for_each ixs (phyllotaxis_step libm_cos libm_sin lat0 lon0 n scale golden) points
  = Ok points' ->
  length points' = (length points + length ixs)%nat.
Proof.
  induction ixs as [|i ixs IH]; intros points points' E; simpl in E.
  - injection E as <-. simpl. lia.
  - destruct (phyllotaxis_step libm_cos libm_sin lat0 lon0 n scale golden i points)
      as [points1|e] eqn:E1; cbn [rbind] in E; [|discriminate].
    apply IH in E. apply phyllotaxis_step_appends in E1. simpl. lia.
Qed.

(** Whatever the arguments, a call that returns returns [max(n, 0)]
    points. *)
Lemma generate_phyllotaxis_length lat0 lon0 n scale points :
  generate_phyllotaxis libm_cos libm_sin lat0 lon0 n scale = Ok points ->
  length points = Z.to_nat n.
Proof.
  unfold generate_phyllotaxis. intros E.
  destruct golden_angle as [golden|e]; cbn [rbind] in E; [|discriminate].
  apply for_each_appends in E. rewrite E, range_length. reflexivity.
Qed.

(** X8: under [--geojson] the script turns the points the generator
    returns into one point feature each, in order and with empty
    properties, the coordinates swapped from the generator's (lat, lon)
    to GeoJSON's [lon, lat], so the collection holds [max(n, 0)]
    features; and it raises what the generator raises. *)
Theorem points_as_geojson_features lat0 lon0 (n : Z) scale :
  match generate_phyllotaxis libm_cos libm_sin lat0 lon0 n scale with
  | Ok points =>
      exists fc,
        points_as_geojson libm_cos libm_sin lat0 lon0 n scale = Ok fc
        /\ features fc =
           map (fun point => {| geom := Point (snd point) (fst point);
                                properties := [] |}) points
        /\ length (features fc) = Z.to_nat n
  | Raise e => points_as_geojson libm_cos libm_sin lat0 lon0 n scale = Raise e
  end.
Proof.
  unfold points_as_geojson.
  destruct (generate_phyllotaxis libm_cos libm_sin lat0 lon0 n scale)
    as [points|e] eqn:E; cbn [rbind]; [|reflexivity].
  eexists. split; [reflexivity|].
  rewrite generate_geojson_features. split; [reflexivity|].
  rewrite length_map. apply (generate_phyllotaxis_length _ _ _ _ _ E).
Qed.

End ReceiverPointsFacts.

Section FormatFacts.
Import PyFloat Binary64 PyNum Logging.
Local Open Scope Q_scope.

Lemma flt_int (a b : Z) : flt (FFin (inject_Z a)) (FFin (inject_Z b)) = (a <? b)%Z.
Proof.
  destruct (a <? b)%Z eqn:E.
  - apply flt_fin. rewrite <- inject_Z_lt. lia.
  - apply flt_fin_false. rewrite <- inject_Z_le. lia.
Qed.

Lemma pow1024 (k : nat) : inject_Z (1024 ^ Z.of_nat k) == 2 ^ (10 * Z.of_nat k).
Proof.
  rewrite pow2_Z by lia. change 1024%Z with (2 ^ 10)%Z.
  rewrite <- Z.pow_mul_r by lia. reflexivity.
Qed.

Lemma scaled_eq (n : Z) (k : nat) :
  scaled n k == inject_Z n * 2 ^ (- (10 * Z.of_nat k)).
Proof.
  unfold scaled. rewrite Qred_correct, pow1024. unfold Qdiv.
  rewrite Qpower_opp. reflexivity.
Qed.

Lemma scaled_zero (n : Z) : scaled n 0 = inject_Z n.
Proof.
  unfold scaled. transitivity (Qred (inject_Z n)); [|apply Qred_inject_Z].
  apply Qred_complete.
  change (inject_Z (1024 ^ Z.of_nat 0)) with 1. unfold Qdiv.
  change (/ 1) with 1. apply Qmult_1_r.
Qed.

Lemma scaled_below_1024 (n : Z) (k : nat) :
  flt (FFin (scaled n k)) (FFin 1024) = (n <? 1024 ^ (Z.of_nat k + 1))%Z.
Proof.
  assert (scaled n k < 1024 <-> (n < 1024 ^ (Z.of_nat k + 1))%Z) as H.
  { rewrite scaled_eq, inject_Z_lt.
    rewrite Z.pow_add_r, Z.pow_1_r, inject_Z_mult, pow1024 by lia.
    pose proof (pow2_pos (10 * Z.of_nat k)) as Hp.
    pose proof (pow2_cancel (10 * Z.of_nat k)) as Hc.
    rewrite <- (Qmult_lt_r _ _ (2 ^ (10 * Z.of_nat k))) by exact Hp.
    rewrite <- Qmult_assoc, (Qmult_comm (2 ^ (- _))), Hc, Qmult_1_r.
    rewrite (Qmult_comm 1024). reflexivity. }
  destruct (n <? 1024 ^ (Z.of_nat k + 1))%Z eqn:E.
  - apply flt_fin, H. lia.
  - apply flt_fin_false. apply Qnot_lt_le. intros Hlt. apply H in Hlt. lia.
Qed.

(** Dividing a size by 1024 is exact. *)
Lemma div_by_1024 (n : Z) (q : Q) (k : nat) :
  (0 < n < 2 ^ 53)%Z -> (k < 100)%nat ->
  q == inject_Z n / inject_Z (1024 ^ Z.of_nat k) ->
  float_div (FFin q) (FFin 1024) = Ok (FFin (scaled n (S k))).
Proof.
  intros Hn Hk Hq. unfold float_div. cbn [is_zero].
  change (Qeq_bool 1024 0) with false. cbv iota.
  assert (q / 1024 == inject_Z n * 2 ^ (- (10 * Z.of_nat (S k)))) as Hs.
  { rewrite Hq, pow1024. unfold Qdiv. rewrite <- Qpower_opp.
    change (/ 1024) with (2 ^ (- 10)). rewrite <- Qmult_assoc, <- pow2_plus.
    replace (- (10 * Z.of_nat k) + - 10)%Z with (- (10 * Z.of_nat (S k)))%Z by lia.
    reflexivity. }
  rewrite round_exact.
  - do 2 f_equal. apply Qred_complete. rewrite Hs, <- scaled_eq.
    unfold scaled. rewrite Qred_correct. reflexivity.
  - exists n, (- (10 * Z.of_nat (S k)))%Z. repeat split; try lia. exact Hs.
  - rewrite Hs. apply below_overflow; lia.
Qed.

(** X16: for an int size below 1024 (and above [-2^53]), a negative one
    included, [format_bytes] prints the number itself with [.0] and the
    unit B. *)
Theorem format_bytes_below_1024 (n : Z) :
  (- 2 ^ 53 < n < 1024)%Z ->
  format_bytes (NInt n) = Ok (str_of_Z n ++ ".0 B")%string.
Proof.
  intros Hn. unfold format_bytes, format_bytes_loop, num_lt, exact.
  change (FFin 1024) with (FFin (inject_Z 1024)). rewrite flt_int.
  replace (n <? 1024)%Z with true by lia.
  unfold format_num_1f, to_float. rewrite float_of_int_exact by lia.
  cbn [rbind]. rewrite format_1f_int, string_app_assoc. reflexivity.
Qed.

(** X16, witness: a size of -5. *)
Lemma format_bytes_below_1024_witness :
  (- 2 ^ 53 < -5 < 1024)%Z /\ format_bytes (NInt (-5)) = Ok "-5.0 B"%string.
Proof. split; [lia|apply (format_bytes_below_1024 (-5)); lia]. Defined.

(** X17: for an int size from 0 to below [2^53], [format_bytes] divides by
    1024 exactly, once per unit passed, and prints the quotient
    [n / 1024^k] to one decimal place with the unit of index [k]: B
    below 1024, then KB, MB, GB, and TB for every size from [1024^4]
    on. *)
Theorem format_bytes_unit (n : Z) :
  (0 <= n < 2 ^ 53)%Z ->
  format_bytes (NInt n) =
  Ok (format_1f (FFin (scaled n (unit_index n))) ++ " " ++ unit_name (unit_index n))%string.
Proof.
  intros Hn. unfold format_bytes, unit_index.
  cbn [format_bytes_loop]. unfold num_lt at 1. cbn [exact].
  change (FFin 1024) with (FFin (inject_Z 1024)) at 1. rewrite flt_int.
  destruct (n <? 1024)%Z eqn:E0.
  { unfold format_num_1f, to_float. rewrite float_of_int_exact by lia.
    cbn [rbind]. rewrite scaled_zero. reflexivity. }
  assert (0 < n < 2 ^ 53)%Z as Hpos by lia.
  unfold truediv at 1, to_float. rewrite float_of_int_exact by lia.
  cbn [rbind].
  rewrite (div_by_1024 n (inject_Z n) 0 Hpos ltac:(lia))
    by (change (inject_Z (1024 ^ Z.of_nat 0)) with 1; unfold Qdiv;
        change (/ 1) with 1; rewrite Qmult_1_r; reflexivity).
  cbn [rbind]. unfold num_lt at 1. cbn [exact]. rewrite scaled_below_1024.
  change (1024 ^ (Z.of_nat 1 + 1))%Z with (1024 ^ 2)%Z.
  destruct (n <? 1024 ^ 2)%Z eqn:E1; [reflexivity|].
  unfold truediv at 1. cbn [to_float rbind].
  rewrite (div_by_1024 n (scaled n 1) 1 Hpos ltac:(lia))
    by (unfold scaled; rewrite Qred_correct; reflexivity).
  cbn [rbind]. unfold num_lt at 1. cbn [exact]. rewrite scaled_below_1024.
  change (1024 ^ (Z.of_nat 2 + 1))%Z with (1024 ^ 3)%Z.
  destruct (n <? 1024 ^ 3)%Z eqn:E2; [reflexivity|].
  unfold truediv at 1. cbn [to_float rbind].
  rewrite (div_by_1024 n (scaled n 2) 2 Hpos ltac:(lia))
    by (unfold scaled; rewrite Qred_correct; reflexivity).
  cbn [rbind]. unfold num_lt at 1. cbn [exact]. rewrite scaled_below_1024.
  change (1024 ^ (Z.of_nat 3 + 1))%Z with (1024 ^ 4)%Z.
  destruct (n <? 1024 ^ 4)%Z eqn:E3; [reflexivity|].
  unfold truediv at 1. cbn [to_float rbind].
  rewrite (div_by_1024 n (scaled n 3) 3 Hpos ltac:(lia))
    by (unfold scaled; rewrite Qred_correct; reflexivity).
  reflexivity.
Qed.

(** X17, witness: a size of 1536, one and a half KB. *)
Lemma format_bytes_unit_witness :
  (0 <= 1536 < 2 ^ 53)%Z /\ format_bytes (NInt 1536) = Ok "1.5 KB"%string.
Proof. split; [lia|apply (format_bytes_unit 1536); lia]. Defined.

Lemma sixty : float_of_int 60 = Ok (FFin 60).
Proof. apply (float_of_int_exact 60). lia. Qed.

Lemma an_hour : float_of_int 3600 = Ok (FFin 3600).
Proof. apply (float_of_int_exact 3600). lia. Qed.

(** X18: [format_duration] on a float chooses the unit by the thresholds
    60 and 3600: below 60 the seconds themselves are printed; from 60 to
    below 3600 the minutes, a number from 1.0 to 60.0; from 3600 on the
    hours, a number from 1.0 up; NaN is given in hours and minus
    infinity in seconds. *)
Theorem format_duration_units :
  (forall q, q < 60 ->
     format_duration (NFloat (FFin q)) = Ok (format_1f (FFin q) ++ "s")%string)
  /\ (forall q, 60 <= q -> q < 3600 ->
        exists t, (10 <= t <= 600)%Z
          /\ format_duration (NFloat (FFin q)) = Ok (tenths t ++ "m")%string)
  /\ (forall q, 3600 <= q -> q < 2 ^ 1024 ->
        exists t, (10 <= t)%Z
          /\ format_duration (NFloat (FFin q)) = Ok (tenths t ++ "h")%string)
  /\ format_duration (NFloat FNaN) = Ok "nanh"%string
  /\ format_duration (NFloat (FInf false)) = Ok "infh"%string
  /\ format_duration (NFloat (FInf true)) = Ok "-infs"%string.
Proof.
  split; [|split; [|split; [|repeat split]]].
  - intros q Hq. unfold format_duration, num_lt. cbn [exact].
    change (FFin (inject_Z 60)) with (FFin 60).
    rewrite (proj2 (flt_fin q 60) Hq). reflexivity.
  - intros q Hlo Hhi. unfold format_duration, num_lt. cbn [exact].
    change (FFin (inject_Z 60)) with (FFin 60).
    change (FFin (inject_Z 3600)) with (FFin 3600).
    rewrite (proj2 (flt_fin_false q 60) Hlo), (proj2 (flt_fin q 3600) Hhi).
    unfold truediv. cbn [to_float rbind]. rewrite sixty. cbn [rbind].
    unfold float_div. cbn [is_zero]. change (Qeq_bool 60 0) with false. cbv iota.
    destruct (round_between (q / 60) (inject_Z 1) (inject_Z 60))
      as (r & Hr & Hr1 & Hr2).
    + apply dyadic53_int. lia.
    + apply dyadic53_int. lia.
    + reflexivity.
    + apply Qle_shift_div_l; [reflexivity|]. exact Hlo.
    + apply Qle_shift_div_r; [reflexivity|]. apply Qlt_le_weak.
      eapply Qlt_le_trans; [exact Hhi|]. discriminate.
    + rewrite Hr. cbn [rbind].
      destruct (format_1f_tenths r 10 600) as (t & Ht & Hf).
      * eapply Qle_trans; [|exact Hr1]. discriminate.
      * change (inject_Z 10) with (10 * inject_Z 1).
        apply Qmult_le_l; [reflexivity|exact Hr1].
      * change (inject_Z 600) with (10 * inject_Z 60).
        apply Qmult_le_l; [reflexivity|exact Hr2].
      * exists t. split; [exact Ht|]. rewrite Hf. reflexivity.
  - intros q Hlo Hmax. unfold format_duration, num_lt. cbn [exact].
    change (FFin (inject_Z 60)) with (FFin 60).
    change (FFin (inject_Z 3600)) with (FFin 3600).
    rewrite (proj2 (flt_fin_false q 3600) Hlo).
    assert (60 <= q) as H60 by (eapply Qle_trans; [|exact Hlo]; discriminate).
    rewrite (proj2 (flt_fin_false q 60) H60).
    unfold truediv. cbn [to_float rbind]. rewrite an_hour. cbn [rbind].
    unfold float_div. cbn [is_zero]. change (Qeq_bool 3600 0) with false. cbv iota.
    destruct (round_between (q / 3600) (inject_Z 1) (inject_Z 1 * 2 ^ 1023))
      as (r & Hr & Hr1 & Hr2).
    + apply dyadic53_int. lia.
    + apply dyadic53_scaled; lia.
    + apply (Qlt_le_trans _ (inject_Z 2 * 2 ^ 1023)); [reflexivity|].
      rewrite <- pow2_succ. apply Qle_refl.
    + apply Qle_shift_div_l; [reflexivity|]. exact Hlo.
    + apply Qle_shift_div_r; [reflexivity|]. apply Qlt_le_weak.
      eapply Qlt_le_trans; [exact Hmax|].
      rewrite (pow2_succ 1023). 
      apply (Qle_trans _ (inject_Z 1 * 2 ^ 1023 * 2)); [|].
      { rewrite Qmult_1_l, Qmult_comm. apply Qle_refl. }
      apply Qmult_le_l; [apply Qmult_lt_0_compat; [reflexivity|apply pow2_pos]|].
      discriminate.
    + rewrite Hr. cbn [rbind].
      assert (0 <= r) as H0 by (eapply Qle_trans; [|exact Hr1]; discriminate).
      assert (0 <= Qnum r)%Z as Hn by (unfold Qle in H0; simpl in H0; lia).
      exists (round_half_even (10 * Z.abs (Qnum r)) (Qden r)). split.
      * apply round_half_even_ge. rewrite Z.abs_eq by exact Hn.
        unfold Qle, inject_Z in Hr1. simpl in Hr1. lia.
      * unfold format_1f, tenths.
        destruct (Qnum r <? 0)%Z eqn:E; [lia|]. reflexivity.
Qed.

End FormatFacts.

Section LoggerFacts.
Import PyNum Logging.
Context {Kwargs : Type}.
Implicit Types (o : Logger.t Kwargs) (w : World) (c : @logger_call Kwargs).

(** What a call that records does: one clock reading, one entry, one
    line. *)
Lemma logger_invoke_records c o w :
  records (Logger.level_ o) c = true ->
  exists e line,
    logger_invoke c (o, w) =
      (Ok tt,
       ({| Logger.name := Logger.name o; Logger.level_ := Logger.level_ o;
           Logger.messages := Logger.messages o ++ [e] |},
        {| time_time := time_time w;
           datetime_now_isoformat := datetime_now_isoformat w;
           clock_reads := S (clock_reads w);
           stdout := stdout w ++ [line] |}))
    /\ level_and_text e = recorded c
    /\ Logger.timestamp e = datetime_now_isoformat w (clock_reads w).
Proof.
  intros Hrec. destruct c as [msg kw|msg kw|msg kw|msg kw|msg kw];
    try (eexists _, _; split; [reflexivity|split; reflexivity]).
  unfold records in Hrec. eexists _, _.
  split; [unfold logger_invoke, Logger.debug, bind at 1, Logger.self; cbn [fst];
          rewrite Hrec; reflexivity
         |split; reflexivity].
Qed.

Lemma logger_invoke_skips c o w :
  records (Logger.level_ o) c = false -> logger_invoke c (o, w) = (Ok tt, (o, w)).
Proof.
  intros Hrec. destruct c as [msg kw|msg kw|msg kw|msg kw|msg kw];
    try discriminate.
  unfold records in Hrec.
  unfold logger_invoke, Logger.debug, bind, Logger.self. cbn [fst].
  rewrite Hrec. reflexivity.
Qed.

(** X19: the level of a logger gates [debug] and nothing else.  After any
    sequence of calls the level is what it was, the messages are the old
    ones followed by one entry per recorded call, in call order and with
    the call's level and text, and one line was printed and one clock
    reading taken per recorded call; a call is recorded unless it is a
    [debug] on a logger whose level is neither "DEBUG" nor "VERBOSE". *)
Theorem logger_level_gates_debug_only (cs : list logger_call) o w :
  exists o' w',
    logger_run cs (o, w) = (Ok tt, (o', w'))
    /\ Logger.level_ o' = Logger.level_ o
    /\ Logger.name o' = Logger.name o
    /\ map level_and_text (Logger.messages o') =
       map level_and_text (Logger.messages o)
         ++ map recorded (List.filter (records (Logger.level_ o)) cs)
    /\ length (stdout w') =
       (length (stdout w) + length (List.filter (records (Logger.level_ o)) cs))%nat
    /\ clock_reads w' =
       (clock_reads w + length (List.filter (records (Logger.level_ o)) cs))%nat.
Proof.
  revert o w. induction cs as [|c cs IH]; intros o w.
  - exists o, w. simpl. rewrite app_nil_r. repeat split; lia.
  - simpl logger_run. simpl List.filter.
    destruct (records (Logger.level_ o) c) eqn:Hrec.
    + destruct (logger_invoke_records c o w Hrec) as (e & line & Hrun & He & _).
      unfold bind at 1. rewrite Hrun.
      match goal with |- context [logger_run cs (?o1, ?w1)] =>
        destruct (IH o1 w1) as (o' & w' & Hrest & Hl & Hn & Hm & Hout & Hclk) end.
      exists o', w'. split; [exact Hrest|]. cbn [Logger.level_ Logger.name
        Logger.messages stdout clock_reads] in *.
      split; [exact Hl|]. split; [exact Hn|]. split; [|split].
      * rewrite Hm, map_app, <- app_assoc. simpl. rewrite He. reflexivity.
      * rewrite Hout, length_app. simpl. lia.
      * rewrite Hclk. simpl. lia.
    + unfold bind at 1. rewrite (logger_invoke_skips c o w Hrec).
      apply IH.
Qed.

Lemma dict_get_set (levels : list (string * Z)) key v key' dflt :
  Logger.dict_get (Logger.dict_set levels key v) key' dflt =
  if String.eqb key key' then v else Logger.dict_get levels key' dflt.
Proof.
  induction levels as [|[k v0] levels IH]; simpl.
  - reflexivity.
  - destruct (String.eqb k key) eqn:Ek; simpl.
    + apply String.eqb_eq in Ek. subst k.
      destruct (String.eqb key key'); reflexivity.
    + destruct (String.eqb k key') eqn:Ek'; [|exact IH].
      apply String.eqb_eq in Ek'. subst k. rewrite String.eqb_sym, Ek. reflexivity.
Qed.

Lemma dict_set_keys (levels : list (string * Z)) key v :
  map fst (Logger.dict_set levels key v) =
  if Logger.str_in key (map fst levels) then map fst levels
  else map fst levels ++ [key].
Proof.
  induction levels as [|[k v0] levels IH]; simpl; [reflexivity|].
  rewrite (String.eqb_sym key k).
  destruct (String.eqb k key) eqn:Ek; simpl; [reflexivity|].
  rewrite IH. unfold Logger.str_in.
  destruct (existsb (String.eqb key) (map fst levels)); reflexivity.
Qed.

Lemma str_in_In x xs : Logger.str_in x xs = true <-> In x xs.
Proof.
  unfold Logger.str_in. rewrite existsb_exists. split.
  - intros (y & Hy & E). apply String.eqb_eq in E. subst y. exact Hy.
  - intros H. exists x. split; [exact H|apply String.eqb_refl].
Qed.

Lemma dict_set_total (levels : list (string * Z)) key :
  total_count (Logger.dict_set levels key (Logger.dict_get levels key 0 + 1)) =
  (total_count levels + 1)%Z.
Proof.
  unfold total_count.
  induction levels as [|[k v0] levels IH]; simpl; [reflexivity|].
  destruct (String.eqb k key); simpl; [lia|]. rewrite IH. lia.
Qed.

(** The loop of [get_summary], started on any dict. *)
Lemma summary_fold (msgs : list (Logger.entry Kwargs)) : forall levels,
  let summary :=
    fold_left
      (fun levels (msg : Logger.entry Kwargs) =>
         let level := Logger.level msg in
         Logger.dict_set levels level (Logger.dict_get levels level 0 + 1))
      msgs levels in
  (forall lvl,
      Logger.dict_get summary lvl 0 =
      (Logger.dict_get levels lvl 0
       + Z.of_nat (count_occ string_dec (map Logger.level msgs) lvl))%Z)
  /\ (forall lvl, In lvl (map fst summary) <->
                  In lvl (map fst levels) \/ In lvl (map Logger.level msgs))
  /\ (NoDup (map fst levels) -> NoDup (map fst summary))
  /\ total_count summary = (total_count levels + Z.of_nat (length msgs))%Z.
Proof.
  induction msgs as [|m msgs IH]; intros levels; cbv zeta.
  - simpl. repeat split; try tauto; intros; lia.
  - simpl fold_left.
    specialize (IH (Logger.dict_set levels (Logger.level m)
                      (Logger.dict_get levels (Logger.level m) 0 + 1))).
    cbv zeta in IH. destruct IH as (Hget & Hkeys & Hnd & Htot).
    split; [|split; [|split]].
    + intros lvl. rewrite Hget, dict_get_set. simpl.
      destruct (string_dec (Logger.level m) lvl) as [->|Hne].
      * rewrite String.eqb_refl. lia.
      * apply String.eqb_neq in Hne. rewrite Hne. lia.
    + intros lvl. rewrite Hkeys, dict_set_keys. simpl.
      destruct (Logger.str_in (Logger.level m) (map fst levels)) eqn:Hin.
      * apply str_in_In in Hin. split; [tauto|].
        intros [H|[<-|H]]; auto.
      * rewrite in_app_iff. simpl. tauto.
    + intros Hn. apply Hnd. rewrite dict_set_keys.
      destruct (Logger.str_in (Logger.level m) (map fst levels)) eqn:Hin;
        [exact Hn|].
      apply NoDup_app. split; [exact Hn|]. split.
      * intros x Hx [<-|[]]%list_elem_of_In.
        apply list_elem_of_In, str_in_In in Hx. congruence.
      * apply NoDup_singleton.
    + rewrite Htot, dict_set_total. simpl length. lia.
Qed.

(** X20: [get_summary] counts the messages by level: each level that
    occurs is a key, once, its value the number of messages of that
    level; no other key is there; and the values add up to the number of
    messages. *)
Theorem get_summary_counts o :
  let summary := Logger.get_summary o in
  NoDup (map fst summary)
  /\ (forall lvl, In lvl (map fst summary) <-> (0 < count_level lvl o)%nat)
  /\ (forall lvl, Logger.dict_get summary lvl 0 = Z.of_nat (count_level lvl o))
  /\ total_count summary = Z.of_nat (length (Logger.messages o)).
Proof.
  cbv zeta. unfold Logger.get_summary.
  destruct (summary_fold (Logger.messages o) []) as (Hget & Hkeys & Hnd & Htot).
  cbv zeta in *. split; [apply Hnd; constructor|]. split; [|split].
  - intros lvl. rewrite Hkeys. unfold count_level. split.
    + intros [[]|H]. apply (count_occ_In string_dec) in H. lia.
    + intros H. right. apply (count_occ_In string_dec). lia.
  - intros lvl. rewrite Hget. reflexivity.
  - rewrite Htot. reflexivity.
Qed.

End LoggerFacts.

Section TrackerFacts.
Import PyFloat Binary64 PyNum Logging.
Local Open Scope Q_scope.
Implicit Types (o : ProgressTracker.t) (w : World).

(** The elapsed time as the tracker computes it. *)
Lemma since_start_started o w t0 :
  ProgressTracker.start_time o = Some t0 ->
  ProgressTracker.since_start (o, w) =
  (Ok (float_sub (reading 0 w) t0), (o, after_reads 1 w)).
Proof.
  intros Hst. unfold ProgressTracker.since_start, bind, time, ProgressTracker.self,
    ProgressTracker.world, ProgressTracker.put, ret, reading, after_reads.
  cbn [fst snd]. rewrite Hst. rewrite Nat.add_0_r, Nat.add_1_r. reflexivity.
Qed.

Lemma since_start_unstarted o w :
  ProgressTracker.start_time o = None ->
  ProgressTracker.since_start (o, w) = (Raise TypeError, (o, after_reads 1 w)).
Proof.
  intros Hst. unfold ProgressTracker.since_start, bind, time, ProgressTracker.self,
    ProgressTracker.world, ProgressTracker.put, lift, after_reads.
  cbn [fst snd]. rewrite Hst. rewrite Nat.add_1_r. reflexivity.
Qed.

Lemma print_progress_zero_total final o w :
  ProgressTracker.total o = 0%Z ->
  ProgressTracker._print_progress final (o, w) = (Ok tt, (o, w)).
Proof.
  intros Ht. unfold ProgressTracker._print_progress, bind, ProgressTracker.self.
  cbn [fst]. rewrite Ht. reflexivity.
Qed.

Lemma after_reads_reads k j w : after_reads k (after_reads j w) = after_reads (j + k) w.
Proof. unfold after_reads. cbn. f_equal. lia. Qed.

Lemma nbind_ok {S A B} (m : M S A) (k : A -> M S B) s a s' :
  m s = (Ok a, s') -> bind m k s = k a s'.
Proof. intros E. unfold bind. rewrite E. reflexivity. Qed.

Lemma nbind_raise {S A B} (m : M S A) (k : A -> M S B) s e s' :
  m s = (Raise e, s') -> bind m k s = (Raise e, s').
Proof. intros E. unfold bind. rewrite E. reflexivity. Qed.

Lemma finish_zero_total o w t0 :
  ProgressTracker.total o = 0%Z ->
  ProgressTracker.start_time o = Some t0 ->
  ProgressTracker.finish (o, w) =
  (Ok (float_sub (reading 0 w) t0), (with_current (ProgressTracker.total o) o, after_reads 1 w)).
Proof.
  intros Ht Hst. unfold ProgressTracker.finish.
  rewrite (nbind_ok _ _ _ tt (with_current (ProgressTracker.total o) o, w)) by reflexivity.
  rewrite (nbind_ok _ _ _ _ _
             (print_progress_zero_total true (with_current (ProgressTracker.total o) o) w Ht)).
  rewrite (nbind_ok _ _ _ _ _
             (since_start_started (with_current (ProgressTracker.total o) o) w t0 Hst)).
  reflexivity.
Qed.

(** Any call on a started tracker of total zero returns, writes nothing
    and leaves such a tracker. *)
Lemma tracker_invoke_silent (c : tracker_call) o w :
  started_with_zero_total o ->
  exists o' w',
    tracker_invoke c (o, w) = (Ok tt, (o', w'))
    /\ started_with_zero_total o'
    /\ stdout w' = stdout w.
Proof.
  intros (Ht & (t0 & Hst) & (f & Hlu)).
  destruct c as [|count force|].
  - eexists _, _. split; [reflexivity|]. split; [|reflexivity].
    split; [exact Ht|]. split; [eexists; reflexivity|]. exists (FFin 0). reflexivity.
  - cbn [tracker_invoke]. unfold ProgressTracker.update.
    set (o1 := {| ProgressTracker.total := ProgressTracker.total o;
                  ProgressTracker.name := ProgressTracker.name o;
                  ProgressTracker.current :=
                    Z.min (ProgressTracker.current o + count) (ProgressTracker.total o);
                  ProgressTracker.start_time := ProgressTracker.start_time o;
                  ProgressTracker.last_update := ProgressTracker.last_update o |}).
    rewrite (nbind_ok _ _ _ tt (o1, w)) by reflexivity.
    rewrite (nbind_ok _ _ _ _ _ (since_start_started o1 w t0 Hst)).
    rewrite (nbind_ok _ _ _ o1 (o1, after_reads 1 w)) by reflexivity.
    assert (forall due : bool,
               exists o' w',
                 (if due
                  then bind (ProgressTracker._print_progress false)
                         (fun _ => ProgressTracker.assign
                            (fun o => {| ProgressTracker.total := ProgressTracker.total o;
                                         ProgressTracker.name := ProgressTracker.name o;
                                         ProgressTracker.current := ProgressTracker.current o;
                                         ProgressTracker.start_time := ProgressTracker.start_time o;
                                         ProgressTracker.last_update :=
                                           NFloat (float_sub (reading 0 w) t0) |}))
                  else ret tt) (o1, after_reads 1 w) = (Ok tt, (o', w'))
                 /\ started_with_zero_total o' /\ stdout w' = stdout w) as Hdue.
    { intros [|].
      - rewrite (nbind_ok _ _ _ _ _ (print_progress_zero_total false o1 _ Ht)).
        eexists _, _. split; [reflexivity|]. split; [|reflexivity].
        split; [exact Ht|]. split; [exists t0; exact Hst|]. eexists. reflexivity.
      - eexists _, _. split; [reflexivity|]. split; [|reflexivity].
        split; [exact Ht|]. split; [exists t0; exact Hst|]. exists f. exact Hlu. }
    destruct force.
    + rewrite (nbind_ok _ _ _ true (o1, after_reads 1 w)) by reflexivity.
      apply (Hdue true).
    + change (ProgressTracker.last_update o1) with (ProgressTracker.last_update o).
      rewrite Hlu.
      rewrite (nbind_ok _ _ _ (fle (FFin (1 # 2)) (float_sub (float_sub (reading 0 w) t0) f))
                 (o1, after_reads 1 w)) by reflexivity.
      apply Hdue.
  - cbn [tracker_invoke].
    rewrite (nbind_ok _ _ _ _ _ (finish_zero_total o w t0 Ht Hst)).
    eexists _, _. split; [reflexivity|]. split; [|reflexivity].
    split; [exact Ht|]. split; [exists t0; exact Hst|]. exists f. exact Hlu.
Qed.

Lemma tracker_run_silent (cs : list tracker_call) : forall o w,
  started_with_zero_total o ->
  exists o' w',
    tracker_run cs (o, w) = (Ok tt, (o', w')) /\ stdout w' = stdout w.
Proof.
  induction cs as [|c cs IH]; intros o w Ho.
  - exists o, w. split; reflexivity.
  - destruct (tracker_invoke_silent c o w Ho) as (o1 & w1 & E1 & Ho1 & Hw1).
    destruct (IH o1 w1 Ho1) as (o2 & w2 & E2 & Hw2).
    exists o2, w2. split.
    + cbn [tracker_run]. rewrite (nbind_ok _ _ _ _ _ E1). exact E2.
    + congruence.
Qed.

(** X21: a tracker made with total 0 and started never writes to the output
    and never raises, whatever updates and finishes follow. *)
Theorem tracker_of_zero_total_is_silent (name : string) (cs : list tracker_call) (w : World) :
  exists o' w',
    tracker_run (Start :: cs) (ProgressTracker.init 0 name, w) = (Ok tt, (o', w'))
    /\ stdout w' = stdout w.
Proof.
  cbn [tracker_run tracker_invoke].
  rewrite (nbind_ok _ _ _ tt
             ({| ProgressTracker.total := 0; ProgressTracker.name := name;
                 ProgressTracker.current := 0;
                 ProgressTracker.start_time := Some (reading 0 w);
                 ProgressTracker.last_update := NInt 0 |}, after_reads 1 w)).
  - edestruct (tracker_run_silent cs) as (o' & w' & E & Hw);
      [|exists o', w'; split; [exact E|exact Hw]].
    split; [reflexivity|].
    split; [eexists; reflexivity|]. exists (FFin 0). reflexivity.
  - unfold ProgressTracker.start, bind, time, ProgressTracker.assign, ProgressTracker.world,
      ProgressTracker.put, reading, after_reads. cbn [fst snd ProgressTracker.init
      ProgressTracker.total ProgressTracker.name].
    rewrite Nat.add_0_r, Nat.add_1_r. reflexivity.
Qed.

Lemma hundred : float_of_int 100 = Ok (FFin 100).
Proof. apply (float_of_int_exact 100). lia. Qed.

(** An exact quotient of two ints that fits 53 bits is the result of
    their division. *)
Lemma truediv_exact (a t k : Z) :
  t <> 0%Z -> a = (k * t)%Z -> (0 < k < 2 ^ 53)%Z ->
  truediv (NInt a) (NInt t) = Ok (FFin (inject_Z k)).
Proof.
  intros Ht Ha Hk. unfold truediv.
  destruct (Z.eqb_spec t 0) as [|_]; [contradiction|].
  assert (inject_Z a / inject_Z t == inject_Z k)%Q as Hq.
  { subst a. rewrite inject_Z_mult. field.
    intros H0. apply Ht. unfold Qeq in H0. simpl in H0. lia. }
  rewrite round_exact.
  - rewrite (Qred_complete _ _ Hq), Qred_inject_Z. reflexivity.
  - exists k, 0%Z. repeat split; try lia. rewrite Hq.
    change (2 ^ 0)%Q with 1%Q. rewrite Qmult_1_r. reflexivity.
  - rewrite Hq. pose proof (below_overflow k 0 Hk ltac:(lia)) as H.
    change (2 ^ 0)%Q with 1%Q in H. rewrite Qmult_1_r in H. exact H.
Qed.

Lemma lift_ok {S A B} (r : res A) (k : A -> M S B) s a :
  r = Ok a -> bind (lift r) k s = k a s.
Proof. intros ->. reflexivity. Qed.

Lemma lift_raise {S A B} (r : res A) (k : A -> M S B) s e :
  r = Raise e -> bind (lift r) k s = (Raise e, s).
Proof. intros ->. reflexivity. Qed.

Lemma full_percent : float_mul (FFin (inject_Z 1)) (FFin 100) = FFin 100.
Proof.
  unfold float_mul. change (inject_Z 1 * 100)%Q with (inject_Z 100).
  rewrite round_int by lia. reflexivity.
Qed.

(** What [_print_progress] writes for a tracker at its total. *)
Lemma print_progress_at_total final o w t0 :
  ProgressTracker.total o <> 0%Z ->
  ProgressTracker.current o = ProgressTracker.total o ->
  ProgressTracker.start_time o = Some t0 ->
  ProgressTracker._print_progress final (o, w) =
  (Ok tt,
   (o, after_write
         (if final
          then full_bar_line o (float_sub (reading 0 w) t0) ++ " - DONE" ++ NL
          else full_bar_line o (float_sub (reading 0 w) t0))%string
         (after_reads 1 w))).
Proof.
  intros Ht Hc Hst. unfold ProgressTracker._print_progress.
  rewrite (nbind_ok _ _ _ o (o, w)) by reflexivity.
  destruct (Z.eqb_spec (ProgressTracker.total o) 0) as [|_]; [contradiction|].
  rewrite (lift_ok _ _ _ _ (truediv_exact (ProgressTracker.current o) (ProgressTracker.total o) 1 Ht ltac:(lia) ltac:(lia))).
  rewrite (lift_ok _ _ _ _ hundred).
  rewrite (lift_ok _ _ _ _ (truediv_exact (40 * ProgressTracker.current o) (ProgressTracker.total o) 40 Ht ltac:(lia) ltac:(lia))).
  rewrite (lift_ok _ _ _ 40%Z) by reflexivity.
  rewrite (nbind_ok _ _ _ _ _ (since_start_started o w t0 Hst)).
  rewrite full_percent.
  change (flt (FFin 100) (FFin 100)) with false. rewrite Bool.andb_false_r.
  rewrite Hc. destruct final; reflexivity.
Qed.

(** X22: [finish] on a started tracker of a total other than zero sets
    [current] to the total, writes one line, the full bar of 40 cells at
    100.0% with the time since the start and [ - DONE] and a newline, and
    returns the time since the start at a second reading of the clock. *)
Theorem finish_writes_done_line o w t0 :
  ProgressTracker.total o <> 0%Z ->
  ProgressTracker.start_time o = Some t0 ->
  let o' := with_current (ProgressTracker.total o) o in
  let w1 := after_write
              (full_bar_line o (float_sub (reading 0 w) t0) ++ " - DONE" ++ NL)%string
              (after_reads 1 w) in
  ProgressTracker.finish (o, w) =
  (Ok (float_sub (reading 0 w1) t0), (o', after_reads 1 w1)).
Proof.
  intros Ht Hst o' w1. unfold ProgressTracker.finish.
  rewrite (nbind_ok _ _ _ tt (o', w)) by reflexivity.
  rewrite (nbind_ok _ _ _ _ _
             (print_progress_at_total true o' w t0 Ht eq_refl Hst)).
  rewrite (nbind_ok _ _ _ _ _ (since_start_started o' _ t0 Hst)).
  reflexivity.
Qed.

(** X22, witness: a tracker of total 10 under a clock that stands still. *)
Lemma finish_writes_done_line_witness :
  ProgressTracker.total LoggingDemo.started_tracker <> 0%Z
  /\ ProgressTracker.start_time LoggingDemo.started_tracker = Some (FFin 1000)
  /\ ProgressTracker.finish (LoggingDemo.started_tracker, LoggingDemo.frozen_world) =
     (Ok (FFin 0),
      (with_current 10 LoggingDemo.started_tracker,
       after_reads 1
         (after_write
            (full_bar_line LoggingDemo.started_tracker (FFin 0) ++ " - DONE" ++ NL)%string
            (after_reads 1 LoggingDemo.frozen_world)))).
Proof.
  split; [discriminate|]. split; [reflexivity|].
  apply (finish_writes_done_line LoggingDemo.started_tracker LoggingDemo.frozen_world
           (FFin 1000)); [discriminate|reflexivity].
Defined.

(** X23: before [start], [update] and [finish] raise TypeError, after they
    have changed [current] and read the clock once; nothing is written. *)
Theorem tracker_needs_start o w count force :
  ProgressTracker.start_time o = None ->
  ProgressTracker.update count force (o, w) =
    (Raise TypeError,
     (with_current (Z.min (ProgressTracker.current o + count) (ProgressTracker.total o)) o,
      after_reads 1 w))
  /\ ProgressTracker.finish (o, w) =
    (Raise TypeError, (with_current (ProgressTracker.total o) o, after_reads 1 w)).
Proof.
  intros Hst. split.
  - unfold ProgressTracker.update.
    rewrite (nbind_ok _ _ _ tt
               (with_current (Z.min (ProgressTracker.current o + count)
                                (ProgressTracker.total o)) o, w)) by reflexivity.
    apply nbind_raise. apply since_start_unstarted. exact Hst.
  - unfold ProgressTracker.finish.
    set (o' := with_current (ProgressTracker.total o) o).
    rewrite (nbind_ok _ _ _ tt (o', w)) by reflexivity.
    destruct (Z.eq_dec (ProgressTracker.total o) 0%Z) as [Ht|Ht].
    + rewrite (nbind_ok _ _ _ _ _ (print_progress_zero_total true o' w Ht)).
      apply nbind_raise. apply since_start_unstarted. exact Hst.
    + apply nbind_raise. unfold ProgressTracker._print_progress.
      rewrite (nbind_ok _ _ _ o' (o', w)) by reflexivity.
      change (ProgressTracker.total o') with (ProgressTracker.total o).
      change (ProgressTracker.current o') with (ProgressTracker.total o).
      destruct (Z.eqb_spec (ProgressTracker.total o) 0) as [|_]; [contradiction|].
      rewrite (lift_ok _ _ _ _ (truediv_exact (ProgressTracker.total o)
                                  (ProgressTracker.total o) 1 Ht ltac:(lia) ltac:(lia))).
      rewrite (lift_ok _ _ _ _ hundred).
      rewrite (lift_ok _ _ _ _ (truediv_exact (40 * ProgressTracker.total o)
                                  (ProgressTracker.total o) 40 Ht ltac:(lia) ltac:(lia))).
      rewrite (lift_ok _ _ _ 40%Z) by reflexivity.
      apply nbind_raise. apply since_start_unstarted. exact Hst.
Qed.

(** X23, witness: a tracker of total 10 that was never started. *)
Lemma tracker_needs_start_witness :
  ProgressTracker.start_time (ProgressTracker.init 10 "Processing") = None
  /\ ProgressTracker.update 1 false
       (ProgressTracker.init 10 "Processing", LoggingDemo.frozen_world) =
     (Raise TypeError,
      (with_current 1 (ProgressTracker.init 10 "Processing"),
       after_reads 1 LoggingDemo.frozen_world))
  /\ ProgressTracker.finish
       (ProgressTracker.init 10 "Processing", LoggingDemo.frozen_world) =
     (Raise TypeError,
      (with_current 10 (ProgressTracker.init 10 "Processing"),
       after_reads 1 LoggingDemo.frozen_world)).
Proof.
  split; [reflexivity|].
  apply (tracker_needs_start (ProgressTracker.init 10 "Processing")
           LoggingDemo.frozen_world 1 false).
  reflexivity.
Defined.

(** The least and the greatest quotient of two ints [0 < c < t <= 2^52],
    and the greatest double below 100. *)
Lemma dyadic53_lo52 : dyadic53 (1 # 2 ^ 52).
Proof. exists 1%Z, (-52)%Z. repeat split; try lia. Qed.

Lemma dyadic53_hi52 : dyadic53 (2 ^ 52 - 1 # 2 ^ 52).
Proof. exists (2 ^ 52 - 1)%Z, (-52)%Z. repeat split; try lia. Qed.

Lemma dyadic53_below_100 : dyadic53 (100 * 2 ^ 46 - 1 # 2 ^ 46).
Proof. exists (100 * 2 ^ 46 - 1)%Z, (-46)%Z. repeat split; try lia. Qed.

Lemma ratio_bounds (c t : Z) :
  (0 < c < t)%Z -> (t <= 2 ^ 52)%Z ->
  (1 # 2 ^ 52) <= inject_Z c / inject_Z t /\ inject_Z c / inject_Z t <= (2 ^ 52 - 1 # 2 ^ 52).
Proof.
  intros Hc Ht. destruct t as [|p|p]; try lia.
  unfold Qle, Qdiv, Qmult, Qinv, inject_Z. cbn [Qnum Qden].
  rewrite ?Pos.mul_1_l, ?Z.mul_1_r, ?Z.mul_1_l.
  change (Z.pos (2 ^ 52)) with (2 ^ 52)%Z.
  split; lia.
Qed.

Lemma float_sub_self (x : Q) : float_sub (FFin x) (FFin x) = FFin 0.
Proof.
  unfold float_sub, round.
  replace (Qnum (x - x)) with 0%Z; [reflexivity|].
  destruct x as [n d]. unfold Qminus, Qplus, Qopp. cbn [Qnum Qden]. lia.
Qed.

Lemma overflow_above_100 : (100 * 2 ^ 46 - 1 # 2 ^ 46) < 2 ^ 1024.
Proof.
  pose proof (below_overflow (100 * 2 ^ 46 - 1) (-46) ltac:(lia) ltac:(lia)) as H.
  exact H.
Qed.

(** With the clock still at the start time, a tracker between 0 and its
    total divides by an elapsed time of zero. *)
Lemma print_progress_stalled final o w x :
  (0 < ProgressTracker.current o < ProgressTracker.total o)%Z ->
  (ProgressTracker.total o <= 2 ^ 52)%Z ->
  ProgressTracker.start_time o = Some (FFin x) ->
  reading 0 w = FFin x ->
  ProgressTracker._print_progress final (o, w) =
  (Raise ZeroDivisionError, (o, after_reads 1 w)).
Proof.
  intros Hc Ht Hst Hclock. unfold ProgressTracker._print_progress.
  rewrite (nbind_ok _ _ _ o (o, w)) by reflexivity.
  destruct (Z.eqb_spec (ProgressTracker.total o) 0) as [E|_]; [lia|].
  destruct (ratio_bounds _ _ Hc Ht) as [Hlo Hhi].
  destruct (round_between _ _ _ dyadic53_lo52 dyadic53_hi52
              (below_overflow (2 ^ 52 - 1) (-52) ltac:(lia) ltac:(lia)) Hlo Hhi)
    as (r & Hr & Hrlo & Hrhi).
  assert (truediv (NInt (ProgressTracker.current o)) (NInt (ProgressTracker.total o))
          = Ok (FFin r)) as Hratio.
  { unfold truediv. destruct (Z.eqb_spec (ProgressTracker.total o) 0) as [E|_]; [lia|].
    rewrite Hr. reflexivity. }
  rewrite (lift_ok _ _ _ _ Hratio), (lift_ok _ _ _ _ hundred).
  assert ((1 # 2 ^ 52) <= r * 100 /\ r * 100 <= (100 * 2 ^ 46 - 1 # 2 ^ 46)) as [Hplo Hphi].
  { split.
    - apply Qle_trans with r; [exact Hrlo|].
      assert (0 <= r) by (eapply Qle_trans; [|exact Hrlo]; discriminate).
      Lqa.lra.
    - apply Qle_trans with ((2 ^ 52 - 1 # 2 ^ 52) * 100).
      + apply Qmult_le_compat_r; [exact Hrhi|discriminate].
      + unfold Qle. vm_compute. discriminate. }
  destruct (round_between _ _ _ dyadic53_lo52 dyadic53_below_100 overflow_above_100
              Hplo Hphi) as (pc & Hpc & _ & Hpchi).
  assert (float_mul (FFin r) (FFin 100) = FFin pc) as Hpercent by exact Hpc.
  rewrite Hpercent.
  assert ((1 # 2 ^ 52) <= inject_Z (40 * ProgressTracker.current o)
                           / inject_Z (ProgressTracker.total o)
          /\ inject_Z (40 * ProgressTracker.current o) / inject_Z (ProgressTracker.total o)
             <= inject_Z 40) as [Hqlo Hqhi].
  { destruct (ProgressTracker.total o) as [|p|p]; try lia.
    unfold Qle, Qdiv, Qmult, Qinv, inject_Z. cbn [Qnum Qden].
    rewrite ?Pos.mul_1_l, ?Z.mul_1_r, ?Z.mul_1_l.
    change (Z.pos (2 ^ 52)) with (2 ^ 52)%Z. split; lia. }
  destruct (round_between _ _ _ dyadic53_lo52 (dyadic53_int 40 ltac:(lia))
              (below_overflow 40 0 ltac:(lia) ltac:(lia)) Hqlo Hqhi)
    as (q & Hq & _ & _).
  assert (truediv (NInt (40 * ProgressTracker.current o)) (NInt (ProgressTracker.total o))
          = Ok (FFin q)) as Hquot.
  { unfold truediv. destruct (Z.eqb_spec (ProgressTracker.total o) 0) as [E|_]; [lia|].
    rewrite Hq. reflexivity. }
  rewrite (lift_ok _ _ _ _ Hquot).
  rewrite (lift_ok _ _ _ (Z.quot (Qnum q) (Zpos (Qden q)))) by reflexivity.
  rewrite (nbind_ok _ _ _ _ _ (since_start_started o w (FFin x) Hst)).
  rewrite Hclock, float_sub_self.
  replace (0 <? ProgressTracker.current o)%Z with true
    by (symmetry; apply Z.ltb_lt; lia).
  replace (flt (FFin pc) (FFin 100)) with true.
  2:{ symmetry. apply flt_fin. eapply Qle_lt_trans; [exact Hpchi|]. reflexivity. }
  cbn [andb].
  apply nbind_raise. apply lift_raise.
  unfold truediv. cbn [to_float rbind].
  rewrite float_of_int_exact by lia. reflexivity.
Qed.

(** X24: a forced [update] that leaves [current] between 0 and the total
    raises ZeroDivisionError when the clock, read for the progress line,
    still shows the start time: [current] is changed, the clock is read
    twice, nothing is written and [last_update] stays. *)
Theorem update_on_stalled_clock o w x count :
  let c := Z.min (ProgressTracker.current o + count) (ProgressTracker.total o) in
  ProgressTracker.start_time o = Some (FFin x) ->
  reading 1 w = FFin x ->
  (0 < c < ProgressTracker.total o)%Z ->
  (ProgressTracker.total o <= 2 ^ 52)%Z ->
  ProgressTracker.update count true (o, w) =
  (Raise ZeroDivisionError, (with_current c o, after_reads 1 (after_reads 1 w))).
Proof.
  intros c Hst Hclock Hc Ht. unfold ProgressTracker.update.
  rewrite (nbind_ok _ _ _ tt (with_current c o, w)) by reflexivity.
  rewrite (nbind_ok _ _ _ _ _ (since_start_started (with_current c o) w (FFin x) Hst)).
  rewrite (nbind_ok _ _ _ (with_current c o) (with_current c o, after_reads 1 w))
    by reflexivity.
  rewrite (nbind_ok _ _ _ true (with_current c o, after_reads 1 w)) by reflexivity.
  apply nbind_raise.
  apply (print_progress_stalled false (with_current c o) (after_reads 1 w) x Hc Ht Hst).
  rewrite <- Hclock. unfold reading, after_reads. cbn [time_time clock_reads].
  f_equal. lia.
Qed.

(** X24, witness: three of ten items done under a clock that stands
    still. *)
Lemma update_on_stalled_clock_witness :
  ProgressTracker.start_time LoggingDemo.started_tracker = Some (FFin 1000)
  /\ reading 1 LoggingDemo.frozen_world = FFin 1000
  /\ (0 < 3 < 10)%Z /\ (10 <= 2 ^ 52)%Z
  /\ ProgressTracker.update 3 true (LoggingDemo.started_tracker, LoggingDemo.frozen_world) =
     (Raise ZeroDivisionError,
      (with_current 3 LoggingDemo.started_tracker,
       after_reads 1 (after_reads 1 LoggingDemo.frozen_world))).
Proof.
  split; [reflexivity|]. split; [reflexivity|]. split; [lia|]. split; [lia|].
  apply (update_on_stalled_clock LoggingDemo.started_tracker LoggingDemo.frozen_world
           1000 3); [reflexivity|reflexivity|simpl; lia|simpl; lia].
Defined.

(** X25: a block under [with Timer(name)] and the same block under
    [with timer_context(name)] have the same outcome, whether the block
    returns or raises, read the clock alike and print the same line; the
    Timer object keeps the elapsed time that was printed. *)
Theorem Timer_and_timer_context_agree {A} (name : string) (body : M World A) (w : World) :
  let block := body (after_reads 1 w) in
  let e := float_sub (reading 0 (snd block)) (reading 0 w) in
  let line := ("  " ++ mark_success ++ " " ++ name ++ ": " ++ format_f 2 e ++ "s")%string in
  let w' := after_write (line ++ NL) (after_reads 1 (snd block)) in
  timer_context name body w = (fst block, w')
  /\ with_Timer name body w =
     (fst block,
      ({| Timer.name := name; Timer.start_time := Some (reading 0 w);
          Timer.elapsed := Some e |}, w')).
Proof.
  intros block e line w'.
  assert (forall v : World, S (clock_reads v) = (clock_reads v + 1)%nat) as Hs
    by (intros; lia).
  assert (forall v : World, clock_reads v = (clock_reads v + 0)%nat) as Hz
    by (intros; lia).
  split.
  - unfold timer_context, time, here, put_here, bind, print, write.
    rewrite Hs. fold (after_reads 1 w). fold block.
    destruct block as [outcome w2] eqn:Eb. cbn [fst snd] in *.
    unfold w', line, e, after_write, after_reads, reading. cbn [time_time clock_reads
      datetime_now_isoformat stdout].
    rewrite <- !Hz, <- !Hs. reflexivity.
  - unfold with_Timer, Timer.enter, Timer.exit, Timer.init, Timer.assign, Timer.self,
      Timer.world, Timer.put, time, bind, print, write.
    cbn [fst snd Timer.name Timer.start_time Timer.elapsed].
    rewrite Hs. fold (after_reads 1 w). fold block.
    destruct block as [outcome w2] eqn:Eb. cbn [fst snd Timer.name Timer.start_time
      Timer.elapsed] in *.
    unfold w', line, e, after_write, after_reads, reading. cbn [time_time clock_reads
      datetime_now_isoformat stdout].
    rewrite <- !Hz, <- !Hs. reflexivity.
Qed.

Lemma round_zero (d : Z) : round (inject_Z 0 / inject_Z d) = FFin 0.
Proof. unfold round. destruct d; reflexivity. Qed.

(** Truncation of a double between two consecutive integers. *)
Lemma quot_between (r : Q) (k : Z) :
  (0 <= k)%Z -> inject_Z k <= r -> r < inject_Z (k + 1) ->
  Z.quot (Qnum r) (Zpos (Qden r)) = k.
Proof.
  intros Hk Hlo Hhi. destruct r as [n d]. unfold Qle, Qlt, inject_Z in *.
  cbn [Qnum Qden] in *. rewrite ?Z.mul_1_r in *.
  rewrite Z.quot_div_nonneg by lia.
  symmetry. apply Z.div_unique with (r := (n - k * Zpos d)%Z); lia.
Qed.

(** The double nearest to [40 * c / t] truncates to the integer quotient. *)
Lemma filled_cells (c t : Z) :
  (0 <= c <= t)%Z -> (0 < t <= 2 ^ 47)%Z ->
  exists q, round (inject_Z (40 * c) / inject_Z t) = FFin q
            /\ Z.quot (Qnum q) (Zpos (Qden q)) = (40 * c / t)%Z.
Proof.
  intros Hc Ht.
  destruct (Z.eq_dec c 0%Z) as [->|Hc0].
  { exists 0. split; [apply round_zero|]. rewrite Z.mul_0_r, Z.div_0_l by lia. reflexivity. }
  set (k := (40 * c / t)%Z).
  assert (0 <= k <= 40)%Z as Hk.
  { unfold k. split; [apply Z.div_pos; lia|].
    apply Z.div_le_upper_bound; lia. }
  assert (t * k <= 40 * c)%Z as Hkl by (unfold k; apply Z.mul_div_le; lia).
  assert (40 * c < t * (k + 1))%Z as Hkh.
  { unfold k. pose proof (Z.mul_succ_div_gt (40 * c) t ltac:(lia)). lia. }
  set (lo := if (k =? 0)%Z then (1 # 2 ^ 52) else inject_Z k).
  set (hi := inject_Z ((k + 1) * 2 ^ 47 - 1) * 2 ^ (-47)).
  assert (dyadic53 lo) as Hdlo.
  { unfold lo. destruct (Z.eqb_spec k 0); [apply dyadic53_lo52|apply dyadic53_int; lia]. }
  assert (dyadic53 hi) as Hdhi by (apply dyadic53_scaled; lia).
  assert (hi < 2 ^ 1024) as Hmax by (apply below_overflow; lia).
  assert (inject_Z k <= lo) as Hklo.
  { unfold lo. destruct (Z.eqb_spec k 0) as [->|_]; [discriminate|apply Qle_refl]. }
  assert (hi < inject_Z (k + 1)) as Hhik.
  { unfold hi. change (2 ^ (-47)) with (1 # 2 ^ 47).
    unfold Qlt, Qmult, inject_Z. cbn [Qnum Qden].
    rewrite ?Pos.mul_1_l, ?Z.mul_1_r. change (Z.pos (2 ^ 47)) with (2 ^ 47)%Z. lia. }
  assert (lo <= inject_Z (40 * c) / inject_Z t /\ inject_Z (40 * c) / inject_Z t <= hi)
    as [Hlo Hhi].
  { unfold lo, hi. change (2 ^ (-47)) with (1 # 2 ^ 47).
    destruct t as [|p|p]; try lia.
    unfold Qle, Qdiv, Qmult, Qinv, inject_Z. cbn [Qnum Qden].
    rewrite ?Pos.mul_1_l, ?Z.mul_1_r, ?Z.mul_1_l. split.
    - destruct (Z.eqb_spec k 0) as [_|_]; cbn [Qnum Qden];
        rewrite ?Z.mul_1_r; change (Z.pos (2 ^ 52)) with (2 ^ 52)%Z; lia.
    - change (Z.pos (2 ^ 47)) with (2 ^ 47)%Z. nia. }
  destruct (round_between _ _ _ Hdlo Hdhi Hmax Hlo Hhi) as (q & Hq & Hqlo & Hqhi).
  exists q. split; [exact Hq|].
  apply quot_between; [lia| |].
  - eapply Qle_trans; eassumption.
  - eapply Qle_lt_trans; eassumption.
Qed.

Lemma truediv_fraction (c t : Z) :
  (0 <= c <= t)%Z -> (0 < t <= 2 ^ 52)%Z ->
  exists r, truediv (NInt c) (NInt t) = Ok (FFin r).
Proof.
  intros Hc Ht. unfold truediv.
  destruct (Z.eqb_spec t 0) as [|_]; [lia|].
  destruct (Z.eq_dec c 0%Z) as [->|Hc0].
  { exists 0. rewrite round_zero. reflexivity. }
  assert ((1 # 2 ^ 52) <= inject_Z c / inject_Z t /\ inject_Z c / inject_Z t <= inject_Z 1)
    as [Hlo Hhi].
  { destruct t as [|p|p]; try lia.
    unfold Qle, Qdiv, Qmult, Qinv, inject_Z. cbn [Qnum Qden].
    rewrite ?Pos.mul_1_l, ?Z.mul_1_r, ?Z.mul_1_l.
    change (Z.pos (2 ^ 52)) with (2 ^ 52)%Z. split; lia. }
  destruct (round_between _ _ _ dyadic53_lo52 (dyadic53_int 1 ltac:(lia))
              (below_overflow 1 0 ltac:(lia) ltac:(lia)) Hlo Hhi) as (r & Hr & _).
  exists r. rewrite Hr. reflexivity.
Qed.

(** Division of a small int by a float raises nothing but
    ZeroDivisionError. *)
Lemma truediv_int_float (n : Z) (f : pyfloat) :
  (- 2 ^ 53 < n < 2 ^ 53)%Z ->
  truediv (NInt n) (NFloat f) = Raise ZeroDivisionError
  \/ exists g, truediv (NInt n) (NFloat f) = Ok g.
Proof.
  intros Hn. unfold truediv. cbn [to_float rbind].
  rewrite float_of_int_exact by exact Hn. cbn [rbind].
  unfold float_div. destruct (is_zero f); [left; reflexivity|right; eexists; reflexivity].
Qed.

(** X26: for a started tracker with [0 <= current <= total] and a total
    from 1 to 2^47, [_print_progress] reads the clock once and either
    writes one line whose bar has [40 * current // total] full cells and
    empty cells up to 40, or raises ZeroDivisionError having written
    nothing; the tracker itself is not changed. *)
Theorem progress_bar_cells (final : bool) o w t0 :
  (0 <= ProgressTracker.current o <= ProgressTracker.total o)%Z ->
  (0 < ProgressTracker.total o <= 2 ^ 47)%Z ->
  ProgressTracker.start_time o = Some t0 ->
  (exists percent time_str,
      ProgressTracker._print_progress final (o, w) =
      (Ok tt,
       (o, after_write
             (progress_line o (40 * ProgressTracker.current o / ProgressTracker.total o)
                percent time_str final)
             (after_reads 1 w))))
  \/ ProgressTracker._print_progress final (o, w) =
     (Raise ZeroDivisionError, (o, after_reads 1 w)).
Proof.
  intros Hc Ht Hst. unfold ProgressTracker._print_progress.
  rewrite (nbind_ok _ _ _ o (o, w)) by reflexivity.
  destruct (Z.eqb_spec (ProgressTracker.total o) 0) as [E|_]; [lia|].
  destruct (truediv_fraction _ _ Hc ltac:(lia)) as (r & Hr).
  rewrite (lift_ok _ _ _ _ Hr), (lift_ok _ _ _ _ hundred).
  destruct (filled_cells _ _ Hc Ht) as (q & Hq & Hfilled).
  assert (truediv (NInt (40 * ProgressTracker.current o)) (NInt (ProgressTracker.total o))
          = Ok (FFin q)) as Hquot.
  { unfold truediv. destruct (Z.eqb_spec (ProgressTracker.total o) 0) as [E|_]; [lia|].
    rewrite Hq. reflexivity. }
  rewrite (lift_ok _ _ _ _ Hquot).
  rewrite (lift_ok _ _ _ (40 * ProgressTracker.current o / ProgressTracker.total o)%Z)
    by (cbn [int_of_float]; rewrite Hfilled; reflexivity).
  rewrite (nbind_ok _ _ _ _ _ (since_start_started o w t0 Hst)).
  set (elapsed := float_sub (reading 0 w) t0).
  set (percent := float_mul (FFin r) (FFin 100)).
  destruct ((0 <? ProgressTracker.current o)%Z && flt percent (FFin 100)).
  - destruct (truediv_int_float (ProgressTracker.current o) elapsed ltac:(lia))
      as [Hrate|(rate & Hrate)].
    { right. apply nbind_raise. apply (lift_raise _ _ _ _ Hrate). }
    destruct (truediv_int_float (ProgressTracker.total o - ProgressTracker.current o)
                rate ltac:(lia)) as [Hrem|(remaining & Hrem)].
    { right. apply nbind_raise. rewrite (lift_ok _ _ _ _ Hrate).
      apply (lift_raise _ _ _ _ Hrem). }
    left. exists (format_1f percent), ("ETA " ++ format_f 0 remaining ++ "s")%string.
    rewrite (nbind_ok _ _ _ ("ETA " ++ format_f 0 remaining ++ "s")%string
               (o, after_reads 1 w))
      by (rewrite (lift_ok _ _ _ _ Hrate), (lift_ok _ _ _ _ Hrem); reflexivity).
    unfold progress_line. destruct final; reflexivity.
  - left. exists (format_1f percent), (format_1f elapsed ++ "s")%string.
    rewrite (nbind_ok _ _ _ (format_1f elapsed ++ "s")%string (o, after_reads 1 w))
      by reflexivity.
    unfold progress_line. destruct final; reflexivity.
Qed.

(** X26, witness: five of ten items done. *)
Lemma progress_bar_cells_witness :
  (0 <= 5 <= 10)%Z /\ (0 < 10 <= 2 ^ 47)%Z
  /\ ((exists percent time_str,
          ProgressTracker._print_progress false
            (with_current 5 LoggingDemo.started_tracker, LoggingDemo.frozen_world) =
          (Ok tt,
           (with_current 5 LoggingDemo.started_tracker,
            after_write
              (progress_line (with_current 5 LoggingDemo.started_tracker) 20
                 percent time_str false)
              (after_reads 1 LoggingDemo.frozen_world))))
      \/ ProgressTracker._print_progress false
           (with_current 5 LoggingDemo.started_tracker, LoggingDemo.frozen_world) =
         (Raise ZeroDivisionError,
          (with_current 5 LoggingDemo.started_tracker,
           after_reads 1 LoggingDemo.frozen_world))).
Proof.
  split; [lia|]. split; [lia|].
  apply (progress_bar_cells false (with_current 5 LoggingDemo.started_tracker)
           LoggingDemo.frozen_world (FFin 1000)); [simpl; lia|simpl; lia|reflexivity].
Defined.

End TrackerFacts.
